(** * ArkainBrain pipeline executor: a shallow embedding

    The development follows [src/flows/pipeline.py] (stage timeouts, the
    timeout envelope [run_crew_with_timeout], the approval gate
    [hitl_checkpoint], the stages of [SlotStudioFlow]) and
    [src/web_app.py] (the job table, job creation and the start-up sweep
    [_recover_stale_jobs]).

    Conventions.
    - Time is counted in whole seconds.  A work unit is a thread whose
      progress is a sequence of one-second ticks; a tick may mutate the
      memory the thread shares with its caller.
    - Python dictionaries and the SQL table keyed by [id] are [gmap]s.
    - Code that can raise returns an [outcome]. *)

From Stdlib Require Import ZArith Lia.
From stdpp Require Import gmap strings list fin_maps.


(** ** Python values and exceptions *)

(** What [crew.kickoff()] hands back: [None] or some object, kept by its
    [str()] rendering. *)
Inductive pyobj : Type :=
| PyNone
| PyObj (repr : string).

(** [str(x)] *)
Definition py_str (x : pyobj) : string :=
  match x with
  | PyNone => "None"
  | PyObj r => r
  end.

(** An instance of [Exception] (what [except Exception] catches), by its
    class and its message. *)
Record exn : Type := Exn { exc_class : string; exc_msg : string }.

(** What a call can raise: any [BaseException].  An instance of
    [Exception] comes with its truth value [bool(e)], which is [True]
    unless its class defines [__bool__] or [__len__]; the others
    ([SystemExit], [KeyboardInterrupt], [GeneratorExit], and classes
    derived from [BaseException] directly) are kept by their class
    name. *)
Inductive raised : Type :=
| AnException (e : exn) (truth : bool)
| NotAnException (class_name : string).

Inductive outcome (A : Type) : Type :=
| Return (v : A)
| Raise (e : exn).
Arguments Return {A} v.
Arguments Raise {A} e.

(** ** Stage timeouts *)

(** The process environment restricted to the integer-valued variables the
    module reads with [int(os.getenv(name, default))].  (A value that
    [int()] rejects makes the import of the module fail, so no pipeline
    exists in that case.) *)
Definition getenv_int (environ : gmap string Z) (name : string) (default : Z) : Z :=
  match environ !! name with
  | Some v => v
  | None => default
  end.

Definition STAGE_TIMEOUTS (environ : gmap string Z) : gmap string Z :=
  <["research"   := getenv_int environ "TIMEOUT_RESEARCH" 900%Z]>
  (<["design"     := getenv_int environ "TIMEOUT_DESIGN" 900%Z]>
  (<["mood_board" := getenv_int environ "TIMEOUT_MOOD" 600%Z]>
  (<["production" := getenv_int environ "TIMEOUT_PRODUCTION" 1800%Z]>
  (<["recon"      := getenv_int environ "TIMEOUT_RECON" 600%Z]> ∅)))).

(** [STAGE_TIMEOUTS.get(stage_name, 1200)] *)
Definition stage_timeout (timeouts : gmap string Z) (stage_name : string) : Z :=
  match timeouts !! stage_name with
  | Some t => t
  | None => 1200%Z
  end.

(** ** The timeout envelope *)

Module Envelope.

Section envelope.

(** The memory a work unit shares with the code that started it. *)
Context {Shared : Type}.

(** A thread running [crew.kickoff()].  [Working f rest] works for one
    second, applies the mutation [f] to the shared memory and goes on as
    [rest]; [Returns v] and [Raises e] are the two ways [kickoff] ends;
    [Hangs] never comes back. *)
Inductive thread : Type :=
| Working (mutate : Shared -> Shared) (rest : thread)
| Returns (v : pyobj)
| Raises (r : raised)
| Hangs.

(** [thread.is_alive()] *)
Definition is_alive (th : thread) : bool :=
  match th with
  | Working _ _ | Hangs => true
  | Returns _ | Raises _ => false
  end.

(** The two one-slot lists [result_holder] and [error_holder]; the second
    holds the exception object, of which the envelope uses the truth
    value. *)
Record holders : Type := Holders {
  result_holder : pyobj;
  error_holder : option (exn * bool);
}.

(** What the closure [_run] has stored once the thread is where it is:
    both slots start as [None]; a normal end fills the first, an instance
    of [Exception] the second.  What [except Exception] does not catch
    ends the thread with both slots as they were. *)
Definition _run (th : thread) : holders :=
  match th with
  | Returns v => Holders v None
  | Raises (AnException e truth) => Holders PyNone (Some (e, truth))
  | Raises (NotAnException _) => Holders PyNone None
  | Working _ _ | Hangs => Holders PyNone None
  end.

(** The caller's wait. *)
Record joined : Type := Joined {
  j_thread : thread;     (* the thread when the wait ends *)
  j_shared : Shared;     (* the shared memory at that moment *)
  j_elapsed : nat;       (* seconds the caller waited *)
}.

(** [thread.start(); thread.join(timeout=timeout)]: the caller waits
    until the thread has ended or [timeout] seconds have passed. *)
Fixpoint join (timeout : nat) (th : thread) (s : Shared) : joined :=
  match th, timeout with
  | Working f rest, S n =>
      let r := join n rest (f s) in
      Joined (j_thread r) (j_shared r) (S (j_elapsed r))
  | Hangs, _ => Joined th s timeout
  | _, _ => Joined th s 0
  end.

Inductive console_line : Type :=
| TimeoutLine (stage_name : string) (timeout : Z)
| FailedLine (stage_name : string) (e : exn).

Record envelope_result : Type := EnvelopeResult {
  er_outcome : outcome pyobj;        (* returned value or raised exception *)
  er_shared : Shared;                (* shared memory when the caller resumes *)
  er_thread : thread;                (* the thread object when the caller resumes *)
  er_elapsed : nat;                  (* seconds spent in the call *)
  er_console : list console_line;    (* lines printed *)
}.

(** A negative [timeout] makes [join] return at once, as with 0.  The
    test [if error_holder[0]:] is on the truth value of what the slot
    holds. *)
Definition run_crew_with_timeout (timeouts : gmap string Z)
    (crew : thread) (stage_name : string) (s : Shared) : envelope_result :=
  let timeout := stage_timeout timeouts stage_name in
  let r := join (Z.to_nat timeout) crew s in
  let h := _run (j_thread r) in
  if is_alive (j_thread r) then
    EnvelopeResult (Return PyNone) (j_shared r) (j_thread r) (j_elapsed r)
                   [TimeoutLine stage_name timeout]
  else
    match error_holder h with
    | Some (e, true) =>
        EnvelopeResult (Raise e) (j_shared r) (j_thread r) (j_elapsed r)
                       [FailedLine stage_name e]
    | _ =>
        EnvelopeResult (Return (result_holder h)) (j_shared r) (j_thread r)
                       (j_elapsed r) []
    end.

(** *** Describing a thread independently of the wait *)

(** The thread after [n] seconds. *)
Fixpoint after (n : nat) (th : thread) : thread :=
  match th, n with
  | Working _ rest, S m => after m rest
  | _, _ => th
  end.

(** The mutations the thread applies during its first [n] seconds, in
    order. *)
Fixpoint mutations_within (n : nat) (th : thread) : list (Shared -> Shared) :=
  match th, n with
  | Working f rest, S m => f :: mutations_within m rest
  | _, _ => []
  end.

Definition apply_mutations (fs : list (Shared -> Shared)) (s : Shared) : Shared :=
  foldl (fun acc f => f acc) s fs.

End envelope.

Arguments thread : clear implicits.
Arguments joined : clear implicits.
Arguments envelope_result : clear implicits.

End Envelope.

(** ** The job table of [web_app.py] *)

Module JobStore.

(** The four values the [status] column takes. *)
Inductive JobStatus : Type := queued | running | complete | failed.

#[export] Instance JobStatus_eq_dec : EqDecision JobStatus.
Proof. solve_decision. Defined.

(** The text stored in the column. *)
Definition status_text (s : JobStatus) : string :=
  match s with
  | queued => "queued"
  | running => "running"
  | complete => "complete"
  | failed => "failed"
  end.

(** A row of [jobs]; the primary key [id] is the key of the table below.
    [created_at] and [completed_at] hold UTC text of the fixed shape
    [YYYY-MM-DD HH:MM:SS], which SQLite compares as text and which
    therefore orders like the number of seconds kept here. *)
Record Job : Type := mkJob {
  user_id : string;
  job_type : string;
  title : string;
  params : option string;
  status : JobStatus;
  current_stage : option string;
  output_dir : option string;
  error : option string;
  created_at : Z;
  completed_at : option Z;
}.

#[export] Instance Job_eq_dec : EqDecision Job.
Proof. solve_decision. Defined.

Definition set_status (s : JobStatus) (j : Job) : Job :=
  mkJob (user_id j) (job_type j) (title j) (params j) s (current_stage j)
        (output_dir j) (error j) (created_at j) (completed_at j).

Definition set_error (e : option string) (j : Job) : Job :=
  mkJob (user_id j) (job_type j) (title j) (params j) (status j) (current_stage j)
        (output_dir j) e (created_at j) (completed_at j).

Definition set_current_stage (st : option string) (j : Job) : Job :=
  mkJob (user_id j) (job_type j) (title j) (params j) (status j) st
        (output_dir j) (error j) (created_at j) (completed_at j).

(** [INSERT INTO jobs (id,user_id,job_type,title,params,status) VALUES
    (?,?,?,?,?,'queued')]; the other columns take their defaults.  A second
    row with the same primary key is refused. *)
Definition insert_job (job_id uid jtype jtitle jparams : string) (now : Z)
    (db : gmap string Job) : outcome (gmap string Job) :=
  match db !! job_id with
  | Some _ => Raise (Exn "sqlite3.IntegrityError" "UNIQUE constraint failed: jobs.id")
  | None =>
      Return (<[job_id := mkJob uid jtype jtitle (Some jparams) queued
                                (Some "Initializing") None None now None]> db)
  end.

(** The table write of [api_launch_pipeline]; [job_id] is the first eight
    characters of a fresh UUID. *)
Definition api_launch_pipeline (job_id uid theme params_json : string) (now : Z)
    (db : gmap string Job) : outcome (gmap string Job) :=
  insert_job job_id uid "slot_pipeline" theme params_json now db.

(** The table write of [api_launch_recon]. *)
Definition api_launch_recon (job_id uid sn state_json : string) (now : Z)
    (db : gmap string Job) : outcome (gmap string Job) :=
  insert_job job_id uid "state_recon" ("Recon: " +:+ sn) state_json now db.

(** *** The start-up sweep *)

(** [datetime('now', '-75 minutes')] *)
Definition STALE_AFTER_SECONDS : Z := 75 * 60.

Definition stale_cutoff (now : Z) : Z := (now - STALE_AFTER_SECONDS)%Z.

(** [status IN ('running','queued') AND created_at < datetime('now', '-75 minutes')] *)
Definition is_stale (now : Z) (j : Job) : bool :=
  match status j with
  | running | queued => bool_decide (created_at j < stale_cutoff now)%Z
  | complete | failed => false
  end.

(** [SELECT id, title FROM jobs WHERE ...] *)
Definition select_stale (now : Z) (db : gmap string Job) : list (string * string) :=
  (fun kv => (kv.1, title kv.2)) <$>
    filter (fun kv => is_stale now kv.2 = true) (map_to_list db).

Definition TIMED_OUT_ERROR : string :=
  "Timed out — exceeded maximum pipeline duration".

(** The row [SET status='failed', error='...'] leaves. *)
Definition reaped (j : Job) : Job :=
  set_error (Some TIMED_OUT_ERROR) (set_status failed j).

(** [UPDATE jobs SET status='failed', error='...' WHERE id=?] *)
Definition mark_failed (job_id : string) (db : gmap string Job) : gmap string Job :=
  alter reaped job_id db.

(** The sweep returns the table and the count it prints when it has marked
    something.  An SQLite error anywhere inside is swallowed by the
    surrounding [try]; nothing is committed then and the table stays as it
    was, which is the table this function is not applied to. *)
Definition _recover_stale_jobs (now : Z) (db : gmap string Job)
    : gmap string Job * option nat :=
  let stale := select_stale now db in
  let db' := foldl (fun acc job => mark_failed job.1 acc) db stale in
  (db', match stale with [] => None | _ => Some (length stale) end).

(** [_update_stage_db] of [pipeline.py]: the current stage label of one
    job; no job id means command-line mode and no table. *)
Definition _update_stage_db (job_id stage : string) (db : gmap string Job)
    : gmap string Job :=
  if decide (job_id = "") then db
  else alter (set_current_stage (Some stage)) job_id db.

(** *** Status writes of the worker *)

Inductive worker_event : Type :=
| WorkerStarts
| WorkerCompletes (now : Z)
| WorkerFails (err : string).

(** Modelled from the spec: the worker process ([worker.py], started by
    [_spawn_worker]) is not among the sources.  Its status writes are
    single-row updates keyed by the job identifier that follow
    queued -> running -> {complete, failed}: the job is marked running when
    the worker picks it up, complete when the flow returns, and failed with
    the error text when the flow raises. *)
Definition worker_update (job_id : string) (ev : worker_event)
    (db : gmap string Job) : gmap string Job :=
  match db !! job_id with
  | None => db
  | Some j =>
      match ev, status j with
      | WorkerStarts, queued => <[job_id := set_status running j]> db
      | WorkerCompletes now, running =>
          <[job_id := mkJob (user_id j) (job_type j) (title j) (params j) complete
                            (current_stage j) (output_dir j) (error j)
                            (created_at j) (Some now)]> db
      | WorkerFails err, running =>
          <[job_id := set_error (Some err) (set_status failed j)]> db
      | _, _ => db
      end
  end.

(** *** Every write to the table *)

Inductive update : Type :=
| LaunchPipeline (job_id uid theme params_json : string) (now : Z)
| LaunchRecon (job_id uid sn state_json : string) (now : Z)
| Sweep (now : Z)
| StageLabel (job_id stage : string)
| Worker (job_id : string) (ev : worker_event).

Definition committed (r : outcome (gmap string Job)) (db : gmap string Job)
    : gmap string Job :=
  match r with
  | Return db' => db'
  | Raise _ => db
  end.

Definition apply_update (u : update) (db : gmap string Job) : gmap string Job :=
  match u with
  | LaunchPipeline job_id uid theme p now =>
      committed (api_launch_pipeline job_id uid theme p now db) db
  | LaunchRecon job_id uid sn p now =>
      committed (api_launch_recon job_id uid sn p now db) db
  | Sweep now => (_recover_stale_jobs now db).1
  | StageLabel job_id stage => _update_stage_db job_id stage db
  | Worker job_id ev => worker_update job_id ev db
  end.

(** The tables a sequence of writes goes through, the starting one first. *)
Fixpoint history (us : list update) (db : gmap string Job) : list (gmap string Job) :=
  match us with
  | [] => [db]
  | u :: us' => db :: history us' (apply_update u db)
  end.

Fixpoint run_updates (us : list update) (db : gmap string Job) : gmap string Job :=
  match us with
  | [] => db
  | u :: us' => run_updates us' (apply_update u db)
  end.

(** The status of a job in a table. *)
Definition status_of (job_id : string) (db : gmap string Job) : option JobStatus :=
  status <$> db !! job_id.

(** The edges the specification names. *)
Definition spec_edge (a b : JobStatus) : bool :=
  match a, b with
  | queued, running | running, complete | running, failed => true
  | _, _ => false
  end.

(** The edges the code takes: the sweep also fails a job that is still
    queued. *)
Definition code_edge (a b : JobStatus) : bool :=
  match a, b with
  | queued, failed => true
  | _, _ => spec_edge a b
  end.

(** What one write may do to the status of a job: leave it, create the
    job as queued, or move it along an edge of [edge]; a job is never
    deleted. *)
Definition moves_along (edge : JobStatus -> JobStatus -> bool)
    (before after : option JobStatus) : Prop :=
  match before, after with
  | None, None => True
  | None, Some b => b = queued
  | Some a, Some b => a = b \/ edge a b = true
  | Some _, None => False
  end.

(** *** The sum of the stage timeouts *)

Definition sum_stage_timeouts (timeouts : gmap string Z) : Z :=
  map_fold (fun _ t acc => (t + acc)%Z) 0%Z timeouts.

End JobStore.

(** ** Python text *)

Module PyStr.

(** A [str] is its sequence of code points.  Program text (stage names,
    labels, keys) is kept as [string] and enters a [str] through [lit]. *)
Definition pystr : Type := list N.

Definition lit (s : string) : pystr :=
  Ascii.N_of_ascii <$> String.list_ascii_of_string s.

(** The part of the Unicode character database the code consults beyond
    ASCII: which code points are alphanumeric, and the lower-casing of a
    text that is not plain ASCII (which is not a character-by-character
    map). *)
Record UnicodeTables : Type := {
  unicode_isalnum : N -> bool;
  unicode_lower : pystr -> pystr;
}.

Definition is_ascii (c : N) : bool := (c <? 128)%N.

Definition is_digit (c : N) : bool := (48 <=? c)%N && (c <=? 57)%N.
Definition is_upper (c : N) : bool := (65 <=? c)%N && (c <=? 90)%N.
Definition is_lower (c : N) : bool := (97 <=? c)%N && (c <=? 122)%N.

(** [c.isalnum()] *)
Definition isalnum (ucd : UnicodeTables) (c : N) : bool :=
  if is_ascii c then is_digit c || is_upper c || is_lower c
  else unicode_isalnum ucd c.

Definition ascii_lower (c : N) : N := if is_upper c then (c + 32)%N else c.

(** [s.lower()] *)
Definition lower (ucd : UnicodeTables) (s : pystr) : pystr :=
  if forallb is_ascii s then ascii_lower <$> s else unicode_lower ucd s.

(** Tables for a world of plain ASCII text: nothing else is alphanumeric
    or has a case. *)
Definition ascii_tables : UnicodeTables :=
  {| unicode_isalnum := fun _ => false; unicode_lower := fun s => s |}.

(** [bool(s)] for an optional text: [None] and the empty text are falsy. *)
Definition truthy (s : option pystr) : bool :=
  match s with
  | Some (_ :: _) => true
  | _ => false
  end.

End PyStr.

(** ** Pure POSIX paths, as [pathlib] keeps them *)

Module PyPath.

Import PyStr.

Definition SLASH : N := 47.
Definition DOT : N := 46.

Record Path : Type := mkPath {
  anchor : pystr;          (* the root: empty, [/] or [//] *)
  parts : list pystr;      (* the components after the root *)
}.

(** The pieces of a text between slashes. *)
Fixpoint split_slash (s : pystr) : list pystr :=
  match s with
  | [] => [[]]
  | c :: s' =>
      if (c =? SLASH)%N then [] :: split_slash s'
      else match split_slash s' with
           | [] => [[c]]
           | w :: ws => (c :: w) :: ws
           end
  end.

(** Empty pieces and single dots are dropped. *)
Definition keep_component (w : pystr) : bool :=
  negb (bool_decide (w = [])) && negb (bool_decide (w = [DOT])).

(** Exactly two leading slashes are kept as they are; one, or three and
    more, make the root [/]. *)
Definition root_of (s : pystr) : pystr :=
  match s with
  | a :: b :: c :: _ =>
      if (a =? SLASH)%N then
        if (b =? SLASH)%N then
          if (c =? SLASH)%N then [SLASH] else [SLASH; SLASH]
        else [SLASH]
      else []
  | [a; b] =>
      if (a =? SLASH)%N then
        if (b =? SLASH)%N then [SLASH; SLASH] else [SLASH]
      else []
  | [a] => if (a =? SLASH)%N then [SLASH] else []
  | [] => []
  end.

(** [Path(s)] *)
Definition parse (s : pystr) : Path :=
  mkPath (root_of s) (filter (fun w => keep_component w = true) (split_slash s)).

(** [p / s]: an absolute right-hand side replaces the left one. *)
Definition joinpath (p : Path) (s : pystr) : Path :=
  match root_of s with
  | [] => mkPath (anchor p) (parts p ++ parts (parse s))
  | _ => parse s
  end.

Fixpoint join_slash (ws : list pystr) : pystr :=
  match ws with
  | [] => []
  | [w] => w
  | w :: ws' => w ++ SLASH :: join_slash ws'
  end.

(** [str(p)] *)
Definition to_str (p : Path) : pystr :=
  match anchor p, parts p with
  | [], [] => [DOT]
  | a, ws => a ++ join_slash ws
  end.

(** Neither a slash, nor a backslash, nor a dot. *)
Definition plain (c : N) : Prop := c <> 47%N /\ c <> 92%N /\ c <> 46%N.

(** [p.parent] *)
Definition parent (p : Path) : Path :=
  mkPath (anchor p) (removelast (parts p)).

(** [p.name] *)
Definition name (p : Path) : pystr := List.last (parts p) [].

End PyPath.

(** ** The pipeline flow of [pipeline.py] *)

Module Flow.

Import PyStr.

(** A float, kept by its [repr]; the flow only copies floats. *)
Definition pyfloat : Type := string.

(** JSON values, as [json.loads] returns them. *)
#[warnings="-register-all"]
Inductive json : Type :=
| JNull
| JBool (b : bool)
| JNum (repr : string)
| JStr (s : pystr)
| JArr (items : list json)
| JObj (fields : list (string * json)).

(** A [dict] with text keys. *)
Definition Document : Type := list (string * json).

Fixpoint assoc (k : string) (d : Document) : option json :=
  match d with
  | [] => None
  | (k', v) :: d' => if decide (k = k') then Some v else assoc k d'
  end.

(** [x.get(k, default)]; only a [dict] has [get]. *)
Definition json_get (x : json) (k : string) (default : json) : outcome json :=
  match x with
  | JObj d => Return (match assoc k d with Some v => v | None => default end)
  | _ => Raise (Exn "AttributeError" "object has no attribute 'get'")
  end.

(** [bool(d)] for an optional [dict]: [None] and the empty one are falsy. *)
Definition present (d : option Document) : bool :=
  match d with
  | Some (_ :: _) => true
  | _ => false
  end.

(** Modelled from the spec: [models/schemas.py] is not among the sources.
    The fields are the input parameters of a job, as [api_launch_pipeline]
    collects them and the flow reads them. *)
Record GameIdeaInput : Type := mkIdea {
  theme : pystr;
  target_markets : list pystr;
  volatility : pystr;
  target_rtp : pyfloat;
  grid_cols : Z;
  grid_rows : Z;
  ways_or_lines : pystr;
  max_win_multiplier : Z;
  art_style : pystr;
  requested_features : list pystr;
  competitor_references : list pystr;
  special_requirements : pystr;
  enable_recon : bool;
}.

(** Instants ([datetime.now()], kept as ISO text by the code) are seconds. *)
Record PipelineState : Type := mkState {
  job_id : string;
  game_idea : option GameIdeaInput;
  game_slug : pystr;
  output_dir : pystr;
  trend_radar : option Document;
  jurisdiction_constraints : option Document;
  market_research : option Document;
  research_approved : bool;
  gdd : option Document;
  math_model : option Document;
  optimized_rtp : option pyfloat;
  player_behavior : option Document;
  design_math_approved : bool;
  mood_board : option Document;
  mood_board_approved : bool;
  approved_mood_board_index : Z;
  vision_qa_results : list Document;
  art_assets : option Document;
  compliance : option Document;
  patent_scan : option Document;
  sound_design : option Document;
  prototype_path : pystr;
  certification_plan : option Document;
  recon_data : option Document;
  total_tokens_used : Z;
  total_images_generated : Z;
  estimated_cost_usd : pyfloat;
  errors : list pystr;
  hitl_approvals : gmap string bool;
  started_at : option Z;
  completed_at : option Z;
  pdf_files : list pystr;
}.

Definition set_game_slug (v : pystr) (st : PipelineState) : PipelineState :=
  mkState (job_id st) (game_idea st) v (output_dir st) (trend_radar st)
    (jurisdiction_constraints st) (market_research st) (research_approved
    st) (gdd st) (math_model st) (optimized_rtp st) (player_behavior st)
    (design_math_approved st) (mood_board st) (mood_board_approved st)
    (approved_mood_board_index st) (vision_qa_results st) (art_assets st)
    (compliance st) (patent_scan st) (sound_design st) (prototype_path st)
    (certification_plan st) (recon_data st) (total_tokens_used st)
    (total_images_generated st) (estimated_cost_usd st) (errors st)
    (hitl_approvals st) (started_at st) (completed_at st) (pdf_files st).

Definition set_output_dir (v : pystr) (st : PipelineState) : PipelineState :=
  mkState (job_id st) (game_idea st) (game_slug st) v (trend_radar st)
    (jurisdiction_constraints st) (market_research st) (research_approved
    st) (gdd st) (math_model st) (optimized_rtp st) (player_behavior st)
    (design_math_approved st) (mood_board st) (mood_board_approved st)
    (approved_mood_board_index st) (vision_qa_results st) (art_assets st)
    (compliance st) (patent_scan st) (sound_design st) (prototype_path st)
    (certification_plan st) (recon_data st) (total_tokens_used st)
    (total_images_generated st) (estimated_cost_usd st) (errors st)
    (hitl_approvals st) (started_at st) (completed_at st) (pdf_files st).

Definition set_research_approved (v : bool) (st : PipelineState) : PipelineState :=
  mkState (job_id st) (game_idea st) (game_slug st) (output_dir st)
    (trend_radar st) (jurisdiction_constraints st) (market_research st) v
    (gdd st) (math_model st) (optimized_rtp st) (player_behavior st)
    (design_math_approved st) (mood_board st) (mood_board_approved st)
    (approved_mood_board_index st) (vision_qa_results st) (art_assets st)
    (compliance st) (patent_scan st) (sound_design st) (prototype_path st)
    (certification_plan st) (recon_data st) (total_tokens_used st)
    (total_images_generated st) (estimated_cost_usd st) (errors st)
    (hitl_approvals st) (started_at st) (completed_at st) (pdf_files st).

Definition set_design_math_approved (v : bool) (st : PipelineState) : PipelineState :=
  mkState (job_id st) (game_idea st) (game_slug st) (output_dir st)
    (trend_radar st) (jurisdiction_constraints st) (market_research st)
    (research_approved st) (gdd st) (math_model st) (optimized_rtp st)
    (player_behavior st) v (mood_board st) (mood_board_approved st)
    (approved_mood_board_index st) (vision_qa_results st) (art_assets st)
    (compliance st) (patent_scan st) (sound_design st) (prototype_path st)
    (certification_plan st) (recon_data st) (total_tokens_used st)
    (total_images_generated st) (estimated_cost_usd st) (errors st)
    (hitl_approvals st) (started_at st) (completed_at st) (pdf_files st).

Definition set_mood_board (v : option Document) (st : PipelineState) : PipelineState :=
  mkState (job_id st) (game_idea st) (game_slug st) (output_dir st)
    (trend_radar st) (jurisdiction_constraints st) (market_research st)
    (research_approved st) (gdd st) (math_model st) (optimized_rtp st)
    (player_behavior st) (design_math_approved st) v (mood_board_approved
    st) (approved_mood_board_index st) (vision_qa_results st) (art_assets
    st) (compliance st) (patent_scan st) (sound_design st) (prototype_path
    st) (certification_plan st) (recon_data st) (total_tokens_used st)
    (total_images_generated st) (estimated_cost_usd st) (errors st)
    (hitl_approvals st) (started_at st) (completed_at st) (pdf_files st).

Definition set_mood_board_approved (v : bool) (st : PipelineState) : PipelineState :=
  mkState (job_id st) (game_idea st) (game_slug st) (output_dir st)
    (trend_radar st) (jurisdiction_constraints st) (market_research st)
    (research_approved st) (gdd st) (math_model st) (optimized_rtp st)
    (player_behavior st) (design_math_approved st) (mood_board st) v
    (approved_mood_board_index st) (vision_qa_results st) (art_assets st)
    (compliance st) (patent_scan st) (sound_design st) (prototype_path st)
    (certification_plan st) (recon_data st) (total_tokens_used st)
    (total_images_generated st) (estimated_cost_usd st) (errors st)
    (hitl_approvals st) (started_at st) (completed_at st) (pdf_files st).

Definition set_total_tokens_used (v : Z) (st : PipelineState) : PipelineState :=
  mkState (job_id st) (game_idea st) (game_slug st) (output_dir st)
    (trend_radar st) (jurisdiction_constraints st) (market_research st)
    (research_approved st) (gdd st) (math_model st) (optimized_rtp st)
    (player_behavior st) (design_math_approved st) (mood_board st)
    (mood_board_approved st) (approved_mood_board_index st)
    (vision_qa_results st) (art_assets st) (compliance st) (patent_scan st)
    (sound_design st) (prototype_path st) (certification_plan st)
    (recon_data st) v (total_images_generated st) (estimated_cost_usd st)
    (errors st) (hitl_approvals st) (started_at st) (completed_at st)
    (pdf_files st).

Definition set_estimated_cost_usd (v : pyfloat) (st : PipelineState) : PipelineState :=
  mkState (job_id st) (game_idea st) (game_slug st) (output_dir st)
    (trend_radar st) (jurisdiction_constraints st) (market_research st)
    (research_approved st) (gdd st) (math_model st) (optimized_rtp st)
    (player_behavior st) (design_math_approved st) (mood_board st)
    (mood_board_approved st) (approved_mood_board_index st)
    (vision_qa_results st) (art_assets st) (compliance st) (patent_scan st)
    (sound_design st) (prototype_path st) (certification_plan st)
    (recon_data st) (total_tokens_used st) (total_images_generated st) v
    (errors st) (hitl_approvals st) (started_at st) (completed_at st)
    (pdf_files st).

Definition set_errors (v : list pystr) (st : PipelineState) : PipelineState :=
  mkState (job_id st) (game_idea st) (game_slug st) (output_dir st)
    (trend_radar st) (jurisdiction_constraints st) (market_research st)
    (research_approved st) (gdd st) (math_model st) (optimized_rtp st)
    (player_behavior st) (design_math_approved st) (mood_board st)
    (mood_board_approved st) (approved_mood_board_index st)
    (vision_qa_results st) (art_assets st) (compliance st) (patent_scan st)
    (sound_design st) (prototype_path st) (certification_plan st)
    (recon_data st) (total_tokens_used st) (total_images_generated st)
    (estimated_cost_usd st) v (hitl_approvals st) (started_at st)
    (completed_at st) (pdf_files st).

Definition set_hitl_approvals (v : gmap string bool) (st : PipelineState) : PipelineState :=
  mkState (job_id st) (game_idea st) (game_slug st) (output_dir st)
    (trend_radar st) (jurisdiction_constraints st) (market_research st)
    (research_approved st) (gdd st) (math_model st) (optimized_rtp st)
    (player_behavior st) (design_math_approved st) (mood_board st)
    (mood_board_approved st) (approved_mood_board_index st)
    (vision_qa_results st) (art_assets st) (compliance st) (patent_scan st)
    (sound_design st) (prototype_path st) (certification_plan st)
    (recon_data st) (total_tokens_used st) (total_images_generated st)
    (estimated_cost_usd st) (errors st) v (started_at st) (completed_at st)
    (pdf_files st).

Definition set_started_at (v : option Z) (st : PipelineState) : PipelineState :=
  mkState (job_id st) (game_idea st) (game_slug st) (output_dir st)
    (trend_radar st) (jurisdiction_constraints st) (market_research st)
    (research_approved st) (gdd st) (math_model st) (optimized_rtp st)
    (player_behavior st) (design_math_approved st) (mood_board st)
    (mood_board_approved st) (approved_mood_board_index st)
    (vision_qa_results st) (art_assets st) (compliance st) (patent_scan st)
    (sound_design st) (prototype_path st) (certification_plan st)
    (recon_data st) (total_tokens_used st) (total_images_generated st)
    (estimated_cost_usd st) (errors st) (hitl_approvals st) v (completed_at
    st) (pdf_files st).

Definition set_completed_at (v : option Z) (st : PipelineState) : PipelineState :=
  mkState (job_id st) (game_idea st) (game_slug st) (output_dir st)
    (trend_radar st) (jurisdiction_constraints st) (market_research st)
    (research_approved st) (gdd st) (math_model st) (optimized_rtp st)
    (player_behavior st) (design_math_approved st) (mood_board st)
    (mood_board_approved st) (approved_mood_board_index st)
    (vision_qa_results st) (art_assets st) (compliance st) (patent_scan st)
    (sound_design st) (prototype_path st) (certification_plan st)
    (recon_data st) (total_tokens_used st) (total_images_generated st)
    (estimated_cost_usd st) (errors st) (hitl_approvals st) (started_at st)
    v (pdf_files st).

(** The state of a flow that has not started: the defaults of the model
    class, with the job id and the idea the caller gives. *)
Definition initial_state (job : string) (idea : option GameIdeaInput) : PipelineState :=
  mkState job idea [] [] None None None false None None None None false None false
          0%Z [] None None None None [] None None 0%Z 0%Z "0.0" [] ∅ None None [].

(** Modelled from the spec: [config/settings.py] is not among the sources.
    [CostTracker.summary()] gives the running totals of a job. *)
Record CostSummary : Type := mkCost {
  total_tokens : Z;
  cost_estimated_usd : pyfloat;
  cost_details : Document;
}.

(** The dictionary written to [PACKAGE_MANIFEST.json], key by key. *)
Record Manifest : Type := mkManifest {
  m_game_title : pystr;
  m_game_slug : pystr;
  m_generated_at : Z;
  m_pipeline_version : string;
  m_llm_routing : string * string;
  m_preflight_trend_radar : bool;
  m_preflight_jurisdiction_constraints : bool;
  m_preflight_blockers : json;
  m_optimized_rtp : option pyfloat;
  m_player_behavior : bool;
  m_vision_qa_checks : nat;
  m_patent_scan : bool;
  m_sound_design : bool;
  m_prototype : bool;
  m_certification_plan : bool;
  m_cost : CostSummary;
  m_input_parameters : GameIdeaInput;
  m_files_generated : list pystr;
  m_pdf_files : list pystr;
  m_total_files : nat;
  m_total_images : nat;
  m_hitl_approvals : gmap string bool;
  m_errors : list pystr;
  m_started_at : option Z;
  m_completed_at : Z;
}.

(** What a path of the file system holds. *)
Inductive file : Type :=
| Directory
| TextFile (content : pystr)
| ManifestFile (m : Manifest).

Definition is_manifest (f : file) : bool :=
  match f with
  | ManifestFile _ => true
  | _ => false
  end.

(** What the flow does to the people and channels around it, in order. *)
Inductive event : Type :=
| AutoApproved (name : string)                       (* a console line *)
| WaitedForWebDecision (name : string) (files : list pystr)
| AskedConfirm (name : string)                       (* [Confirm.ask] *)
| AskedFeedback (name : string)                      (* [Prompt.ask] *)
| RecordedApproval (name : string) (approved : bool) (* [hitl_approvals[name] = ...] *).

(** Whether an event keeps the caller waiting for somebody. *)
Definition blocks (ev : event) : bool :=
  match ev with
  | WaitedForWebDecision _ _ | AskedConfirm _ | AskedFeedback _ => true
  | AutoApproved _ | RecordedApproval _ _ => false
  end.

Definition is_record_of (name : string) (ev : event) : bool :=
  match ev with
  | RecordedApproval n _ => bool_decide (n = name)
  | _ => false
  end.

(** Everything a stage can touch. *)
Record World : Type := mkWorld {
  w_state : PipelineState;                  (* [self.state] *)
  w_files : gmap pystr file;                (* the file system, by path text *)
  w_jobs : gmap string JobStore.Job;        (* the job table *)
  w_clock : Z;                              (* the wall clock, in seconds *)
  w_cost : CostSummary;                     (* [self.cost_tracker] *)
  w_events : list event;                    (* interactions so far *)
  w_abandoned : list (Envelope.thread (gmap pystr file));
                                            (* threads the envelope stopped waiting for *)
}.

Definition with_state (st : PipelineState) (w : World) : World :=
  mkWorld st (w_files w) (w_jobs w) (w_clock w) (w_cost w) (w_events w) (w_abandoned w).

Definition with_files (fs : gmap pystr file) (w : World) : World :=
  mkWorld (w_state w) fs (w_jobs w) (w_clock w) (w_cost w) (w_events w) (w_abandoned w).

Definition with_jobs (db : gmap string JobStore.Job) (w : World) : World :=
  mkWorld (w_state w) (w_files w) db (w_clock w) (w_cost w) (w_events w) (w_abandoned w).

Definition with_event (ev : event) (w : World) : World :=
  mkWorld (w_state w) (w_files w) (w_jobs w) (w_clock w) (w_cost w)
          (w_events w ++ [ev]) (w_abandoned w).

(** The world [seconds] later. *)
Definition later (seconds : nat) (w : World) : World :=
  mkWorld (w_state w) (w_files w) (w_jobs w) (w_clock w + Z.of_nat seconds)%Z
          (w_cost w) (w_events w) (w_abandoned w).

(** A stage: it ends with a value or an exception, and leaves a world. *)
Definition M (A : Type) : Type := World -> outcome A * World.

Definition ret {A : Type} (a : A) : M A := fun w => (Return a, w).

Definition raise {A : Type} (e : exn) : M A := fun w => (Raise e, w).

(** What a call outside the flow gave: its value, or its exception. *)
Definition lift {A : Type} (o : outcome A) : M A := fun w => (o, w).

Definition bind {A B : Type} (m : M A) (k : A -> M B) : M B :=
  fun w =>
    match m w with
    | (Return a, w') => k a w'
    | (Raise e, w') => (Raise e, w')
    end.

Notation "x <~ m ;; k" := (bind m (fun x => k))
  (at level 20, m at level 99, k at level 200, only parsing).
Notation "'run' m ;; k" := (bind m (fun _ => k))
  (at level 20, m at level 99, k at level 200, only parsing).

Definition get_state : M PipelineState := fun w => (Return (w_state w), w).

Definition modify_state (f : PipelineState -> PipelineState) : M unit :=
  fun w => (Return tt, with_state (f (w_state w)) w).

Definition emit (ev : event) : M unit := fun w => (Return tt, with_event ev w).

(** [try: m  except Exception: pass] *)
Definition swallow (m : M unit) : M unit :=
  fun w =>
    match m w with
    | (Return _, w') => (Return tt, w')
    | (Raise _, w') => (Return tt, w')
    end.

(** [lst[-n:]] for a positive [n] *)
Definition last_n {A : Type} (n : nat) (l : list A) : list A :=
  drop (length l - n) l.

(** The world after [_update_stage_db(self.state.job_id, label)]. *)
Definition relabel (label : string) (w : World) : World :=
  with_jobs (JobStore._update_stage_db (job_id (w_state w)) label (w_jobs w)) w.

(** Several stage labels in a row. *)
Definition relabels (labels : list string) (w : World) : World :=
  foldl (fun acc label => relabel label acc) w labels.

(** The state once a decision and, possibly, an error entry are in. *)
Definition decided (name : string) (approved : bool) (entries : list pystr)
    (st : PipelineState) : PipelineState :=
  set_errors (errors st ++ entries)
    (set_hitl_approvals (<[name := approved]> (hitl_approvals st)) st).

(** The world after a gate that went through [evs]. *)
Definition after_gate (name : string) (approved : bool) (entries : list pystr)
    (evs : list event) (w : World) : World :=
  mkWorld (decided name approved entries (w_state w)) (w_files w) (w_jobs w)
          (w_clock w) (w_cost w) (w_events w ++ evs) (w_abandoned w).

(** *** Files *)

Definition FileSystem : Type := gmap pystr file.

(** [Path(base, name)] as path text. *)
Definition under (base : pystr) (name : pystr) : PyPath.Path :=
  PyPath.joinpath (PyPath.parse base) name.

(** [p.write_text(...)]: the directory must be there, and [p] must not be
    a directory. *)
Definition write_file (p : PyPath.Path) (f : file) (fs : FileSystem)
    : outcome FileSystem :=
  match fs !! PyPath.to_str (PyPath.parent p) with
  | Some Directory =>
      match fs !! PyPath.to_str p with
      | Some Directory => Raise (Exn "IsADirectoryError" "Is a directory")
      | _ => Return (<[PyPath.to_str p := f]> fs)
      end
  | Some _ => Raise (Exn "NotADirectoryError" "Not a directory")
  | None => Raise (Exn "FileNotFoundError" "No such file or directory")
  end.

(** [p.mkdir(parents=True, exist_ok=True)], component by component:
    [made] are the components already dealt with, [todo] the ones left.
    Something other than a directory makes it fail: in the place of the
    last component with [FileExistsError], in the way of a later one with
    [NotADirectoryError].  What was created before a failure stays. *)
Fixpoint mkdir_parents (root : pystr) (made todo : list pystr) (fs : FileSystem)
    : outcome unit * FileSystem :=
  match todo with
  | [] => (Return tt, fs)
  | c :: todo' =>
      let here := PyPath.to_str (PyPath.mkPath root (made ++ [c])) in
      match fs !! here with
      | Some Directory => mkdir_parents root (made ++ [c]) todo' fs
      | Some _ =>
          (Raise (match todo' with
                  | [] => Exn "FileExistsError" "File exists"
                  | _ :: _ => Exn "NotADirectoryError" "Not a directory"
                  end), fs)
      | None => mkdir_parents root (made ++ [c]) todo' (<[here := Directory]> fs)
      end
  end.

Definition mkdir (p : PyPath.Path) (fs : FileSystem) : outcome unit * FileSystem :=
  mkdir_parents (PyPath.anchor p) [] (PyPath.parts p) fs.

(** [for sub in subs: Path(base, sub).mkdir(parents=True, exist_ok=True)] *)
Fixpoint make_skeleton (base : pystr) (subs : list string) (fs : FileSystem)
    : outcome unit * FileSystem :=
  match subs with
  | [] => (Return tt, fs)
  | sub :: subs' =>
      match mkdir (under base (lit sub)) fs with
      | (Return _, fs') => make_skeleton base subs' fs'
      | (Raise e, fs') => (Raise e, fs')
      end
  end.

(** *** Timestamps *)

Record datetime : Type := mkDatetime {
  year : N; month : N; day : N; hour : N; minute : N; second : N;
}.

Definition digit (n : N) : N := (48 + n mod 10)%N.

Definition pad2 (n : N) : pystr := [digit (n / 10); digit n].

Definition pad4 (n : N) : pystr :=
  [digit (n / 1000); digit (n / 100); digit (n / 10); digit n].

Definition UNDERSCORE : N := 95.

(** [strftime("%Y%m%d_%H%M%S")]; the year of a [datetime] has at most four
    digits. *)
Definition strftime_compact (d : datetime) : pystr :=
  pad4 (year d) ++ pad2 (month d) ++ pad2 (day d) ++ [UNDERSCORE]
    ++ pad2 (hour d) ++ pad2 (minute d) ++ pad2 (second d).

(** *** What lies outside the flow *)

(** Configuration, people and collaborators.  The stage bodies named here
    are the parts of a stage that build tasks, run crews and tools and
    parse what they wrote; they may do anything to the world and may
    raise. *)
Record Outside : Type := mkOutside {
  ucd : UnicodeTables;
  HITL_ENABLED : bool;                         (* [PipelineConfig.HITL_ENABLED] *)
  OUTPUT_DIR : option pystr;                   (* [os.getenv("OUTPUT_DIR")] *)
  TIMEOUT_ENV : gmap string Z;                 (* the [TIMEOUT_*] variables *)
  LLM_ROUTING : string * string;               (* [LLMConfig.HEAVY], [LLMConfig.LIGHT] *)
  calendar : Z -> datetime;                    (* an instant as local date and time *)
  (* whether [tools.web_hitl] can be imported *)
  web_hitl_importable : bool;
  (* the web approval channel: job id, stage, summary, files *)
  web_hitl_checkpoint :
    string -> string -> pystr -> list pystr -> outcome (bool * option pystr);
  (* [sorted(out.rglob("*"))], regular files only, relative to [out] *)
  sorted_output_files : FileSystem -> pystr -> outcome (list pystr);
  (* [Confirm.ask] and [Prompt.ask] at a checkpoint: what is typed, or the
     exception of a terminal that cannot be read ([EOFError] on a closed
     standard input) *)
  confirm_ask : string -> outcome bool;
  prompt_ask : string -> outcome pystr;
  (* the seconds an interaction keeps the flow waiting for somebody *)
  waited : event -> nat;
  (* the adversarial review crew for a stage; raising when it cannot be built *)
  review_crew : string -> World -> outcome (Envelope.thread FileSystem);
  mood_board_crew : World -> Envelope.thread FileSystem;
  preflight_body : M unit;
  research_body : M unit;
  design_and_math_body : M unit;
  production_body : M unit;
  (* prototype and PDF generation, each inside its own [try] *)
  prototype_and_pdfs : World -> World;
  (* [output_path.rglob("*")]: the regular files, and the number of images *)
  rglob_files : FileSystem -> pystr -> list pystr;
  rglob_image_count : FileSystem -> pystr -> nat;
}.

Section flow.

Context (out : Outside).

(** [SlotStudioFlow(auto_mode=...)] *)
Context (auto_mode : bool).

(** [_update_stage_db(self.state.job_id, label)] *)
Definition update_stage (label : string) : M unit :=
  fun w => (Return tt, relabel label w).

(** [run_crew_with_timeout(crew, stage_name, console)] inside the flow: the
    crew works on the file system; the wait moves the clock; a thread that
    is still alive stays behind. *)
Definition enveloped (crew : Envelope.thread FileSystem) (stage_name : string)
    : M pyobj :=
  fun w =>
    let r := Envelope.run_crew_with_timeout
               (STAGE_TIMEOUTS (TIMEOUT_ENV out)) crew stage_name (w_files w) in
    (Envelope.er_outcome r,
     mkWorld (w_state w) (Envelope.er_shared r) (w_jobs w)
             (w_clock w + Z.of_nat (Envelope.er_elapsed r))%Z (w_cost w) (w_events w)
             (if Envelope.is_alive (Envelope.er_thread r)
              then w_abandoned w ++ [Envelope.er_thread r]
              else w_abandoned w)).

(** [self.state.game_idea.<field>]: there must be an idea. *)
Definition the_idea : M GameIdeaInput :=
  fun w =>
    match game_idea (w_state w) with
    | Some idea => (Return idea, w)
    | None => (Raise (Exn "AttributeError" "'NoneType' object has no attribute"), w)
    end.

(** [d.get(...)] on a state field that must hold a [dict]. *)
Definition the_dict (field : PipelineState -> option Document) : M Document :=
  fun w =>
    match field (w_state w) with
    | Some d => (Return d, w)
    | None => (Raise (Exn "AttributeError" "'NoneType' object has no attribute 'get'"), w)
    end.

(** *** The approval gate *)

Definition rejection_entry (name : string) (feedback : pystr) : pystr :=
  lit "HITL rejection at " ++ lit name ++ lit ": " ++ feedback.

(** [state.hitl_approvals[name] = approved] *)
Definition record_approval (name : string) (approved : bool) : M unit :=
  run emit (RecordedApproval name approved) ;;
  modify_state (fun st => set_hitl_approvals (<[name := approved]> (hitl_approvals st)) st).

(** [state.errors.append(entry)] *)
Definition append_error (entry : pystr) : M unit :=
  modify_state (fun st => set_errors (errors st ++ [entry]) st).

(** An interaction that blocks: it is logged, and the clock has moved on
    by the time the flow goes on. *)
Definition wait_for (ev : event) : M unit :=
  fun w => (Return tt, later (waited out ev) (with_event ev w)).

(** The command-line branch of [hitl_checkpoint].  Neither prompt is
    inside a [try]: what it raises leaves the gate, after the approval
    has been stored when it is the second prompt that raises. *)
Definition cli_checkpoint (name : string) : M bool :=
  run wait_for (AskedConfirm name) ;;
  approved <~ lift (confirm_ask out name) ;;
  run record_approval name approved ;;
  if approved then ret true
  else
    run wait_for (AskedFeedback name) ;;
    fb <~ lift (prompt_ask out name) ;;
    run (if bool_decide (lower (ucd out) fb = lit "skip") then ret tt
         else append_error (rejection_entry name fb)) ;;
    ret false.

(** The web branch of [hitl_checkpoint], up to the point where the
    decision is in; the import, listing the files or the channel itself
    can raise.
    (The title handed to the channel is the name with its underscores
    replaced and its words capitalised; it is left out here.) *)
Definition web_decision (name : string) (summary : pystr)
    : M (bool * option pystr) :=
  fun w =>
    if negb (web_hitl_importable out)
    then (Raise (Exn "ImportError" "No module named 'tools.web_hitl'"), w)
    else
    match sorted_output_files out (w_files w) (output_dir (w_state w)) with
    | Raise e => (Raise e, w)
    | Return files =>
        let asked := WaitedForWebDecision name (last_n 20 files) in
        let w' := later (waited out asked) (with_event asked w) in
        (web_hitl_checkpoint out (job_id (w_state w)) name summary (last_n 20 files), w')
    end.

Definition hitl_checkpoint (name : string) (summary : pystr) (auto : bool) : M bool :=
  if auto || negb (HITL_ENABLED out) then
    run emit (AutoApproved name) ;;
    run record_approval name true ;;
    ret true
  else
    fun w =>
      if bool_decide (job_id (w_state w) = "") then cli_checkpoint name w
      else
        match web_decision name summary w with
        | (Return (approved, feedback), w') =>
            (run record_approval name approved ;;
             run (if negb approved && truthy feedback
                  then append_error (rejection_entry name (default [] feedback))
                  else ret tt) ;;
             ret approved) w'
        | (Raise _, w') => cli_checkpoint name w'
        end.

(** *** The stages *)

Definition NL : pystr := [10%N].

(** [_run_adversarial_review(stage, context_summary)]: a best-effort
    critique; whatever goes wrong inside is swallowed.  (The context text
    only feeds the reviewer's prompt.) *)
Definition _run_adversarial_review (stage : string) : M unit :=
  swallow
    (crew <~ (fun w => (review_crew out stage w, w)) ;;
     result <~ enveloped crew "recon" ;;
     fun w =>
       let review_path :=
         under (output_dir (w_state w)) (lit ("adversarial_review_" +:+ stage +:+ ".md")) in
       match w_files w !! PyPath.to_str review_path with
       | Some _ => (Return tt, w)
       | None =>
           match write_file review_path (TextFile (lit (py_str result))) (w_files w) with
           | Return fs => (Return tt, with_files fs w)
           | Raise e => (Raise e, w)
           end
       end).

Definition slug_of (theme_text : pystr) : pystr :=
  take 40 ((fun c => if isalnum (ucd out) c then c else UNDERSCORE)
             <$> lower (ucd out) theme_text).

Definition SKELETON : list string :=
  ["00_preflight"; "01_research"; "02_design"; "03_math"; "04_art/mood_boards";
   "04_art/symbols"; "04_art/backgrounds"; "04_art/ui";
   "04_audio"; "05_legal"; "06_pdf"; "07_prototype"].

Definition output_root : PyPath.Path :=
  PyPath.parse (default (lit "./output") (OUTPUT_DIR out)).

Definition initialize : M unit :=
  run update_stage "Initializing pipeline" ;;
  idea <~ the_idea ;;
  fun w =>
    let now := w_clock w in
    let slug := slug_of (theme idea) in
    let ts := strftime_compact (calendar out now) in
    let new_slug := slug ++ [UNDERSCORE] ++ ts in
    let new_dir := PyPath.to_str (PyPath.joinpath output_root new_slug) in
    let st :=
      set_output_dir new_dir
        (set_game_slug new_slug (set_started_at (Some now) (w_state w))) in
    match make_skeleton new_dir SKELETON (w_files w) with
    | (r, fs) => (r, with_files fs (with_state st w))
    end.

Definition run_preflight : M unit :=
  run update_stage "Pre-flight intelligence" ;;
  preflight_body out.

Definition run_research : M unit :=
  run update_stage "Market research (15 min)" ;;
  research_body out.

Definition checkpoint_research : M unit :=
  run update_stage "Research review" ;;
  idea <~ the_idea ;;
  run _run_adversarial_review "post_research" ;;
  st <~ get_state ;;
  approved <~ hitl_checkpoint "post_research"
    (lit "Research complete for '" ++ theme idea ++ lit "'." ++ NL
     ++ lit "See: " ++ output_dir st ++ lit "/01_research/" ++ NL
     ++ lit "Adversarial review: " ++ output_dir st
     ++ lit "/adversarial_review_post_research.md")
    auto_mode ;;
  modify_state (set_research_approved approved).

Definition run_design_and_math : M unit :=
  run update_stage "GDD + Math model (15 min)" ;;
  st <~ get_state ;;
  if negb (research_approved st) then ret tt
  else design_and_math_body out.

Definition checkpoint_design : M unit :=
  run update_stage "Design review" ;;
  st <~ get_state ;;
  if negb (research_approved st) then ret tt
  else
    idea <~ the_idea ;;
    gdd_doc <~ the_dict gdd ;;
    math_doc <~ the_dict math_model ;;
    run _run_adversarial_review "post_design_math" ;;
    st' <~ get_state ;;
    approved <~ hitl_checkpoint "post_design_math"
      (lit "GDD + Math complete. This is the CRITICAL checkpoint." ++ NL
       ++ lit "GDD: " ++ output_dir st' ++ lit "/02_design/" ++ NL
       ++ lit "Math: " ++ output_dir st' ++ lit "/03_math/" ++ NL
       ++ lit "Adversarial review: " ++ output_dir st'
       ++ lit "/adversarial_review_post_design_math.md")
      auto_mode ;;
    modify_state (set_design_math_approved approved).

Definition run_mood_boards : M unit :=
  run update_stage "Mood boards (10 min)" ;;
  st <~ get_state ;;
  if negb (design_math_approved st) then ret tt
  else
    idea <~ the_idea ;;
    crew <~ (fun w => (Return (mood_board_crew out w), w)) ;;
    result <~ enveloped crew "mood_board" ;;
    modify_state (set_mood_board (Some [("output", JStr (lit (py_str result)))])).

Definition checkpoint_art : M unit :=
  run update_stage "Art direction review" ;;
  st <~ get_state ;;
  if negb (design_math_approved st) then ret tt
  else
    idea <~ the_idea ;;
    mood_doc <~ the_dict mood_board ;;
    run _run_adversarial_review "post_art_review" ;;
    st' <~ get_state ;;
    approved <~ hitl_checkpoint "post_art_review"
      (lit "Mood boards in: " ++ output_dir st' ++ lit "/04_art/mood_boards/" ++ NL
       ++ lit "Adversarial review: " ++ output_dir st'
       ++ lit "/adversarial_review_post_art_review.md" ++ NL
       ++ lit "Select preferred direction.")
      auto_mode ;;
    modify_state (set_mood_board_approved approved).

Definition run_production : M unit :=
  run update_stage "Art + Audio + Compliance (30 min)" ;;
  st <~ get_state ;;
  if negb (mood_board_approved st) then ret tt
  else production_body out.

(** ["blockers"] of the manifest *)
Definition manifest_blockers (st : PipelineState) : outcome json :=
  match jurisdiction_constraints st with
  | Some (kv :: d) =>
      match json_get (JObj (kv :: d)) "intersection" (JObj []) with
      | Return x => json_get x "blockers" (JArr [])
      | Raise e => Raise e
      end
  | _ => Return (JArr [])
  end.

Definition MANIFEST_NAME : string := "PACKAGE_MANIFEST.json".

(** The dictionary [manifest] of [assemble_package]. *)
Definition build_manifest (w : World) : outcome Manifest :=
  let st := w_state w in
  let all_files := rglob_files out (w_files w) (output_dir st) in
  let image_count := rglob_image_count out (w_files w) (output_dir st) in
  match game_idea st with
  | None => Raise (Exn "AttributeError" "'NoneType' object has no attribute 'theme'")
  | Some idea =>
      match manifest_blockers st with
      | Raise e => Raise e
      | Return blockers =>
          Return (mkManifest
            (theme idea) (game_slug st) (w_clock w) "4.0.0" (LLM_ROUTING out)
            (present (trend_radar st)) (present (jurisdiction_constraints st)) blockers
            (optimized_rtp st) (present (player_behavior st))
            (length (vision_qa_results st))
            (present (patent_scan st)) (present (sound_design st))
            (truthy (Some (prototype_path st))) (present (certification_plan st))
            (w_cost w) idea all_files (pdf_files st) (length all_files) image_count
            (hitl_approvals st) (errors st) (started_at st) (w_clock w))
      end
  end.

(** The stage returns [None] from its guard and the state at its end. *)
Definition assemble_package : M (option PipelineState) :=
  run update_stage "Assembling final package" ;;
  st <~ get_state ;;
  if negb (mood_board_approved st) then ret None
  else
    run (fun w => (Return tt, prototype_and_pdfs out w)) ;;
    fun w =>
      match build_manifest w with
      | Raise e => (Raise e, w)
      | Return m =>
          match write_file (under (output_dir (w_state w)) (lit MANIFEST_NAME))
                           (ManifestFile m) (w_files w) with
          | Raise e => (Raise e, w)
          | Return fs =>
              let st' :=
                set_estimated_cost_usd (cost_estimated_usd (w_cost w))
                  (set_total_tokens_used (total_tokens (w_cost w))
                     (set_completed_at (Some (w_clock w)) (w_state w))) in
              (Return (Some st'), with_state st' (with_files fs w))
          end
      end.

(** [flow.kickoff()]: the stages in the order their listeners chain them. *)
Definition kickoff : M (option PipelineState) :=
  run initialize ;;
  run run_preflight ;;
  run run_research ;;
  run checkpoint_research ;;
  run run_design_and_math ;;
  run checkpoint_design ;;
  run run_mood_boards ;;
  run checkpoint_art ;;
  run run_production ;;
  assemble_package.

(** The stages that follow each checkpoint, as [kickoff] chains them. *)
Definition after_art_checkpoint : M (option PipelineState) :=
  run run_production ;;
  assemble_package.

Definition after_design_checkpoint : M (option PipelineState) :=
  run run_mood_boards ;;
  run checkpoint_art ;;
  after_art_checkpoint.

Definition after_research_checkpoint : M (option PipelineState) :=
  run run_design_and_math ;;
  run checkpoint_design ;;
  after_design_checkpoint.

(** The stages up to and including each checkpoint. *)
Definition through_research_checkpoint : M unit :=
  run initialize ;;
  run run_preflight ;;
  run run_research ;;
  checkpoint_research.

Definition through_design_checkpoint : M unit :=
  run through_research_checkpoint ;;
  run run_design_and_math ;;
  checkpoint_design.

Definition through_art_checkpoint : M unit :=
  run through_design_checkpoint ;;
  run run_mood_boards ;;
  checkpoint_art.

(** Modelled from the spec: the worker process ([worker.py]) that runs a
    job is not among the sources.  It marks the job running, runs the
    flow, and marks the job complete when the flow returns and failed when
    the flow raises.  This is the world once the job is marked running. *)
Definition picked_up (w : World) : World :=
  with_jobs (JobStore.worker_update (job_id (w_state w)) JobStore.WorkerStarts (w_jobs w)) w.

(** Modelled from the spec: the worker's run of one job (see [picked_up]). *)
Definition run_job (w : World) : World :=
  let job := job_id (w_state w) in
  match kickoff (picked_up w) with
  | (Return _, w2) =>
      with_jobs (JobStore.worker_update job (JobStore.WorkerCompletes (w_clock w2))
                   (w_jobs w2)) w2
  | (Raise e, w2) =>
      with_jobs (JobStore.worker_update job (JobStore.WorkerFails (exc_msg e))
                   (w_jobs w2)) w2
  end.

End flow.

End Flow.

(** ** Sample data *)

(** A research crew that writes two notes and then blocks for good. *)
Definition crew_that_blocks : Envelope.thread (list string) :=
  Envelope.Working (fun notes => (notes ++ ["sweep"])%list)
    (Envelope.Working (fun notes => (notes ++ ["deep dive"])%list) Envelope.Hangs).

(** A mood-board crew that fails after a second of work. *)
Definition crew_that_fails : Envelope.thread (list string) :=
  Envelope.Working (fun notes => (notes ++ ["variant 1"])%list)
    (Envelope.Raises (AnException (Exn "RuntimeError" "image backend unavailable") true)).

(** A mood-board crew in which a tool calls [sys.exit()] after a second of
    work. *)
Definition crew_that_exits : Envelope.thread (list string) :=
  Envelope.Working (fun notes => (notes ++ ["variant 1"])%list)
    (Envelope.Raises (NotAnException "SystemExit")).

(** A table with a job that has been running for two hours and a job
    queued ten minutes ago, seen at second 10000. *)
Definition two_jobs : gmap string JobStore.Job :=
  <["0a1b2c3d" := JobStore.mkJob "u1" "slot_pipeline" "Dragons" (Some "{}") JobStore.running
                        (Some "Market research (15 min)") None None 2800 None]>
  (<["4e5f6a7b" := JobStore.mkJob "u1" "state_recon" "Recon: Texas" (Some "{}") JobStore.queued
                         (Some "Initializing") None None 9400 None]> ∅).

(** The sweep at second 5000 meets a job launched at second 0 that no
    worker has picked up. *)
Definition never_started : gmap string JobStore.Job :=
  <["0a1b2c3d" := JobStore.mkJob "u1" "slot_pipeline" "Dragons" (Some "{}") JobStore.queued
                        (Some "Initializing") None None 0 None]> ∅.

(** A job that is launched, picked up and completed. *)
Definition a_full_run : list JobStore.update :=
  [ JobStore.LaunchPipeline "0a1b2c3d" "u1" "Dragons" "{}" 0;
    JobStore.Worker "0a1b2c3d" JobStore.WorkerStarts;
    JobStore.StageLabel "0a1b2c3d" "Initializing pipeline";
    JobStore.Worker "0a1b2c3d" (JobStore.WorkerCompletes 3000) ].

(** *** A studio to run the flow in *)

(** Plain collaborators: the reviewer and the art director each need two
    seconds; the other stage bodies leave the world as it is; the person
    at the web channel rejects with "bad palette", the person at the
    terminal rejects and types "skip"; each of them takes a minute and a
    half over an answer. *)
Definition the_studio : Flow.Outside :=
  Flow.mkOutside
    PyStr.ascii_tables true None ∅ ("heavy-model", "light-model")
    (fun _ => Flow.mkDatetime 2025 3 14 9 26 53)
    true
    (fun _ _ _ _ => Return (false, Some (PyStr.lit "bad palette")))
    (fun _ _ => Return [])
    (fun _ => Return false)
    (fun _ => Return (PyStr.lit "skip"))
    (fun _ => 90)
    (fun _ _ => Return (Envelope.Working (fun fs => fs)
                          (Envelope.Working (fun fs => fs)
                             (Envelope.Returns (PyObj "critique")))))
    (fun _ => Envelope.Working (fun fs => fs)
                (Envelope.Working (fun fs => fs) (Envelope.Returns (PyObj "boards"))))
    (Flow.ret tt) (Flow.ret tt) (Flow.ret tt) (Flow.ret tt)
    (fun w => w)
    (fun _ _ => [])
    (fun _ _ => 0).

Definition dragons : Flow.GameIdeaInput :=
  Flow.mkIdea (PyStr.lit "Dragon's Gold / II") [PyStr.lit "Georgia"; PyStr.lit "Texas"]
    (PyStr.lit "medium") "96.0" 5 3 (PyStr.lit "243") 5000
    (PyStr.lit "Cinematic realism") [] [] [] false.

(** A world at second 1000 in which the job [job] (or no job, for the
    command line) is about to start. *)
Definition fresh_world (job : string) : Flow.World :=
  Flow.mkWorld (Flow.initial_state job (Some dragons))
    (<[PyStr.lit "output" := Flow.Directory]> (<[PyStr.lit "." := Flow.Directory]> ∅))
    (if decide (job = "") then ∅
     else <[job := JobStore.mkJob "u1" "slot_pipeline" "Dragon's Gold / II" (Some "{}")
                     JobStore.queued (Some "Initializing") None None 990 None]> ∅)
    1000 (Flow.mkCost 0 "0.0" []) [] [].

(** The job of the studio, run by the worker from a fresh world. *)
Definition a_rejected_run : Flow.World :=
  Flow.run_job the_studio false (fresh_world "0a1b2c3d").

(** A world in which the art has been approved. *)
Definition approved_world : Flow.World :=
  Flow.with_state
    (Flow.set_mood_board_approved true (Flow.w_state (fresh_world "0a1b2c3d")))
    (fresh_world "0a1b2c3d").


(** *** More sample data *)

(** The studio with its web approval module missing and a person at the
    terminal who approves. *)
Definition the_offline_studio : Flow.Outside :=
  Flow.mkOutside
    PyStr.ascii_tables true None ∅ ("heavy-model", "light-model")
    (fun _ => Flow.mkDatetime 2025 3 14 9 26 53)
    false
    (fun _ _ _ _ => Return (false, Some (PyStr.lit "bad palette")))
    (fun _ _ => Return [])
    (fun _ => Return true)
    (fun _ => Return (PyStr.lit "skip"))
    (fun _ => 90)
    (fun _ _ => Return (Envelope.Returns (PyObj "critique")))
    (fun _ => Envelope.Hangs)
    (Flow.ret tt) (Flow.ret tt) (Flow.ret tt) (Flow.ret tt)
    (fun w => w)
    (fun _ _ => [])
    (fun _ _ => 0).

(** A studio as a worker process finds it: started by the web application
    with a job id and a closed standard input, and with the web approval
    module missing. *)
Definition the_detached_studio : Flow.Outside :=
  Flow.mkOutside
    PyStr.ascii_tables true None ∅ ("heavy-model", "light-model")
    (fun _ => Flow.mkDatetime 2025 3 14 9 26 53)
    false
    (fun _ _ _ _ => Return (true, None))
    (fun _ _ => Return [])
    (fun _ => Raise (Exn "EOFError" "EOF when reading a line"))
    (fun _ => Raise (Exn "EOFError" "EOF when reading a line"))
    (fun _ => 0)
    (fun _ _ => Return (Envelope.Returns (PyObj "critique")))
    (fun _ => Envelope.Returns (PyObj "boards"))
    (Flow.ret tt) (Flow.ret tt) (Flow.ret tt) (Flow.ret tt)
    (fun w => w)
    (fun _ _ => [])
    (fun _ _ => 0).

(** *** What a checkpoint leaves *)

(** The result [r] of a checkpoint [name] entered in the world [w]: files
    and job table as they were, a clock that has not gone back, some more
    interactions; then either an answer, stored once under the name, with
    at most one rejection entry more in the error log; or the exception
    of a terminal that could not be read, at the first prompt with the
    state as it was, at the second with the rejection stored. *)
Definition gate_outcome (out : Flow.Outside) (name : string) (w : Flow.World)
    (r : outcome bool * Flow.World) : Prop :=
  Flow.w_files r.2 = Flow.w_files w
  /\ Flow.w_jobs r.2 = Flow.w_jobs w
  /\ (Flow.w_clock w <= Flow.w_clock r.2)%Z
  /\ exists evs,
       Flow.w_events r.2 = Flow.w_events w ++ evs
       /\ match r.1 with
          | Return approved =>
              filter (fun ev => Flow.is_record_of name ev = true) evs
              = [Flow.RecordedApproval name approved]
              /\ Flow.hitl_approvals (Flow.w_state r.2)
                 = <[name := approved]> (Flow.hitl_approvals (Flow.w_state w))
              /\ exists entries,
                   Flow.w_state r.2
                   = Flow.set_errors (Flow.errors (Flow.w_state w) ++ entries)
                       (Flow.set_hitl_approvals
                          (<[name := approved]> (Flow.hitl_approvals (Flow.w_state w)))
                          (Flow.w_state w))
                   /\ Flow.errors (Flow.w_state r.2)
                      = Flow.errors (Flow.w_state w) ++ entries
                   /\ (approved = true -> entries = [])
                   /\ (entries = []
                       \/ exists F,
                            entries
                            = [PyStr.lit "HITL rejection at " ++ PyStr.lit name
                               ++ PyStr.lit ": " ++ F])
          | Raise e =>
              Flow.AskedConfirm name ∈ evs
              /\ ((Flow.confirm_ask out name = Raise e
                   /\ Flow.w_state r.2 = Flow.w_state w)
                  \/ (Flow.confirm_ask out name = Return false
                      /\ Flow.prompt_ask out name = Raise e
                      /\ Flow.hitl_approvals (Flow.w_state r.2)
                         = <[name := false]> (Flow.hitl_approvals (Flow.w_state w))
                      /\ Flow.errors (Flow.w_state r.2) = Flow.errors (Flow.w_state w)))
          end.

(** A world in which research and design have been approved. *)
Definition designed_world : Flow.World :=
  Flow.with_state
    (Flow.set_design_math_approved true
       (Flow.set_research_approved true (Flow.w_state (fresh_world "0a1b2c3d"))))
    (fresh_world "0a1b2c3d").

(** A world whose flow was started without an idea. *)
Definition idle_world : Flow.World :=
  Flow.with_state (Flow.initial_state "0a1b2c3d" None) (fresh_world "0a1b2c3d").

(** The recon timeout in force, which every adversarial review runs under. *)
Definition recon_timeout (o : Flow.Outside) : Z :=
  stage_timeout (STAGE_TIMEOUTS (Flow.TIMEOUT_ENV o)) "recon".

(** *** Paths in normal form *)

(** A component as [pathlib] keeps it: not empty, without a slash, not a
    single dot. *)
Definition is_component (w : PyStr.pystr) : Prop :=
  w <> [] /\ Forall (fun c => c <> PyPath.SLASH) w /\ w <> [PyPath.DOT].

(** A path as [pathlib] keeps it. *)
Definition normal (p : PyPath.Path) : Prop :=
  (PyPath.anchor p = [] \/ PyPath.anchor p = [PyPath.SLASH]
   \/ PyPath.anchor p = [PyPath.SLASH; PyPath.SLASH])
  /\ Forall is_component (PyPath.parts p).

(** * The web application ([web_app.py]) *)

Module Web.

Import PyStr.

(** ** Text helpers of Python *)

(** [c.isspace()] for one code point. *)
Definition is_space (c : N) : bool :=
  ((9 <=? c) && (c <=? 13) || (28 <=? c) && (c <=? 32)
   || (c =? 133) || (c =? 160) || (c =? 5760)
   || (8192 <=? c) && (c <=? 8202)
   || (c =? 8232) || (c =? 8233) || (c =? 8239) || (c =? 8287)
   || (c =? 12288))%N.

(** [s.lstrip()] *)
Fixpoint lstrip (s : pystr) : pystr :=
  match s with
  | [] => []
  | c :: s' => if is_space c then lstrip s' else s
  end.

(** [s.rstrip()] *)
Definition rstrip (s : pystr) : pystr := rev (lstrip (rev s)).

(** [s.strip()] *)
Definition strip (s : pystr) : pystr := rstrip (lstrip s).

(** No white space at either end. *)
Definition trimmed (s : pystr) : bool :=
  match head s, last s with
  | Some c, Some d => negb (is_space c) && negb (is_space d)
  | _, _ => true
  end.

Definition COMMA : N := 44.

(** [s.split(sep)] for a separator of one character: the pieces between
    the separators, the empty ones included. *)
Fixpoint split_on (sep : N) (s : pystr) : list pystr :=
  match s with
  | [] => [[]]
  | c :: s' =>
      if (c =? sep)%N then [] :: split_on sep s'
      else match split_on sep s' with
           | [] => [[c]]
           | w :: ws => (c :: w) :: ws
           end
  end.

(** ** The form of a new pipeline *)

(** [request.form]: every field with the values sent for it. *)
Definition Form : Type := gmap string (list pystr).

(** [request.form.get(field, default)] *)
Definition form_get (form : Form) (field : string) (default : pystr) : pystr :=
  match form !! field with
  | Some (v :: _) => v
  | _ => default
  end.

(** [[m.strip() for m in request.form.get("target_markets","Georgia, Texas").split(",")]] *)
Definition target_markets (form : Form) : list pystr :=
  strip <$> split_on COMMA (form_get form "target_markets" (lit "Georgia, Texas")).

(** [[r.strip() for r in request.form.get("competitor_references","").split(",") if r.strip()]] *)
Definition competitor_references (form : Form) : list pystr :=
  strip <$> filter (fun r => truthy (Some (strip r)) = true)
              (split_on COMMA (form_get form "competitor_references" [])).

(** ** The secret key of the sessions *)

(** What the disk holds under a name: a file with a text, or something
    that cannot be read as a text. *)
Inductive stored : Type :=
| Text (t : pystr)
| Unreadable.

Definition Disk : Type := gmap pystr stored.

(** [a or b] on optional texts. *)
Definition py_or (a b : option pystr) : option pystr :=
  if truthy a then a else b.

(** [os.getenv(name, default)] *)
Definition getenv (environ : gmap string pystr) (name : string) (default : pystr)
    : pystr :=
  match environ !! name with
  | Some v => v
  | None => default
  end.

(** [Path(os.getenv("DB_PATH", "arkainbrain.db")).parent / ".flask_secret_key"] *)
Definition key_file (environ : gmap string pystr) : PyPath.Path :=
  PyPath.joinpath
    (PyPath.parent (PyPath.parse (getenv environ "DB_PATH" (lit "arkainbrain.db"))))
    (lit ".flask_secret_key").

(** One hexadecimal digit, in lower case. *)
Definition hex_digit (n : N) : N :=
  if (n <? 10)%N then (48 + n)%N else (87 + n)%N.

(** [secrets.token_hex(32)], from the bytes the system hands out. *)
Definition token_hex (random_bytes : list N) : pystr :=
  flat_map (fun b => [hex_digit (b / 16); hex_digit (b mod 16)]%N) random_bytes.

(** [_get_or_create_secret_key()]: the key and the disk it leaves.
    [writable] says whether [write_text] succeeds; when it raises, the
    exception is swallowed and the file stays as it was.  A file on which
    [exists] or [read_text] raises is [Unreadable]. *)
Definition _get_or_create_secret_key (environ : gmap string pystr) (disk : Disk)
    (writable : bool) (random_bytes : list N) : pystr * Disk :=
  let env_key := py_or (environ !! "FLASK_SECRET_KEY") (environ !! "SECRET_KEY") in
  match env_key with
  | Some (c :: k) => (c :: k, disk)
  | _ =>
      let file := PyPath.to_str (key_file environ) in
      let kept :=
        match disk !! file with
        | Some (Text t) =>
            let stored := strip t in
            if (32 <=? length stored)%nat then Some stored else None
        | _ => None
        end in
      match kept with
      | Some stored => (stored, disk)
      | None =>
          let new_key := token_hex random_bytes in
          (new_key, if writable then <[file := Text new_key]> disk else disk)
      end
  end.

(** ** Worker processes *)

(** A started process, by its number. *)
Definition proc : Type := nat.

(** What the web process finds around itself: its environment, the
    module constants, the location of [worker.py], and the operating
    system, which starts a process or refuses, and tells the exit code of
    a process that has ended. *)
Record Host : Type := mkHost {
  environ : gmap string pystr;
  DB_PATH : pystr;
  LOG_DIR : pystr;
  worker_path : pystr;
  Popen : list pystr -> gmap string pystr -> outcome proc;
  poll : proc -> option Z;
}.

(** [_cleanup_finished()] on the register [_running_procs]. *)
Definition _cleanup_finished (h : Host) (procs : gmap string proc) : gmap string proc :=
  filter (fun entry => poll h entry.2 = None) procs.

(** The environment handed to a worker. *)
Definition worker_env (h : Host) : gmap string pystr :=
  <["OPENAI_TIMEOUT" := lit "120"]>
  (<["OPENAI_MAX_RETRIES" := lit "5"]>
  (<["DO_NOT_TRACK" := lit "1"]>
  (<["CREWAI_TRACING_ENABLED" := lit "false"]>
  (<["OTEL_SDK_DISABLED" := lit "true"]>
  (<["CREWAI_TELEMETRY_OPT_OUT" := lit "true"]>
  (<["LOG_DIR" := LOG_DIR h]>
  (<["DB_PATH" := DB_PATH h]> (environ h)))))))).

(** [_spawn_worker(job_id, job_type, *args)] *)
Definition _spawn_worker (h : Host) (job_id job_type : string) (args : list pystr)
    (procs : gmap string proc) : outcome unit * gmap string proc :=
  let procs := _cleanup_finished h procs in
  let cmd := [lit "python3"; lit "-u"; worker_path h; lit job_type; lit job_id] ++ args in
  match Popen h cmd (worker_env h) with
  | Raise e => (Raise e, procs)
  | Return p => (Return tt, <[job_id := p]> procs)
  end.

(** ** The routes that start and watch a job *)

(** The jobs table and the register of processes. *)
Record Server : Type := mkServer {
  jobs : gmap string JobStore.Job;
  running_procs : gmap string proc;
}.

Inductive response : Type :=
| Redirect (location : string)
| NotFound
| JobJson (status : JobStore.JobStatus) (current_stage error : option string).

(** [api_launch_pipeline()], once the form has been read: [params_json]
    is the text stored in the table, [worker_json] the one handed to the
    worker (with the [interactive] key).  The row is committed before the
    worker is started. *)
Definition api_launch_pipeline (h : Host)
    (job_id uid theme params_json : string) (worker_json : pystr) (now : Z)
    (s : Server) : outcome response * Server :=
  match JobStore.api_launch_pipeline job_id uid theme params_json now (jobs s) with
  | Raise e => (Raise e, s)
  | Return db =>
      let (r, procs) := _spawn_worker h job_id "pipeline" [worker_json] (running_procs s) in
      (match r with
       | Raise e => Raise e
       | Return _ => Return (Redirect ("/job/" +:+ job_id +:+ "/logs"))
       end, mkServer db procs)
  end.

(** [api_job_status(job_id)] *)
Definition api_job_status (job_id : string) (db : gmap string JobStore.Job) : response :=
  match db !! job_id with
  | None => NotFound
  | Some job => JobJson (JobStore.status job) (JobStore.current_stage job) (JobStore.error job)
  end.

(** ** Files of the output directory *)

(** What [browse_files] asks the disk about a path. *)
Record Files : Type := mkFiles {
  path_exists : PyPath.Path -> bool;
  is_file : PyPath.Path -> bool;
}.

Inductive page : Type :=
| NotFoundPage
| SendFromDirectory (directory : PyPath.Path) (filename : pystr)
| Listing (target : PyPath.Path).

(** [browse_files(subpath)]; the listing of a directory is left as the
    directory it lists. *)
Definition browse_files (OUTPUT_DIR : PyPath.Path) (fs : Files) (subpath : pystr) : page :=
  let target := PyPath.joinpath OUTPUT_DIR subpath in
  if negb (path_exists fs target) then NotFoundPage
  else if is_file fs target then SendFromDirectory (PyPath.parent target) (PyPath.name target)
  else Listing target.

End Web.

(** A host whose system refuses to start a process. *)
Definition a_full_host : Web.Host :=
  Web.mkHost ∅ (PyStr.lit "arkainbrain.db") (PyStr.lit "logs") (PyStr.lit "/app/src/worker.py")
    (fun _ _ => Raise (Exn "BlockingIOError" "Resource temporarily unavailable"))
    (fun _ => None).

(** Thirty-two bytes from the system. *)
Definition some_bytes : list N := (fun i => N.of_nat (7 * i + 3)) <$> seq 0 32.

(** * Properties *)

(** ** The timeout envelope *)

Section envelope_facts.

Context {Shared : Type}.
Implicit Types (crew th : Envelope.thread Shared) (s : Shared).

Import Envelope.

Lemma join_thread timeout th s : j_thread (join timeout th s) = after timeout th.
Proof.
  revert th s. induction timeout as [|n IH]; intros [f rest| | |] s; simpl; auto.
Qed.

Lemma join_shared timeout th s :
  j_shared (join timeout th s) = apply_mutations (mutations_within timeout th) s.
Proof.
  revert th s.
  induction timeout as [|n IH]; intros [f rest| | |] s; simpl; try reflexivity.
  apply IH.
Qed.

Lemma join_elapsed_le timeout th s : j_elapsed (join timeout th s) <= timeout.
Proof.
  revert th s. induction timeout as [|n IH]; intros [f rest| | |] s; simpl; try lia.
  specialize (IH rest (f s)). lia.
Qed.

Lemma after_add n m th : after (n + m) th = after m (after n th).
Proof.
  revert th. induction n as [|n IH]; intros th; simpl.
  - destruct th; reflexivity.
  - destruct th as [f rest| | |]; simpl; auto; destruct m; reflexivity.
Qed.

(** A thread that has ended stays ended. *)
Lemma after_ended n m th :
  is_alive (after n th) = false -> n <= m -> after m th = after n th.
Proof.
  intros Hdead Hle. replace m with (n + (m - n)) by lia.
  rewrite after_add. destruct (after n th); try discriminate; destruct (m - n); reflexivity.
Qed.

(** As long as the thread is alive the caller has waited the whole time. *)
Lemma join_elapsed_alive timeout th s :
  is_alive (after timeout th) = true -> j_elapsed (join timeout th s) = timeout.
Proof.
  revert th s.
  induction timeout as [|n IH]; intros [f rest| | |] s Halive;
    simpl in *; try discriminate; try reflexivity.
  f_equal. now apply IH.
Qed.

(** A thread that has ended within the wait was waited for until it ended,
    and has applied all it had to apply. *)
Lemma join_ended timeout k th s :
  is_alive (after k th) = false -> k <= timeout ->
  join timeout th s = join k th s.
Proof.
  revert k th s.
  induction timeout as [|n IH]; intros k th s Hdead Hle.
  - now replace k with 0 by lia.
  - destruct th as [f rest| | |]; destruct k as [|k]; simpl in *;
      try discriminate; try reflexivity.
    rewrite (IH k rest (f s)); auto with lia.
Qed.

Lemma run_crew_with_timeout_alive timeouts crew stage_name s :
  is_alive (after (Z.to_nat (stage_timeout timeouts stage_name)) crew) = true ->
  run_crew_with_timeout timeouts crew stage_name s =
    EnvelopeResult (Return PyNone)
      (apply_mutations
         (mutations_within (Z.to_nat (stage_timeout timeouts stage_name)) crew) s)
      (after (Z.to_nat (stage_timeout timeouts stage_name)) crew)
      (Z.to_nat (stage_timeout timeouts stage_name))
      [TimeoutLine stage_name (stage_timeout timeouts stage_name)].
Proof.
  intros Halive. unfold run_crew_with_timeout.
  rewrite join_thread, Halive, join_shared, join_elapsed_alive by assumption.
  reflexivity.
Qed.

Lemma run_crew_with_timeout_ended timeouts crew stage_name s k :
  k <= Z.to_nat (stage_timeout timeouts stage_name) ->
  is_alive (after k crew) = false ->
  er_thread (run_crew_with_timeout timeouts crew stage_name s) = after k crew
  /\ er_shared (run_crew_with_timeout timeouts crew stage_name s)
     = apply_mutations (mutations_within k crew) s
  /\ er_outcome (run_crew_with_timeout timeouts crew stage_name s)
     = match error_holder (_run (after k crew)) with
       | Some (e, true) => Raise e
       | _ => Return (result_holder (_run (after k crew)))
       end.
Proof.
  intros Hle Hdead. unfold run_crew_with_timeout.
  rewrite (join_ended _ k) by assumption.
  rewrite join_thread, Hdead, join_shared.
  destruct (error_holder (_run (after k crew))) as [[e [|]]|]; simpl; auto.
Qed.

End envelope_facts.

(** C1.  Whatever the stage name and the work unit: when the work is still
    running once the stage's timeout has passed, [run_crew_with_timeout]
    returns [None] and raises nothing, after exactly the timeout; the
    thread it leaves behind is alive and is the work's own continuation
    (it goes on as the work would have, nothing of it is cut off); and the
    caller resumes on the shared memory holding exactly the mutations the
    work applied before the timeout. *)
Theorem run_crew_with_timeout_abandons_running_work
    {Shared : Type} (timeouts : gmap string Z) (stage_name : string)
    (crew : Envelope.thread Shared) (s : Shared) :
  Envelope.is_alive
    (Envelope.after (Z.to_nat (stage_timeout timeouts stage_name)) crew) = true ->
  Envelope.er_outcome (Envelope.run_crew_with_timeout timeouts crew stage_name s)
    = Return PyNone
  /\ Envelope.is_alive
       (Envelope.er_thread (Envelope.run_crew_with_timeout timeouts crew stage_name s))
     = true
  /\ (forall m,
        Envelope.after m
          (Envelope.er_thread (Envelope.run_crew_with_timeout timeouts crew stage_name s))
        = Envelope.after (Z.to_nat (stage_timeout timeouts stage_name) + m) crew)
  /\ Envelope.er_shared (Envelope.run_crew_with_timeout timeouts crew stage_name s)
     = Envelope.apply_mutations
         (Envelope.mutations_within (Z.to_nat (stage_timeout timeouts stage_name)) crew) s
  /\ Envelope.er_elapsed (Envelope.run_crew_with_timeout timeouts crew stage_name s)
     = Z.to_nat (stage_timeout timeouts stage_name).
Proof.
  intros Halive.
  rewrite (run_crew_with_timeout_alive _ _ _ _ Halive). simpl.
  repeat split; try assumption.
  intros m. symmetry. apply after_add.
Qed.

Lemma run_crew_with_timeout_abandons_running_work_witness :
  Envelope.er_outcome
    (Envelope.run_crew_with_timeout (STAGE_TIMEOUTS ∅) crew_that_blocks "research" [])
    = Return PyNone
  /\ Envelope.er_shared
       (Envelope.run_crew_with_timeout (STAGE_TIMEOUTS ∅) crew_that_blocks "research" [])
     = ["sweep"; "deep dive"].
Proof.
  destruct (run_crew_with_timeout_abandons_running_work
              (STAGE_TIMEOUTS ∅) "research" crew_that_blocks [])
    as (Hout & _ & _ & Hshared & _).
  - reflexivity.
  - split; [exact Hout | rewrite Hshared; reflexivity].
Defined.

(** C8, as stated, fails: work that ends with [SystemExit] after a second
    has raised well within the timeout, and yet nothing is raised to the
    caller: the envelope returns [None]. *)
Lemma an_exit_of_the_work_is_not_handed_over :
  Envelope.after 1 crew_that_exits = Envelope.Raises (NotAnException "SystemExit")
  /\ (1 <= stage_timeout (STAGE_TIMEOUTS ∅) "mood_board")%Z
  /\ Envelope.er_outcome
       (Envelope.run_crew_with_timeout (STAGE_TIMEOUTS ∅) crew_that_exits "mood_board" [])
     = Return PyNone.
Proof. split; [reflexivity | split; [vm_compute; discriminate | reflexivity]]. Qed.

(** C8, amended.  When the work ends within the timeout (at second [k]),
    the envelope hands its end to the caller as follows: an instance of
    [Exception] whose truth value is [True] is raised again, the very same
    one; what [except Exception] does not catch ([SystemExit] and the
    like) is not handed over, the envelope returns [None]; a value the
    work returned is returned.  (An instance of [Exception] whose truth
    value is [False] fails the test [if error_holder[0]:] and comes back
    as [None] too.) *)
Theorem run_crew_with_timeout_hands_over_the_end
    {Shared : Type} (timeouts : gmap string Z) (stage_name : string)
    (crew : Envelope.thread Shared) (s : Shared) (k : nat) :
  k <= Z.to_nat (stage_timeout timeouts stage_name) ->
  (forall e, Envelope.after k crew = Envelope.Raises (AnException e true) ->
     Envelope.er_outcome (Envelope.run_crew_with_timeout timeouts crew stage_name s)
     = Raise e)
  /\ (forall class_name,
       Envelope.after k crew = Envelope.Raises (NotAnException class_name) ->
       Envelope.er_outcome (Envelope.run_crew_with_timeout timeouts crew stage_name s)
       = Return PyNone)
  /\ (forall e, Envelope.after k crew = Envelope.Raises (AnException e false) ->
       Envelope.er_outcome (Envelope.run_crew_with_timeout timeouts crew stage_name s)
       = Return PyNone)
  /\ (forall v, Envelope.after k crew = Envelope.Returns v ->
       Envelope.er_outcome (Envelope.run_crew_with_timeout timeouts crew stage_name s)
       = Return v).
Proof.
  intros Hle.
  assert (Hend : forall th, Envelope.is_alive th = false ->
            Envelope.after k crew = th ->
            Envelope.er_outcome (Envelope.run_crew_with_timeout timeouts crew stage_name s)
            = match Envelope.error_holder (Envelope._run th) with
              | Some (e, true) => Raise e
              | _ => Return (Envelope.result_holder (Envelope._run th))
              end).
  { intros th Hdead Hth.
    destruct (run_crew_with_timeout_ended timeouts crew stage_name s k Hle)
      as (_ & _ & Hout).
    - now rewrite Hth.
    - now rewrite Hout, Hth. }
  refine (conj _ (conj _ (conj _ _))).
  - intros e He. now rewrite (fun dead => Hend _ dead He).
  - intros c Hc. now rewrite (fun dead => Hend _ dead Hc).
  - intros e He. now rewrite (fun dead => Hend _ dead He).
  - intros v Hv. now rewrite (fun dead => Hend _ dead Hv).
Qed.

Lemma run_crew_with_timeout_hands_over_the_end_witness :
  Envelope.er_outcome
    (Envelope.run_crew_with_timeout (STAGE_TIMEOUTS ∅) crew_that_fails "mood_board" [])
  = Raise (Exn "RuntimeError" "image backend unavailable").
Proof.
  refine (proj1 (run_crew_with_timeout_hands_over_the_end
                   (STAGE_TIMEOUTS ∅) "mood_board" crew_that_fails [] 1 _) _ _).
  - vm_compute. lia.
  - reflexivity.
Defined.

(** C10.  Two runs of the envelope give the caller the same value [None]:
    one whose work is still running when the timeout has passed, one whose
    work ended normally with the result [None]. *)
Theorem timeout_looks_like_a_none_result :
  exists slow finished : Envelope.thread unit,
    Envelope.is_alive
      (Envelope.after (Z.to_nat (stage_timeout (STAGE_TIMEOUTS ∅) "research")) slow)
    = true
    /\ finished = Envelope.Returns PyNone
    /\ Envelope.er_outcome
         (Envelope.run_crew_with_timeout (STAGE_TIMEOUTS ∅) slow "research" tt)
       = Return PyNone
    /\ Envelope.er_outcome
         (Envelope.run_crew_with_timeout (STAGE_TIMEOUTS ∅) finished "research" tt)
       = Return PyNone.
Proof.
  exists Envelope.Hangs, (Envelope.Returns PyNone).
  repeat split; reflexivity.
Qed.

(** ** The job table *)

Section jobstore_facts.

Import JobStore.
Implicit Types (db : gmap string Job) (j : Job).

Lemma reaped_reaped j : reaped (reaped j) = reaped j.
Proof. reflexivity. Qed.

Lemma mark_failed_lookup job_id id db :
  mark_failed job_id db !! id
  = if decide (id = job_id) then reaped <$> db !! id else db !! id.
Proof.
  unfold mark_failed. case_decide as Heq.
  - subst. now rewrite lookup_alter_eq.
  - now rewrite lookup_alter_ne by congruence.
Qed.

Lemma foldl_mark_failed_lookup (stale : list (string * string)) db id :
  foldl (fun acc job => mark_failed job.1 acc) db stale !! id
  = if decide (id ∈ stale.*1) then reaped <$> db !! id else db !! id.
Proof.
  revert db. induction stale as [|[k t] stale IH]; intros db; cbn [foldl].
  { rewrite decide_False; [done | by intros Hin%elem_of_nil]. }
  rewrite IH, mark_failed_lookup, fmap_cons. cbn [fst].
    destruct (decide (id = k)) as [->|Hne].
    - rewrite (decide_True (P := k ∈ k :: stale.*1)) by (by left).
      destruct (decide (k ∈ stale.*1)); destruct (db !! k); done.
    - destruct (decide (id ∈ stale.*1)) as [Hin|Hin].
      + by rewrite decide_True by (by right).
      + rewrite decide_False; [done|]. by intros [?|?]%elem_of_cons.
Qed.

Lemma elem_of_select_stale now db id :
  id ∈ (select_stale now db).*1 <-> exists j, db !! id = Some j /\ is_stale now j = true.
Proof.
  unfold select_stale. rewrite <- list_fmap_compose.
  rewrite list_elem_of_fmap. split.
  - intros ([k j] & Heq & Hin). simpl in Heq. subst id.
    apply list_elem_of_filter in Hin as [Hst Hin].
    apply elem_of_map_to_list in Hin. simpl in *. eauto.
  - intros (j & Hj & Hst). exists (id, j). split; [done|].
    apply list_elem_of_filter. split; [done|]. by apply elem_of_map_to_list.
Qed.

(** The sweep, row by row. *)
Lemma recover_stale_jobs_lookup now db id :
  (_recover_stale_jobs now db).1 !! id
  = (fun j => if is_stale now j then reaped j else j) <$> db !! id.
Proof.
  unfold _recover_stale_jobs. simpl. rewrite foldl_mark_failed_lookup.
  case_decide as Hin.
  - apply elem_of_select_stale in Hin as (j & Hj & Hst).
    rewrite Hj. simpl. by rewrite Hst.
  - destruct (db !! id) as [j|] eqn:Hj; simpl; [|done].
    destruct (is_stale now j) eqn:Hst; [|done].
    exfalso. apply Hin. apply elem_of_select_stale. eauto.
Qed.

End jobstore_facts.

Section sweep_claims.

Import JobStore.

(** C3.  One run of the start-up sweep: a job whose status is running or
    queued and that was created before the cutoff (75 minutes before the
    sweep) is left failed with the duration error, its other columns as
    they were; a job created at or after the cutoff is left as it was,
    whatever its status. *)
Theorem recover_stale_jobs_marks_the_stale_only
    (now : Z) (db : gmap string Job) (job_id : string) (j : Job) :
  db !! job_id = Some j ->
  ((status j = running \/ status j = queued) ->
   (created_at j < now - 75 * 60)%Z ->
   (_recover_stale_jobs now db).1 !! job_id
   = Some (mkJob (user_id j) (job_type j) (title j) (params j) failed
                 (current_stage j) (output_dir j)
                 (Some "Timed out — exceeded maximum pipeline duration")
                 (created_at j) (completed_at j)))
  /\ ((now - 75 * 60 <= created_at j)%Z ->
      (_recover_stale_jobs now db).1 !! job_id = Some j).
Proof.
  intros Hj. rewrite recover_stale_jobs_lookup, Hj. simpl.
  unfold is_stale, stale_cutoff, STALE_AFTER_SECONDS. split.
  - intros Hst Hold.
    destruct Hst as [-> | ->]; rewrite bool_decide_eq_true_2 by lia; reflexivity.
  - intros Hyoung.
    destruct (status j); try reflexivity;
      rewrite bool_decide_eq_false_2 by lia; reflexivity.
Qed.

Lemma recover_stale_jobs_marks_the_stale_only_witness :
  (_recover_stale_jobs 10000 two_jobs).1 !! "0a1b2c3d"
  = Some (mkJob "u1" "slot_pipeline" "Dragons" (Some "{}") failed
                (Some "Market research (15 min)") None
                (Some "Timed out — exceeded maximum pipeline duration") 2800 None).
Proof.
  refine (proj1 (recover_stale_jobs_marks_the_stale_only 10000 two_jobs "0a1b2c3d"
                   (mkJob "u1" "slot_pipeline" "Dragons" (Some "{}") running
                          (Some "Market research (15 min)") None None 2800 None) _) _ _).
  - reflexivity.
  - left. reflexivity.
  - simpl. lia.
Defined.

(** C4.  With the default timeouts the stages may take 4800 seconds in
    all, while the sweep calls a job stale after 4500: the threshold is
    below the sum.  A job that has been running for 4600 seconds is inside
    the budget of its stages, and the sweep fails it. *)
Theorem stale_threshold_is_below_the_stage_timeouts :
  sum_stage_timeouts (STAGE_TIMEOUTS ∅) = 4800%Z
  /\ STALE_AFTER_SECONDS = 4500%Z
  /\ status_of "0a1b2c3d"
       (_recover_stale_jobs 4600
          (<["0a1b2c3d" := mkJob "u1" "slot_pipeline" "Dragons" (Some "{}") running
                                 (Some "Art + Audio + Compliance (30 min)")
                                 None None 0 None]> ∅)).1
     = Some failed.
Proof.
  split; [|split].
  - vm_compute. reflexivity.
  - reflexivity.
  - unfold status_of. rewrite recover_stale_jobs_lookup, lookup_insert_eq.
    reflexivity.
Qed.

End sweep_claims.

Section status_edges.

Import JobStore.
Implicit Types (db : gmap string Job) (j : Job) (u : update).

Lemma moves_along_refl edge o : moves_along edge o o.
Proof. destruct o; simpl; auto. Qed.

Lemma insert_job_moves job_id uid jtype jtitle jparams now db id :
  moves_along code_edge (status_of id db)
    (status_of id (committed (insert_job job_id uid jtype jtitle jparams now db) db)).
Proof.
  unfold insert_job, status_of.
  destruct (db !! job_id) as [j0|] eqn:Hfree; simpl.
  - apply moves_along_refl.
  - destruct (decide (id = job_id)) as [->|Hne].
    + rewrite lookup_insert_eq, Hfree. reflexivity.
    + rewrite lookup_insert_ne by congruence. apply moves_along_refl.
Qed.

Lemma sweep_moves now db id :
  moves_along code_edge (status_of id db)
    (status_of id (_recover_stale_jobs now db).1).
Proof.
  unfold status_of. rewrite recover_stale_jobs_lookup.
  destruct (db !! id) as [j|]; simpl; [|exact I].
  unfold is_stale. destruct (status j) eqn:Hs; simpl; auto;
    case_bool_decide; simpl; rewrite ?Hs; auto.
Qed.

Lemma stage_label_moves job_id stage db id :
  moves_along code_edge (status_of id db)
    (status_of id (_update_stage_db job_id stage db)).
Proof.
  unfold _update_stage_db, status_of. case_decide; [apply moves_along_refl|].
  destruct (decide (id = job_id)) as [->|Hne].
  - rewrite lookup_alter_eq. destruct (db !! job_id); simpl; auto.
  - rewrite lookup_alter_ne by congruence. apply moves_along_refl.
Qed.

Lemma worker_moves job_id ev db id :
  moves_along code_edge (status_of id db)
    (status_of id (worker_update job_id ev db)).
Proof.
  unfold worker_update, status_of.
  destruct (db !! job_id) as [j|] eqn:Hj; [|apply moves_along_refl].
  destruct ev, (status j) eqn:Hs; try apply moves_along_refl;
    (destruct (decide (id = job_id)) as [->|Hne];
     [ rewrite lookup_insert_eq, Hj; simpl; rewrite Hs; auto
     | rewrite lookup_insert_ne by congruence; apply moves_along_refl ]).
Qed.

(** One write, one job. *)
Lemma apply_update_moves u db id :
  moves_along code_edge (status_of id db) (status_of id (apply_update u db)).
Proof.
  destruct u; simpl.
  - apply insert_job_moves.
  - apply insert_job_moves.
  - apply sweep_moves.
  - apply stage_label_moves.
  - apply worker_moves.
Qed.

(** The only way into complete is from running. *)
Lemma enters_complete_from_running o o' :
  moves_along code_edge o o' -> o' = Some complete -> o <> Some complete ->
  o = Some running.
Proof.
  destruct o as [[]|], o' as [[]|]; simpl; intros H ? ?;
    try discriminate; try contradiction; try reflexivity;
    destruct H; discriminate.
Qed.

Lemma complete_has_been_running us db id :
  status_of id db <> Some complete ->
  status_of id (run_updates us db) = Some complete ->
  exists d, d ∈ history us db /\ status_of id d = Some running.
Proof.
  revert db. induction us as [|u us IH]; intros db Hstart Hend; simpl in *.
  - contradiction.
  - destruct (decide (status_of id (apply_update u db) = Some complete)) as [Hc|Hc].
    + exists db. split; [left|].
      eapply enters_complete_from_running; eauto using apply_update_moves.
    + destruct (IH _ Hc Hend) as (d & Hd & Hrun).
      exists d. split; [by right | done].
Qed.

Lemma history_step us db k d d' :
  history us db !! k = Some d -> history us db !! S k = Some d' ->
  exists u, d' = apply_update u d.
Proof.
  revert db k. induction us as [|u us IH]; intros db k Hd Hd'.
  - destruct k; discriminate.
  - destruct k as [|k]; simpl in *.
    + injection Hd as <-. destruct us; injection Hd' as <-; eauto.
    + eapply IH; eauto.
Qed.




End status_edges.

(** ** The approval gate *)

(** Unfolds the plumbing of the stage monad. *)
Ltac flow_unfold :=
  cbv beta iota delta
    [Flow.relabel Flow.bind Flow.ret Flow.raise Flow.lift Flow.emit Flow.wait_for
     Flow.modify_state Flow.record_approval
     Flow.append_error Flow.get_state Flow.update_stage Flow.swallow
     Flow.with_event Flow.later Flow.with_state Flow.with_files Flow.with_jobs];
  cbn [Flow.w_state Flow.w_files Flow.w_jobs Flow.w_clock Flow.w_cost
       Flow.w_events Flow.w_abandoned fst snd].

Ltac flow_unfold_in H :=
  cbv beta iota delta
    [Flow.relabel Flow.bind Flow.ret Flow.raise Flow.lift Flow.emit Flow.wait_for
     Flow.modify_state Flow.record_approval
     Flow.append_error Flow.get_state Flow.update_stage Flow.swallow
     Flow.with_event Flow.later Flow.with_state Flow.with_files Flow.with_jobs] in H;
  cbn [Flow.w_state Flow.w_files Flow.w_jobs Flow.w_clock Flow.w_cost
       Flow.w_events Flow.w_abandoned fst snd] in H.

Section gate_facts.

Import PyStr Flow.

Context (out : Outside).
Implicit Types (w : World) (name : string) (summary feedback : pystr).

Lemma hitl_checkpoint_auto name summary auto w :
  auto || negb (HITL_ENABLED out) = true ->
  hitl_checkpoint out name summary auto w
  = (Return true,
     after_gate name true [] [AutoApproved name; RecordedApproval name true] w).
Proof.
  intros Hauto. unfold hitl_checkpoint. rewrite Hauto.
  unfold after_gate, decided. flow_unfold.
  rewrite app_nil_r, <- app_assoc. reflexivity.
Qed.

Lemma cli_checkpoint_rejected name w fb :
  confirm_ask out name = Return false ->
  prompt_ask out name = Return fb ->
  cli_checkpoint out name w
  = (Return false,
     later (waited out (AskedConfirm name) + waited out (AskedFeedback name))
       (after_gate name false
          (if bool_decide (lower (ucd out) fb = lit "skip")
           then [] else [rejection_entry name fb])
          [AskedConfirm name; RecordedApproval name false; AskedFeedback name] w)).
Proof.
  intros Hno Hfb. unfold cli_checkpoint. flow_unfold. rewrite Hno. flow_unfold.
  rewrite Hfb. unfold after_gate, decided.
  case_bool_decide; flow_unfold; rewrite <- !app_assoc, ?app_nil_r;
    do 2 f_equal; lia.
Qed.

Lemma cli_checkpoint_approved name w :
  confirm_ask out name = Return true ->
  cli_checkpoint out name w
  = (Return true,
     later (waited out (AskedConfirm name))
       (after_gate name true [] [AskedConfirm name; RecordedApproval name true] w)).
Proof.
  intros Hyes. unfold cli_checkpoint. flow_unfold. rewrite Hyes.
  unfold after_gate, decided. flow_unfold.
  rewrite app_nil_r, <- app_assoc. reflexivity.
Qed.

(** A terminal that cannot be read at the first prompt: the exception
    leaves the gate and nothing has been stored. *)
Lemma cli_checkpoint_unanswered name w e :
  confirm_ask out name = Raise e ->
  cli_checkpoint out name w
  = (Raise e, later (waited out (AskedConfirm name)) (with_event (AskedConfirm name) w)).
Proof.
  intros Hraise. unfold cli_checkpoint. flow_unfold. now rewrite Hraise.
Qed.

(** A terminal that cannot be read at the second prompt: the rejection
    has been stored, the error log has gained nothing. *)
Lemma cli_checkpoint_without_feedback name w e :
  confirm_ask out name = Return false ->
  prompt_ask out name = Raise e ->
  cli_checkpoint out name w
  = (Raise e,
     later (waited out (AskedConfirm name) + waited out (AskedFeedback name))
       (after_gate name false []
          [AskedConfirm name; RecordedApproval name false; AskedFeedback name] w)).
Proof.
  intros Hno Hraise. unfold cli_checkpoint. flow_unfold. rewrite Hno. flow_unfold.
  rewrite Hraise. unfold after_gate, decided. flow_unfold.
  destruct w as [st fs db clock cost evs threads]; destruct st; cbn.
  rewrite <- !app_assoc, ?app_nil_r. do 2 f_equal. lia.
Qed.

(** The web channel answers: the files it was shown are the last twenty
    of the listing. *)
Lemma hitl_checkpoint_web name summary w files approved (answer : option pystr) :
  HITL_ENABLED out = true ->
  job_id (w_state w) <> "" ->
  web_hitl_importable out = true ->
  sorted_output_files out (w_files w) (output_dir (w_state w)) = Return files ->
  web_hitl_checkpoint out (job_id (w_state w)) name summary (last_n 20 files)
  = Return (approved, answer) ->
  hitl_checkpoint out name summary false w
  = (Return approved,
     later (waited out (WaitedForWebDecision name (last_n 20 files)))
       (after_gate name approved
          (if negb approved && truthy answer
           then [rejection_entry name (default [] answer)] else [])
          [WaitedForWebDecision name (last_n 20 files); RecordedApproval name approved]
          w)).
Proof.
  intros Hon Hjob Himp Hfiles Hweb. unfold hitl_checkpoint.
  rewrite Hon. cbn [orb negb].
  rewrite bool_decide_eq_false_2 by assumption.
  unfold web_decision. rewrite Himp, Hfiles. cbn [negb]. rewrite Hweb.
  unfold after_gate, decided. flow_unfold.
  destruct (negb approved && truthy answer); flow_unfold;
    rewrite <- !app_assoc, ?app_nil_r; reflexivity.
Qed.

(** Without a job id the decision is taken at the command line. *)
Lemma hitl_checkpoint_cli name summary w :
  HITL_ENABLED out = true ->
  job_id (w_state w) = "" ->
  hitl_checkpoint out name summary false w = cli_checkpoint out name w.
Proof.
  intros Hon Hjob. unfold hitl_checkpoint. rewrite Hon. cbn [orb negb].
  now rewrite bool_decide_eq_true_2 by assumption.
Qed.

End gate_facts.

Section gate_claims.

Import PyStr Flow.

(** C7.  A checkpoint in auto mode (the flag is set, or approvals are
    switched off) returns [True]; the only thing it does to the world is
    to store [True] under its name in the approvals, which it does once:
    afterwards the approvals are the earlier ones with [True] under the
    name, so looking the name up gives [True]; nothing it does waits for
    the web channel or the terminal, and the clock has not moved. *)
Theorem hitl_checkpoint_auto_mode_approves_at_once
    (out : Outside) (name : string) (summary : pystr) (auto : bool) (w : World) :
  auto = true \/ HITL_ENABLED out = false ->
  exists evs,
    hitl_checkpoint out name summary auto w
    = (Return true,
       mkWorld
         (set_hitl_approvals (<[name := true]> (hitl_approvals (w_state w))) (w_state w))
         (w_files w) (w_jobs w) (w_clock w) (w_cost w) (w_events w ++ evs)
         (w_abandoned w))
    /\ hitl_approvals (w_state (hitl_checkpoint out name summary auto w).2) !! name
       = Some true
    /\ hitl_approvals (w_state (hitl_checkpoint out name summary auto w).2)
       = <[name := true]> (hitl_approvals (w_state w))
    /\ errors (w_state (hitl_checkpoint out name summary auto w).2) = errors (w_state w)
    /\ forallb (fun ev => negb (blocks ev)) evs = true
    /\ filter (fun ev => is_record_of name ev = true) evs = [RecordedApproval name true].
Proof.
  intros Hauto.
  exists [AutoApproved name; RecordedApproval name true].
  assert (Hrun : hitl_checkpoint out name summary auto w
                 = (Return true,
                    after_gate name true []
                      [AutoApproved name; RecordedApproval name true] w))
    by (apply hitl_checkpoint_auto; destruct Hauto as [-> | ->];
        [done | by destruct auto]).
  rewrite Hrun. unfold after_gate, decided.
  cbn [snd w_state]. rewrite app_nil_r.
  destruct (w_state w); cbn.
  refine (conj eq_refl (conj _ (conj eq_refl (conj eq_refl (conj eq_refl _))))).
  - apply lookup_insert_eq.
  - rewrite bool_decide_eq_true_2 by reflexivity. reflexivity.
Qed.

Lemma hitl_checkpoint_auto_mode_approves_at_once_witness :
  (hitl_checkpoint the_studio "post_research" (lit "Research complete.") true
     (fresh_world "0a1b2c3d")).1 = Return true.
Proof.
  destruct (hitl_checkpoint_auto_mode_approves_at_once the_studio "post_research"
              (lit "Research complete.") true (fresh_world "0a1b2c3d"))
    as (evs & Hrun & _).
  - left. reflexivity.
  - rewrite Hrun. reflexivity.
Defined.

End gate_claims.

(** ** The stages behind the gates *)

Section stage_facts.

Import PyStr Flow.

Context (out : Outside) (auto_mode : bool).
Implicit Types (w : World).

Lemma relabel_state label w : w_state (relabel label w) = w_state w.
Proof. reflexivity. Qed.

Lemma run_design_and_math_gated w :
  research_approved (w_state w) = false ->
  run_design_and_math out w = (Return tt, relabel "GDD + Math model (15 min)" w).
Proof.
  intros Hno. unfold run_design_and_math. flow_unfold. now rewrite Hno.
Qed.

Lemma checkpoint_design_gated w :
  research_approved (w_state w) = false ->
  checkpoint_design out auto_mode w = (Return tt, relabel "Design review" w).
Proof.
  intros Hno. unfold checkpoint_design. flow_unfold. now rewrite Hno.
Qed.

Lemma run_mood_boards_gated w :
  design_math_approved (w_state w) = false ->
  run_mood_boards out w = (Return tt, relabel "Mood boards (10 min)" w).
Proof.
  intros Hno. unfold run_mood_boards. flow_unfold. now rewrite Hno.
Qed.

Lemma checkpoint_art_gated w :
  design_math_approved (w_state w) = false ->
  checkpoint_art out auto_mode w = (Return tt, relabel "Art direction review" w).
Proof.
  intros Hno. unfold checkpoint_art. flow_unfold. now rewrite Hno.
Qed.

Lemma run_production_gated w :
  mood_board_approved (w_state w) = false ->
  run_production out w = (Return tt, relabel "Art + Audio + Compliance (30 min)" w).
Proof.
  intros Hno. unfold run_production. flow_unfold. now rewrite Hno.
Qed.

Lemma assemble_package_gated w :
  mood_board_approved (w_state w) = false ->
  assemble_package out w = (Return None, relabel "Assembling final package" w).
Proof.
  intros Hno. unfold assemble_package. flow_unfold. now rewrite Hno.
Qed.

(** With the approval in, the stage goes through prototype and PDFs,
    builds the manifest and writes it. *)
Lemma assemble_package_approved w :
  mood_board_approved (w_state w) = true ->
  assemble_package out w
  = let w1 := prototype_and_pdfs out (relabel "Assembling final package" w) in
    match build_manifest out w1 with
    | Raise e => (Raise e, w1)
    | Return m =>
        match write_file (under (output_dir (w_state w1)) (lit MANIFEST_NAME))
                         (ManifestFile m) (w_files w1) with
        | Raise e => (Raise e, w1)
        | Return fs =>
            (Return (Some (set_estimated_cost_usd (cost_estimated_usd (w_cost w1))
                             (set_total_tokens_used (total_tokens (w_cost w1))
                                (set_completed_at (Some (w_clock w1)) (w_state w1))))),
             with_state (set_estimated_cost_usd (cost_estimated_usd (w_cost w1))
                           (set_total_tokens_used (total_tokens (w_cost w1))
                              (set_completed_at (Some (w_clock w1)) (w_state w1))))
                        (with_files fs w1))
        end
    end.
Proof.
  intros Hyes. unfold assemble_package. flow_unfold. rewrite Hyes. reflexivity.
Qed.

Lemma write_file_lookup p f fs fs' :
  write_file p f fs = Return fs' -> fs' !! PyPath.to_str p = Some f.
Proof.
  unfold write_file. intros Hw.
  destruct (fs !! PyPath.to_str (PyPath.parent p)) as [[]|]; try discriminate.
  destruct (fs !! PyPath.to_str p) as [[]|]; try discriminate;
    injection Hw as <-; apply lookup_insert_eq.
Qed.

End stage_facts.

Section truncated_runs.

Import PyStr Flow.

Context (out : Outside) (auto_mode : bool).
Implicit Types (w : World).

Lemma relabels_keeps labels w :
  w_state (relabels labels w) = w_state w
  /\ w_files (relabels labels w) = w_files w
  /\ w_events (relabels labels w) = w_events w
  /\ w_clock (relabels labels w) = w_clock w.
Proof.
  revert w. induction labels as [|l labels IH]; intros w; simpl; [done|].
  destruct (IH (relabel l w)) as (-> & -> & -> & ->). done.
Qed.

Lemma relabel_status label job w :
  JobStore.status_of job (w_jobs (relabel label w)) = JobStore.status_of job (w_jobs w).
Proof.
  unfold relabel, JobStore.status_of, JobStore._update_stage_db. cbn.
  case_decide; [reflexivity|].
  destruct (decide (job = job_id (w_state w))) as [->|Hne].
  - rewrite lookup_alter_eq. now destruct (w_jobs w !! job_id (w_state w)).
  - now rewrite lookup_alter_ne by congruence.
Qed.

Lemma relabels_status labels job w :
  JobStore.status_of job (w_jobs (relabels labels w)) = JobStore.status_of job (w_jobs w).
Proof.
  revert w. induction labels as [|l labels IH]; intros w; simpl; [done|].
  now rewrite IH, relabel_status.
Qed.

(** The worker closes a job whose flow has returned. *)
Lemma run_job_completes r w w2 :
  kickoff out auto_mode (picked_up w) = (Return r, w2) ->
  JobStore.status_of (job_id (w_state w)) (w_jobs w2) = Some JobStore.running ->
  w_state (run_job out auto_mode w) = w_state w2
  /\ w_files (run_job out auto_mode w) = w_files w2
  /\ JobStore.status_of (job_id (w_state w)) (w_jobs (run_job out auto_mode w))
     = Some JobStore.complete.
Proof.
  intros Hrun Hstatus. unfold run_job. rewrite Hrun. cbn.
  split; [reflexivity|]. split; [reflexivity|].
  unfold JobStore.status_of, JobStore.worker_update in *.
  destruct (w_jobs w2 !! job_id (w_state w)) as [j|] eqn:Hj; [|discriminate].
  simpl in Hstatus. injection Hstatus as ->.
  now rewrite lookup_insert_eq.
Qed.

Lemma kickoff_after_research w :
  kickoff out auto_mode w
  = bind (through_research_checkpoint out auto_mode) (fun _ => (after_research_checkpoint out auto_mode)) w.
Proof.
  unfold kickoff, through_research_checkpoint, after_research_checkpoint,
    after_design_checkpoint, after_art_checkpoint, bind.
  destruct (initialize out w) as [[] w1]; [|reflexivity].
  destruct (run_preflight out w1) as [[] w2]; [|reflexivity].
  destruct (run_research out w2) as [[] w3]; reflexivity.
Qed.

Lemma kickoff_after_design w :
  kickoff out auto_mode w
  = bind (through_design_checkpoint out auto_mode) (fun _ => (after_design_checkpoint out auto_mode)) w.
Proof.
  rewrite kickoff_after_research.
  unfold through_design_checkpoint, after_research_checkpoint, bind.
  destruct ((through_research_checkpoint out auto_mode) w) as [[] w1]; [|reflexivity].
  destruct (run_design_and_math out w1) as [[] w2]; reflexivity.
Qed.

Lemma kickoff_after_art w :
  kickoff out auto_mode w
  = bind (through_art_checkpoint out auto_mode) (fun _ => (after_art_checkpoint out)) w.
Proof.
  rewrite kickoff_after_design.
  unfold through_art_checkpoint, after_design_checkpoint, bind.
  destruct ((through_design_checkpoint out auto_mode) w) as [[] w1]; [|reflexivity].
  destruct (run_mood_boards out w1) as [[] w2]; reflexivity.
Qed.

Lemma after_art_checkpoint_rejected w :
  mood_board_approved (w_state w) = false ->
  (after_art_checkpoint out) w
  = (Return None,
     relabels ["Art + Audio + Compliance (30 min)"; "Assembling final package"] w).
Proof.
  intros Hno. unfold after_art_checkpoint, bind.
  rewrite run_production_gated by assumption.
  now rewrite assemble_package_gated.
Qed.

Lemma after_design_checkpoint_rejected w :
  design_math_approved (w_state w) = false ->
  mood_board_approved (w_state w) = false ->
  (after_design_checkpoint out auto_mode) w
  = (Return None,
     relabels ["Mood boards (10 min)"; "Art direction review";
               "Art + Audio + Compliance (30 min)"; "Assembling final package"] w).
Proof.
  intros Hno Hno'. unfold after_design_checkpoint, bind.
  rewrite run_mood_boards_gated by assumption.
  rewrite checkpoint_art_gated by assumption.
  now rewrite after_art_checkpoint_rejected.
Qed.

Lemma after_research_checkpoint_rejected w :
  research_approved (w_state w) = false ->
  design_math_approved (w_state w) = false ->
  mood_board_approved (w_state w) = false ->
  (after_research_checkpoint out auto_mode) w
  = (Return None,
     relabels ["GDD + Math model (15 min)"; "Design review";
               "Mood boards (10 min)"; "Art direction review";
               "Art + Audio + Compliance (30 min)"; "Assembling final package"] w).
Proof.
  intros Hno Hno' Hno''. unfold after_research_checkpoint, bind.
  rewrite run_design_and_math_gated by assumption.
  rewrite checkpoint_design_gated by assumption.
  now rewrite after_design_checkpoint_rejected.
Qed.

End truncated_runs.

Section rejection_claims.

Import PyStr Flow.




End rejection_claims.

Section manifest_claims.

Import PyStr Flow.




End manifest_claims.

(** ** The output directory *)

Section output_directory.

Import PyStr Flow.

Local Abbreviation plain := PyPath.plain.

Lemma isalnum_plain ucd0 c : isalnum ucd0 c = true -> plain c.
Proof.
  intros H. repeat split; intros ->; vm_compute in H; discriminate.
Qed.

Lemma underscore_plain : plain UNDERSCORE.
Proof. repeat split; discriminate. Qed.

Lemma digit_plain n : plain (digit n).
Proof.
  unfold plain, digit.
  assert (Hlt : (n mod 10 < 10)%N) by (apply N.mod_upper_bound; discriminate).
  revert Hlt. generalize (n mod 10)%N. intros x Hlt.
  split; [|split]; lia.
Qed.

Lemma strftime_compact_plain d : Forall plain (strftime_compact d).
Proof.
  unfold strftime_compact, pad4, pad2.
  repeat (apply Forall_app; split);
    repeat (apply Forall_cons; split);
    try apply Forall_nil; auto using digit_plain, underscore_plain.
Qed.

Lemma slug_of_chars out theme_text :
  Forall (fun c => isalnum (ucd out) c = true \/ c = UNDERSCORE) (slug_of out theme_text).
Proof.
  unfold slug_of. apply Forall_take, Forall_fmap, Forall_forall.
  intros c _. simpl. destruct (isalnum (ucd out) c) eqn:Hc; auto.
Qed.

Lemma slug_of_plain out theme_text : Forall plain (slug_of out theme_text).
Proof.
  eapply Forall_impl; [apply slug_of_chars|].
  intros c [Hc | ->]; [eapply isalnum_plain; eauto | apply underscore_plain].
Qed.

Lemma split_slash_plain (s : pystr) : Forall plain s -> PyPath.split_slash s = [s].
Proof.
  induction 1 as [|c s (Hc & _ & _) _ IH]; simpl; [reflexivity|].
  rewrite IH. destruct (N.eqb_spec c PyPath.SLASH) as [->|]; [|reflexivity].
  now contradict Hc.
Qed.

Lemma root_of_plain (s : pystr) : Forall plain s -> PyPath.root_of s = [].
Proof.
  intros Hs. destruct s as [|a s]; [reflexivity|].
  assert (Ha : (a =? PyPath.SLASH)%N = false).
  { apply N.eqb_neq. inversion Hs as [|? ? (Ha & _) _]; subst. exact Ha. }
  simpl. destruct s as [|b [|c s]]; simpl; now rewrite Ha.
Qed.

(** A non-empty text of plain characters is one path component. *)
Lemma joinpath_plain (p : PyPath.Path) (s : pystr) :
  Forall plain s -> s <> [] ->
  PyPath.joinpath p s = PyPath.mkPath (PyPath.anchor p) (PyPath.parts p ++ [s]).
Proof.
  intros Hs Hne. unfold PyPath.joinpath, PyPath.parse.
  rewrite root_of_plain, split_slash_plain by assumption.
  assert (Hkeep : PyPath.keep_component s = true).
  { unfold PyPath.keep_component.
    rewrite bool_decide_eq_false_2 by assumption.
    rewrite bool_decide_eq_false_2; [reflexivity|].
    intros ->. inversion Hs as [|? ? (_ & _ & Hdot) _]; subst. now apply Hdot. }
  simpl. rewrite filter_cons_True by assumption. reflexivity.
Qed.

(** C9.  [initialize], given an idea: the slug is the lower-cased theme
    with every character that is not alphanumeric replaced by an
    underscore, cut to 40 characters, followed by an underscore and the
    timestamp; no character of it is a slash, a backslash or a dot; and
    the output directory is the path whose parent is the configured
    output root and whose last component is the slug.  This holds whether
    or not creating the directories then succeeds. *)
Theorem initialize_puts_the_job_directly_under_the_root
    (out : Outside) (w w' : World) (idea : GameIdeaInput) (r : outcome unit) :
  game_idea (w_state w) = Some idea ->
  initialize out w = (r, w') ->
  game_slug (w_state w')
  = take 40 ((fun c => if isalnum (ucd out) c then c else 95%N)
               <$> lower (ucd out) (theme idea))
    ++ [95%N] ++ strftime_compact (calendar out (w_clock w))
  /\ Forall (fun c => c <> 47%N /\ c <> 92%N /\ c <> 46%N) (game_slug (w_state w'))
  /\ output_dir (w_state w')
     = PyPath.to_str (PyPath.joinpath (output_root out) (game_slug (w_state w')))
  /\ PyPath.parent (PyPath.joinpath (output_root out) (game_slug (w_state w')))
     = output_root out
  /\ PyPath.name (PyPath.joinpath (output_root out) (game_slug (w_state w')))
     = game_slug (w_state w').
Proof.
  intros Hidea Hrun.
  unfold initialize, the_idea in Hrun.
  remember (output_root out) as root eqn:Hroot. clear Hroot.
  flow_unfold_in Hrun. rewrite Hidea in Hrun.
  destruct (make_skeleton _ _ _) as [r0 fs] in Hrun.
  injection Hrun as <- <-. cbn [w_state game_slug output_dir set_output_dir set_game_slug set_started_at
       with_state with_files].
  set (slug := slug_of out (theme idea) ++ [UNDERSCORE]
               ++ strftime_compact (calendar out (w_clock w))).
  assert (Hplain : Forall plain slug).
  { unfold slug. apply Forall_app. split; [apply slug_of_plain|].
    apply Forall_cons. split; [apply underscore_plain | apply strftime_compact_plain]. }
  assert (Hne : slug <> []).
  { unfold slug. intros Hnil. apply app_eq_nil in Hnil as [_ Hnil]. discriminate. }
  rewrite (joinpath_plain _ _ Hplain Hne).
  split; [reflexivity|]. split; [exact Hplain|]. split; [reflexivity|].
  unfold PyPath.parent, PyPath.name. cbn [PyPath.anchor PyPath.parts].
  rewrite removelast_last, last_last.
  split; [now destruct root | reflexivity].
Qed.

Lemma initialize_puts_the_job_directly_under_the_root_witness :
  game_slug (w_state (initialize the_studio (fresh_world "0a1b2c3d")).2)
  = lit "dragon_s_gold___ii_20250314_092653"
  /\ output_dir (w_state (initialize the_studio (fresh_world "0a1b2c3d")).2)
     = lit "output/dragon_s_gold___ii_20250314_092653".
Proof.
  destruct (initialize_puts_the_job_directly_under_the_root the_studio
              (fresh_world "0a1b2c3d")
              (initialize the_studio (fresh_world "0a1b2c3d")).2
              dragons
              (initialize the_studio (fresh_world "0a1b2c3d")).1)
    as (Hslug & _ & Hdir & _).
  - reflexivity.
  - vm_compute. reflexivity.
  - split.
    + rewrite Hslug. vm_compute. reflexivity.
    + rewrite Hdir, Hslug. vm_compute. reflexivity.
Defined.

End output_directory.

(** * Further properties *)

(** ** The envelope *)

Section envelope_bounds.

Context {Shared : Type}.
Implicit Types (crew : Envelope.thread Shared) (s : Shared).

Import Envelope.

Lemma join_not_waiting th s : j_shared (join 0 th s) = s /\ j_elapsed (join 0 th s) = 0.
Proof. destruct th; simpl; auto. Qed.

(** A wait that ended early ended because the thread did. *)
Lemma join_early_ended timeout th s :
  j_elapsed (join timeout th s) < timeout -> is_alive (j_thread (join timeout th s)) = false.
Proof.
  revert th s.
  induction timeout as [|n IH]; intros [f rest| | |] s; simpl; try lia; auto.
  intros Hlt. apply IH. lia.
Qed.

(** The envelope reports the wait as it was. *)
Lemma run_crew_with_timeout_wait timeouts crew stage_name s :
  er_elapsed (run_crew_with_timeout timeouts crew stage_name s)
  = j_elapsed (join (Z.to_nat (stage_timeout timeouts stage_name)) crew s)
  /\ er_thread (run_crew_with_timeout timeouts crew stage_name s)
     = j_thread (join (Z.to_nat (stage_timeout timeouts stage_name)) crew s)
  /\ er_shared (run_crew_with_timeout timeouts crew stage_name s)
     = j_shared (join (Z.to_nat (stage_timeout timeouts stage_name)) crew s).
Proof.
  unfold run_crew_with_timeout.
  destruct (is_alive _); [repeat split|].
  destruct (error_holder _) as [[e [|]]|]; repeat split.
Qed.

End envelope_bounds.

(** X1.  Whatever the work unit does, the envelope gives control back
    after at most the stage's timeout (1200 seconds for a stage name that
    has no entry, nothing at all for a timeout that is not positive); and
    when it comes back before the timeout has passed, the thread has
    ended: nothing is left running behind the caller. *)
Theorem run_crew_with_timeout_returns_in_time
    {Shared : Type} (timeouts : gmap string Z) (stage_name : string)
    (crew : Envelope.thread Shared) (s : Shared) :
  (Z.of_nat (Envelope.er_elapsed
               (Envelope.run_crew_with_timeout timeouts crew stage_name s))
   <= Z.max 0 (match timeouts !! stage_name with Some t => t | None => 1200 end))%Z
  /\ ((Z.of_nat (Envelope.er_elapsed
                   (Envelope.run_crew_with_timeout timeouts crew stage_name s))
       < match timeouts !! stage_name with Some t => t | None => 1200 end)%Z ->
      Envelope.is_alive
        (Envelope.er_thread (Envelope.run_crew_with_timeout timeouts crew stage_name s))
      = false).
Proof.
  destruct (run_crew_with_timeout_wait timeouts crew stage_name s) as (-> & -> & _).
  fold (stage_timeout timeouts stage_name).
  pose proof (join_elapsed_le (Z.to_nat (stage_timeout timeouts stage_name)) crew s).
  split; [lia|].
  intros Hlt. apply join_early_ended. lia.
Qed.

Lemma run_crew_with_timeout_returns_in_time_witness :
  Envelope.is_alive
    (Envelope.er_thread
       (Envelope.run_crew_with_timeout (STAGE_TIMEOUTS ∅) crew_that_fails "mood_board" []))
  = false.
Proof.
  refine (proj2 (run_crew_with_timeout_returns_in_time
                   (STAGE_TIMEOUTS ∅) "mood_board" crew_that_fails []) _).
  vm_compute. reflexivity.
Defined.

(** X3.  A timeout that is zero or negative makes the envelope return at
    once, on the shared memory as it was: work that has not ended by
    itself is reported as timed out without having been given a second. *)
Theorem run_crew_with_timeout_without_patience
    {Shared : Type} (timeouts : gmap string Z) (stage_name : string)
    (crew : Envelope.thread Shared) (s : Shared) :
  (stage_timeout timeouts stage_name <= 0)%Z ->
  Envelope.er_shared (Envelope.run_crew_with_timeout timeouts crew stage_name s) = s
  /\ Envelope.er_elapsed (Envelope.run_crew_with_timeout timeouts crew stage_name s) = 0
  /\ Envelope.er_thread (Envelope.run_crew_with_timeout timeouts crew stage_name s) = crew
  /\ (Envelope.is_alive crew = true ->
      Envelope.er_outcome (Envelope.run_crew_with_timeout timeouts crew stage_name s)
      = Return PyNone).
Proof.
  intros Hle. unfold Envelope.run_crew_with_timeout.
  replace (Z.to_nat (stage_timeout timeouts stage_name)) with 0 by lia.
  assert (Hth : Envelope.j_thread (Envelope.join 0 crew s) = crew)
    by (now destruct crew).
  destruct (join_not_waiting crew s) as [Hs He].
  rewrite Hth.
  destruct (Envelope.is_alive crew) eqn:Halive; simpl.
  - auto.
  - destruct (Envelope.error_holder (Envelope._run crew)) as [[e [|]]|]; simpl;
      repeat split; auto; discriminate.
Qed.

Lemma run_crew_with_timeout_without_patience_witness :
  Envelope.er_shared
    (Envelope.run_crew_with_timeout (STAGE_TIMEOUTS {["TIMEOUT_RESEARCH" := (-5)%Z]})
       crew_that_blocks "research" [])
  = [].
Proof.
  refine (proj1 (run_crew_with_timeout_without_patience
                   (STAGE_TIMEOUTS {["TIMEOUT_RESEARCH" := (-5)%Z]}) "research"
                   crew_that_blocks [] _)).
  vm_compute. discriminate.
Defined.

(** ** The job table *)

Section jobstore_more.

Import JobStore.
Implicit Types (db : gmap string Job) (j : Job).

Lemma reaped_not_stale now j : is_stale now (reaped j) = false.
Proof. reflexivity. Qed.

Lemma select_stale_nil now db :
  select_stale now db = [] <-> forall id j, db !! id = Some j -> is_stale now j = false.
Proof.
  split.
  - intros Hnil id j Hj. destruct (is_stale now j) eqn:Hst; [|reflexivity].
    assert (Hin : id ∈ (select_stale now db).*1)
      by (apply elem_of_select_stale; eauto).
    rewrite Hnil in Hin. by apply elem_of_nil in Hin.
  - intros Hnone. destruct (select_stale now db) as [|[id t] l] eqn:Hsel; [reflexivity|].
    assert (Hin : id ∈ (select_stale now db).*1) by (rewrite Hsel; left).
    apply elem_of_select_stale in Hin as (j & Hj & Hst).
    rewrite (Hnone _ _ Hj) in Hst. discriminate.
Qed.

(** X4.  The sweep neither adds nor removes a job; after it no job of the
    table is stale any more, so a second sweep at the same instant changes
    nothing and prints nothing; and the first one prints nothing exactly
    when no job was stale. *)
Theorem recover_stale_jobs_settles_the_table (now : Z) (db : gmap string Job) :
  dom (_recover_stale_jobs now db).1 = dom db
  /\ (forall id j, (_recover_stale_jobs now db).1 !! id = Some j -> is_stale now j = false)
  /\ _recover_stale_jobs now (_recover_stale_jobs now db).1
     = ((_recover_stale_jobs now db).1, None)
  /\ ((_recover_stale_jobs now db).2 = None
      <-> forall id j, db !! id = Some j -> is_stale now j = false).
Proof.
  assert (Hclean : forall id j,
             (_recover_stale_jobs now db).1 !! id = Some j -> is_stale now j = false).
  { intros id j. rewrite recover_stale_jobs_lookup.
    destruct (db !! id) as [j0|]; simpl; [|discriminate].
    destruct (is_stale now j0) eqn:Hst; intros [= <-];
      [apply reaped_not_stale | exact Hst]. }
  split; [|split; [exact Hclean|split]].
  - apply set_eq. intros id. rewrite !elem_of_dom, recover_stale_jobs_lookup.
    now rewrite fmap_is_Some.
  - apply select_stale_nil in Hclean.
    unfold _recover_stale_jobs at 1. now rewrite Hclean.
  - rewrite <- select_stale_nil. unfold _recover_stale_jobs. simpl.
    destruct (select_stale now db); split; intros; congruence.
Qed.



End jobstore_more.
(** ** The approval gate, in every mode *)

Section gate_more.

Import PyStr Flow.

Context (out : Outside).
Implicit Types (w : World) (name : string) (summary : pystr).

Lemma decided_reads name approved entries st :
  hitl_approvals (decided name approved entries st)
  = <[name := approved]> (hitl_approvals st)
  /\ errors (decided name approved entries st) = errors st ++ entries.
Proof. now destruct st. Qed.

(** What the terminal branch leaves, whatever is typed or not typed. *)
Lemma cli_checkpoint_outcome name w : gate_outcome out name w (cli_checkpoint out name w).
Proof.
  unfold gate_outcome.
  destruct (confirm_ask out name) as [[|]|e] eqn:Hanswer.
  - rewrite cli_checkpoint_approved by assumption. cbn.
    refine (conj eq_refl (conj eq_refl (conj _ _))); [lia|].
    exists [AskedConfirm name; RecordedApproval name true].
    split; [reflexivity|]. split.
    { cbn. now rewrite bool_decide_eq_true_2 by reflexivity. }
    destruct (decided_reads name true [] (w_state w)) as [Happ Herr].
    split; [exact Happ|]. exists []. auto.
  - destruct (prompt_ask out name) as [fb|e] eqn:Hfb.
    + rewrite (cli_checkpoint_rejected out name w fb) by assumption. cbn.
      refine (conj eq_refl (conj eq_refl (conj _ _))); [lia|].
      exists [AskedConfirm name; RecordedApproval name false; AskedFeedback name].
      split; [reflexivity|]. split.
      { cbn. now rewrite bool_decide_eq_true_2 by reflexivity. }
      match goal with
      | |- context [decided name false ?entries (w_state w)] =>
          destruct (decided_reads name false entries (w_state w)) as [Happ Herr];
          split; [exact Happ|]; exists entries
      end.
      split; [reflexivity|]. split; [exact Herr|]. split; [discriminate|].
      case_bool_decide; eauto.
    + rewrite (cli_checkpoint_without_feedback out name w e) by assumption. cbn.
      refine (conj eq_refl (conj eq_refl (conj _ _))); [lia|].
      exists [AskedConfirm name; RecordedApproval name false; AskedFeedback name].
      split; [reflexivity|]. split; [left|].
      right. destruct (decided_reads name false [] (w_state w)) as [Happ Herr].
      rewrite app_nil_r in Herr. auto.
  - rewrite (cli_checkpoint_unanswered out name w e) by assumption. cbn.
    refine (conj eq_refl (conj eq_refl (conj _ _))); [lia|].
    exists [AskedConfirm name]. split; [reflexivity|]. split; [left|].
    left. auto.
Qed.

(** A wait before the gate proper changes nothing of what the gate
    leaves. *)
Lemma gate_outcome_after_wait name w seconds ev r :
  is_record_of name ev = false ->
  gate_outcome out name (later seconds (with_event ev w)) r ->
  gate_outcome out name w r.
Proof.
  intros Hev (Hfiles & Hjobs & Hclock & evs & Hevs & Hrest).
  unfold gate_outcome. cbn in *.
  refine (conj Hfiles (conj Hjobs (conj _ _))); [lia|].
  exists (ev :: evs). split; [now rewrite Hevs, <- app_assoc|].
  destruct r.1 as [approved|e].
  - destruct Hrest as (Hrec & Hrest). split; [|exact Hrest].
    rewrite filter_cons_False; [exact Hrec|]. now rewrite Hev.
  - destruct Hrest as (Hasked & Hrest). split; [now right | exact Hrest].
Qed.

(** The gate in every mode. *)
Lemma hitl_checkpoint_outcome name summary auto w :
  gate_outcome out name w (hitl_checkpoint out name summary auto w).
Proof.
  destruct (auto || negb (HITL_ENABLED out)) eqn:Hauto.
  - rewrite (hitl_checkpoint_auto out name summary auto w Hauto).
    unfold gate_outcome. cbn.
    refine (conj eq_refl (conj eq_refl (conj _ _))); [lia|].
    exists [AutoApproved name; RecordedApproval name true].
    split; [reflexivity|]. split.
    { cbn. now rewrite bool_decide_eq_true_2 by reflexivity. }
    destruct (decided_reads name true [] (w_state w)) as [Happ Herr].
    split; [exact Happ|]. exists []. auto.
  - destruct (HITL_ENABLED out) eqn:Hon; [|now destruct auto].
    destruct auto; [discriminate|].
    destruct (decide (job_id (w_state w) = "")) as [Hjob|Hjob].
    { rewrite hitl_checkpoint_cli by assumption. apply cli_checkpoint_outcome. }
    destruct (web_hitl_importable out) eqn:Himp.
    2: { unfold hitl_checkpoint. rewrite Hon. cbn [orb negb].
         rewrite bool_decide_eq_false_2 by assumption.
         unfold web_decision. rewrite Himp. cbn [negb].
         apply cli_checkpoint_outcome. }
    destruct (sorted_output_files out (w_files w) (output_dir (w_state w)))
      as [files|e] eqn:Hfiles.
    2: { unfold hitl_checkpoint. rewrite Hon. cbn [orb negb].
         rewrite bool_decide_eq_false_2 by assumption.
         unfold web_decision. rewrite Himp, Hfiles. cbn [negb].
         apply cli_checkpoint_outcome. }
    destruct (web_hitl_checkpoint out (job_id (w_state w)) name summary
                (last_n 20 files)) as [[approved answer]|e] eqn:Hweb.
    + rewrite (hitl_checkpoint_web out name summary w files approved answer)
        by assumption.
      unfold gate_outcome. cbn.
      refine (conj eq_refl (conj eq_refl (conj _ _))); [lia|].
      exists [WaitedForWebDecision name (last_n 20 files); RecordedApproval name approved].
      split; [reflexivity|]. split.
      { cbn. now rewrite bool_decide_eq_true_2 by reflexivity. }
      match goal with
      | |- context [decided name approved ?entries (w_state w)] =>
          destruct (decided_reads name approved entries (w_state w)) as [Happ Herr];
          split; [exact Happ|]; exists entries
      end.
      split; [reflexivity|]. split; [exact Herr|]. split.
      * now intros ->.
      * destruct (negb approved && truthy answer); eauto.
    + unfold hitl_checkpoint. rewrite Hon. cbn [orb negb].
      rewrite bool_decide_eq_false_2 by assumption.
      unfold web_decision. rewrite Himp, Hfiles. cbn [negb]. rewrite Hweb.
      eapply gate_outcome_after_wait; [|apply cli_checkpoint_outcome].
      reflexivity.
Qed.

(** With the web channel out of use, the gate is the terminal branch,
    entered in a world with the state as it was. *)
Lemma hitl_checkpoint_fallback name summary w :
  HITL_ENABLED out = true ->
  job_id (w_state w) <> "" ->
  (web_hitl_importable out = false
   \/ (exists e, sorted_output_files out (w_files w) (output_dir (w_state w)) = Raise e)
   \/ (exists files e,
         sorted_output_files out (w_files w) (output_dir (w_state w)) = Return files
         /\ web_hitl_checkpoint out (job_id (w_state w)) name summary (last_n 20 files)
            = Raise e)) ->
  exists w0,
    hitl_checkpoint out name summary false w = cli_checkpoint out name w0
    /\ w_state w0 = w_state w.
Proof.
  intros Hon Hjob Hfail.
  unfold hitl_checkpoint. rewrite Hon. cbn [orb negb].
  rewrite bool_decide_eq_false_2 by assumption.
  unfold web_decision.
  destruct Hfail as [Himp | [[e He] | (files & e & Hfiles & He)]].
  - rewrite Himp. cbn [negb]. now exists w.
  - destruct (web_hitl_importable out); cbn [negb]; [|now exists w].
    rewrite He. now exists w.
  - destruct (web_hitl_importable out); cbn [negb]; [|now exists w].
    rewrite Hfiles, He. eexists. split; [reflexivity|]. reflexivity.
Qed.

End gate_more.

Section gate_more_claims.

Import PyStr Flow.

(** X6.  In every mode the gate either returns an answer or raises what a
    terminal that cannot be read has raised; it raises nothing else, and
    nothing at all in auto mode or with approvals switched off.  Files
    and job table stay as they were and the clock does not go back.  An
    answer is stored under the checkpoint's name, once, and brings at
    most one entry to the error log, a rejection entry, and none when it
    is an approval.  When the first prompt raises, the state is as it
    was; when the second does, the rejection has been stored and the
    error log has gained nothing. *)
Theorem hitl_checkpoint_answers_or_fails_at_the_terminal
    (out : Outside) (name : string) (summary : pystr) (auto : bool) (w : World) :
  let r := hitl_checkpoint out name summary auto w in
  w_files r.2 = w_files w
  /\ w_jobs r.2 = w_jobs w
  /\ (w_clock w <= w_clock r.2)%Z
  /\ (forall e, r.1 = Raise e -> auto = false /\ HITL_ENABLED out = true)
  /\ exists evs,
       w_events r.2 = w_events w ++ evs
       /\ match r.1 with
          | Return approved =>
              filter (fun ev => is_record_of name ev = true) evs
              = [RecordedApproval name approved]
              /\ hitl_approvals (w_state r.2)
                 = <[name := approved]> (hitl_approvals (w_state w))
              /\ exists entries,
                   w_state r.2
                   = set_errors (errors (w_state w) ++ entries)
                       (set_hitl_approvals
                          (<[name := approved]> (hitl_approvals (w_state w)))
                          (w_state w))
                   /\ errors (w_state r.2) = errors (w_state w) ++ entries
                   /\ (approved = true -> entries = [])
                   /\ (entries = []
                       \/ exists F,
                            entries
                            = [lit "HITL rejection at " ++ lit name ++ lit ": " ++ F])
          | Raise e =>
              AskedConfirm name ∈ evs
              /\ ((confirm_ask out name = Raise e /\ w_state r.2 = w_state w)
                  \/ (confirm_ask out name = Return false
                      /\ prompt_ask out name = Raise e
                      /\ hitl_approvals (w_state r.2)
                         = <[name := false]> (hitl_approvals (w_state w))
                      /\ errors (w_state r.2) = errors (w_state w)))
          end.
Proof.
  intros r.
  destruct (hitl_checkpoint_outcome out name summary auto w)
    as (Hfiles & Hjobs & Hclock & Hrest).
  fold r in Hfiles, Hjobs, Hclock, Hrest.
  refine (conj Hfiles (conj Hjobs (conj Hclock (conj _ Hrest)))).
  intros e He.
  destruct (auto || negb (HITL_ENABLED out)) eqn:Hauto.
  - subst r. rewrite (hitl_checkpoint_auto out name summary auto w Hauto) in He.
    discriminate.
  - destruct auto; [discriminate|]. now destruct (HITL_ENABLED out).
Qed.

(** X7.  With approvals on and a job id set, a web channel that cannot be
    used (its module is missing, the files cannot be listed, or the
    channel raises) sends the question to the terminal, and the gate ends
    as the terminal does: an approval typed there is the gate's answer; a
    rejection with its feedback is the gate's answer and, unless the
    feedback is "skip", an entry of the error log; and a terminal that
    cannot be read fails the checkpoint with its exception, as the closed
    standard input of a worker process does at the first prompt, before
    anything is stored. *)
Theorem hitl_checkpoint_falls_back_to_the_terminal
    (out : Outside) (name : string) (summary : pystr) (w : World) :
  HITL_ENABLED out = true ->
  job_id (w_state w) <> "" ->
  (web_hitl_importable out = false
   \/ (exists e, sorted_output_files out (w_files w) (output_dir (w_state w)) = Raise e)
   \/ (exists files e,
         sorted_output_files out (w_files w) (output_dir (w_state w)) = Return files
         /\ web_hitl_checkpoint out (job_id (w_state w)) name summary (last_n 20 files)
            = Raise e)) ->
  let r := hitl_checkpoint out name summary false w in
  AskedConfirm name ∈ w_events r.2
  /\ (forall e, confirm_ask out name = Raise e ->
        r.1 = Raise e /\ w_state r.2 = w_state w)
  /\ (confirm_ask out name = Return true ->
        r.1 = Return true
        /\ hitl_approvals (w_state r.2) !! name = Some true
        /\ errors (w_state r.2) = errors (w_state w))
  /\ (forall fb, confirm_ask out name = Return false ->
        prompt_ask out name = Return fb ->
        r.1 = Return false
        /\ hitl_approvals (w_state r.2) !! name = Some false
        /\ errors (w_state r.2)
           = errors (w_state w)
             ++ (if bool_decide (lower (ucd out) fb = lit "skip") then []
                 else [lit "HITL rejection at " ++ lit name ++ lit ": " ++ fb]))
  /\ (forall e, confirm_ask out name = Return false ->
        prompt_ask out name = Raise e ->
        r.1 = Raise e
        /\ hitl_approvals (w_state r.2) !! name = Some false
        /\ errors (w_state r.2) = errors (w_state w)).
Proof.
  intros Hon Hjob Hfail r.
  destruct (hitl_checkpoint_fallback out name summary w Hon Hjob Hfail)
    as (w0 & Hrun & Hst).
  subst r. rewrite Hrun. rewrite <- Hst. clear Hrun Hst Hfail Hjob w.
  refine (conj _ (conj _ (conj _ (conj _ _)))).
  - destruct (cli_checkpoint_outcome out name w0) as (_ & _ & _ & evs & Hevs & Hrest).
    rewrite Hevs. apply elem_of_app. right.
    destruct (cli_checkpoint out name w0).1 as [approved|e] eqn:Hout.
    + destruct (confirm_ask out name) as [[|]|e] eqn:Hanswer.
      * rewrite cli_checkpoint_approved in Hevs by assumption. cbn in Hevs.
        apply app_inv_head in Hevs. subst evs. left.
      * destruct (prompt_ask out name) as [fb|e] eqn:Hfb.
        -- rewrite (cli_checkpoint_rejected out name w0 fb) in Hevs by assumption.
           cbn in Hevs. apply app_inv_head in Hevs. subst evs. left.
        -- rewrite (cli_checkpoint_without_feedback out name w0 e) in Hout
             by assumption. discriminate.
      * rewrite (cli_checkpoint_unanswered out name w0 e) in Hout by assumption.
        discriminate.
    + exact (proj1 Hrest).
  - intros e He. now rewrite (cli_checkpoint_unanswered out name w0 e).
  - intros Hyes. rewrite cli_checkpoint_approved by assumption.
    unfold later, after_gate; cbn [fst snd w_state].
    destruct (decided_reads name true [] (w_state w0)) as [Happ Herr].
    rewrite Happ, Herr, app_nil_r. now rewrite lookup_insert_eq.
  - intros fb Hno Hfb. rewrite (cli_checkpoint_rejected out name w0 fb) by assumption.
    unfold later, after_gate; cbn [fst snd w_state].
    match goal with
    | |- context [decided name false ?entries (w_state w0)] =>
        destruct (decided_reads name false entries (w_state w0)) as [Happ Herr]
    end.
    rewrite Happ, Herr, lookup_insert_eq. now case_bool_decide.
  - intros e Hno He.
    rewrite (cli_checkpoint_without_feedback out name w0 e) by assumption.
    unfold later, after_gate; cbn [fst snd w_state].
    destruct (decided_reads name false [] (w_state w0)) as [Happ Herr].
    rewrite Happ, Herr, app_nil_r. now rewrite lookup_insert_eq.
Qed.

(** At the terminal of the offline studio the research is approved; in a
    worker process the same checkpoint fails with [EOFError]. *)
Lemma hitl_checkpoint_falls_back_to_the_terminal_witness :
  (hitl_checkpoint the_offline_studio "post_research" (lit "Research complete.") false
     (fresh_world "0a1b2c3d")).1 = Return true
  /\ (hitl_checkpoint the_detached_studio "post_research" (lit "Research complete.")
        false (fresh_world "0a1b2c3d")).1
     = Raise (Exn "EOFError" "EOF when reading a line").
Proof.
  split.
  - destruct (hitl_checkpoint_falls_back_to_the_terminal the_offline_studio
                "post_research" (lit "Research complete.") (fresh_world "0a1b2c3d"))
      as (_ & _ & Hyes & _).
    + reflexivity.
    + discriminate.
    + left. reflexivity.
    + now apply Hyes.
  - destruct (hitl_checkpoint_falls_back_to_the_terminal the_detached_studio
                "post_research" (lit "Research complete.") (fresh_world "0a1b2c3d"))
      as (_ & Hclosed & _).
    + reflexivity.
    + discriminate.
    + left. reflexivity.
    + now apply (Hclosed (Exn "EOFError" "EOF when reading a line")).
Defined.

End gate_more_claims.

(** ** The stages *)

Section stages_more.

Import PyStr Flow.

Context (out : Outside) (auto_mode : bool).
Implicit Types (w : World).

(** The review: it returns, and the pipeline state, the job table, the
    interactions and the cost are as before. *)
Lemma adversarial_review_frame stage w :
  exists w',
    _run_adversarial_review out stage w = (Return tt, w')
    /\ w_state w' = w_state w
    /\ w_jobs w' = w_jobs w
    /\ w_events w' = w_events w
    /\ w_cost w' = w_cost w
    /\ (w_clock w <= w_clock w' <= w_clock w + Z.max 0 (recon_timeout out))%Z.
Proof.
  unfold _run_adversarial_review. flow_unfold.
  destruct (review_crew out stage w) as [crew|e].
  2: { eexists. split; [reflexivity|]. repeat split; auto; lia. }
  unfold enveloped.
  assert (Hwait : (0 <= Z.of_nat (Envelope.er_elapsed
                                    (Envelope.run_crew_with_timeout
                                       (STAGE_TIMEOUTS (TIMEOUT_ENV out)) crew "recon"
                                       (w_files w)))
                   <= Z.max 0 (recon_timeout out))%Z).
  { destruct (run_crew_with_timeout_wait (STAGE_TIMEOUTS (TIMEOUT_ENV out)) crew
                "recon" (w_files w)) as (-> & _).
    pose proof (join_elapsed_le
                  (Z.to_nat (stage_timeout (STAGE_TIMEOUTS (TIMEOUT_ENV out)) "recon"))
                  crew (w_files w)).
    unfold recon_timeout. lia. }
  remember (Envelope.run_crew_with_timeout (STAGE_TIMEOUTS (TIMEOUT_ENV out)) crew
              "recon" (w_files w)) as r eqn:Hr.
  clear Hr.
  destruct (Envelope.er_outcome r) as [result|e]; cbn.
  2: { eexists. split; [reflexivity|]. cbn. repeat split; auto; lia. }
  match goal with
  | |- context [match ?x with Some _ => _ | None => _ end] => destruct x
  end.
  { eexists. split; [reflexivity|]. cbn. repeat split; auto; lia. }
  match goal with
  | |- context [write_file ?p ?f ?fs] => destruct (write_file p f fs)
  end; eexists; (split; [reflexivity|]); cbn; repeat split; auto; lia.
Qed.

End stages_more.

(** A value the stage needs: without it the stage has raised. *)
Ltac need x := destruct x; flow_unfold; [|intros; discriminate].

(** The review, then the gate. *)
Ltac review_and_decide out :=
  match goal with
  | |- context [Flow._run_adversarial_review out ?s ?x] =>
      let w1 := fresh "w1" in
      destruct (adversarial_review_frame out s x) as (w1 & -> & _)
  end;
  flow_unfold;
  match goal with
  | |- context [Flow.hitl_checkpoint out ?n ?s ?a ?x] =>
      let approved := fresh "approved" in
      let Hstored := fresh "Hstored" in
      destruct (hitl_checkpoint_outcome out n s a x)
        as (_ & _ & _ & ? & _ & Hstored);
      destruct (Flow.hitl_checkpoint out n s a x) as [[approved|?] ?];
      [destruct Hstored as (_ & Hstored & _) | flow_unfold; intros; discriminate]
  end;
  flow_unfold.

Section stages_more_claims.

Import PyStr Flow.

(** X8.  The adversarial review never raises, whatever its crew does, and
    whether or not the crew can be built at all; it leaves the pipeline
    state, the job table, the interactions and the cost as they were, and
    takes at most the recon timeout. *)
Theorem adversarial_review_never_fails_the_stage
    (out : Outside) (stage : string) (w : World) :
  exists w',
    _run_adversarial_review out stage w = (Return tt, w')
    /\ w_state w' = w_state w
    /\ w_jobs w' = w_jobs w
    /\ w_events w' = w_events w
    /\ (w_clock w <= w_clock w'
        <= w_clock w
           + Z.max 0 (stage_timeout (STAGE_TIMEOUTS (TIMEOUT_ENV out)) "recon"))%Z.
Proof.
  destruct (adversarial_review_frame out stage w)
    as (w' & Hrun & Hst & Hjobs & Hevs & _ & Hclock).
  exists w'. auto.
Qed.

(** X9.  A mood-board crew that is still working when its timeout has
    passed does not stop the stage: the stage returns, stores the text
    "None" as the mood board's output, and leaves the crew's thread
    running behind it. *)
Theorem run_mood_boards_records_a_timeout
    (out : Outside) (w : World) (idea : GameIdeaInput) :
  design_math_approved (w_state w) = true ->
  game_idea (w_state w) = Some idea ->
  Envelope.is_alive
    (Envelope.after
       (Z.to_nat (stage_timeout (STAGE_TIMEOUTS (TIMEOUT_ENV out)) "mood_board"))
       (mood_board_crew out (relabel "Mood boards (10 min)" w))) = true ->
  exists w',
    run_mood_boards out w = (Return tt, w')
    /\ mood_board (w_state w') = Some [("output", JStr (lit "None"))]
    /\ w_abandoned w'
       = w_abandoned w
         ++ [Envelope.after
               (Z.to_nat (stage_timeout (STAGE_TIMEOUTS (TIMEOUT_ENV out)) "mood_board"))
               (mood_board_crew out (relabel "Mood boards (10 min)" w))]
    /\ w_clock w'
       = (w_clock w
          + Z.of_nat (Z.to_nat (stage_timeout (STAGE_TIMEOUTS (TIMEOUT_ENV out))
                                  "mood_board")))%Z.
Proof.
  intros Hyes Hidea Halive.
  unfold run_mood_boards, the_idea, enveloped. flow_unfold.
  rewrite Hyes. cbn [negb]. flow_unfold. rewrite Hidea. cbn.
  rewrite (run_crew_with_timeout_alive _ _ _ _ Halive). cbn.
  rewrite Halive.
  eexists. split; [reflexivity|]. cbn. auto.
Qed.

Lemma run_mood_boards_records_a_timeout_witness :
  mood_board (w_state (run_mood_boards the_offline_studio designed_world).2)
  = Some [("output", JStr (lit "None"))].
Proof.
  destruct (run_mood_boards_records_a_timeout the_offline_studio designed_world dragons)
    as (w' & Hrun & Hboard & _).
  - reflexivity.
  - reflexivity.
  - reflexivity.
  - rewrite Hrun. exact Hboard.
Defined.

(** X10.  When a checkpoint stage has asked for a decision and returned,
    its flag in the state is the answer stored under its name in the
    approvals. *)
Theorem checkpoint_flags_are_the_recorded_answers
    (out : Outside) (auto_mode : bool) (w w' : World) :
  (checkpoint_research out auto_mode w = (Return tt, w') ->
   hitl_approvals (w_state w') !! "post_research"
   = Some (research_approved (w_state w')))
  /\ (research_approved (w_state w) = true ->
      checkpoint_design out auto_mode w = (Return tt, w') ->
      hitl_approvals (w_state w') !! "post_design_math"
      = Some (design_math_approved (w_state w')))
  /\ (design_math_approved (w_state w) = true ->
      checkpoint_art out auto_mode w = (Return tt, w') ->
      hitl_approvals (w_state w') !! "post_art_review"
      = Some (mood_board_approved (w_state w'))).
Proof.
  split; [|split].
  - unfold checkpoint_research, the_idea. flow_unfold.
    need (game_idea (w_state w)).
    review_and_decide out.
    intros [= <-]. cbn in *. rewrite Hstored. apply lookup_insert_eq.
  - intros Hyes. unfold checkpoint_design, the_idea, the_dict. flow_unfold.
    rewrite Hyes. cbn [negb]. flow_unfold.
    need (game_idea (w_state w)).
    need (gdd (w_state w)).
    need (math_model (w_state w)).
    review_and_decide out.
    intros [= <-]. cbn in *. rewrite Hstored. apply lookup_insert_eq.
  - intros Hyes. unfold checkpoint_art, the_idea, the_dict. flow_unfold.
    rewrite Hyes. cbn [negb]. flow_unfold.
    need (game_idea (w_state w)).
    need (mood_board (w_state w)).
    review_and_decide out.
    intros [= <-]. cbn in *. rewrite Hstored. apply lookup_insert_eq.
Qed.

Lemma checkpoint_flags_are_the_recorded_answers_witness :
  hitl_approvals (w_state (checkpoint_research the_studio false (fresh_world "0a1b2c3d")).2)
    !! "post_research"
  = Some (research_approved
            (w_state (checkpoint_research the_studio false (fresh_world "0a1b2c3d")).2)).
Proof.
  refine (proj1 (checkpoint_flags_are_the_recorded_answers the_studio false
                   (fresh_world "0a1b2c3d")
                   (checkpoint_research the_studio false (fresh_world "0a1b2c3d")).2) _).
  vm_compute. reflexivity.
Defined.

(** X11.  A flow started without a game idea raises an attribute error in
    its first stage; all it has done by then is to write the first stage
    label: no timestamp, no slug, no directory. *)
Theorem kickoff_without_an_idea_raises_at_once
    (out : Outside) (auto_mode : bool) (w : World) :
  game_idea (w_state w) = None ->
  kickoff out auto_mode w
  = (Raise (Exn "AttributeError" "'NoneType' object has no attribute"),
     relabel "Initializing pipeline" w).
Proof.
  intros Hnone. unfold kickoff, initialize, the_idea. flow_unfold.
  now rewrite Hnone.
Qed.

Lemma kickoff_without_an_idea_raises_at_once_witness :
  w_files (kickoff the_studio false idle_world).2 = w_files idle_world.
Proof.
  rewrite (kickoff_without_an_idea_raises_at_once the_studio false idle_world eq_refl).
  reflexivity.
Defined.

End stages_more_claims.

(** ** The directory skeleton *)

Section skeleton.

Import PyStr Flow.

Implicit Types (fs : FileSystem) (made todo : list pystr).

(** Creating directories only adds entries. *)
Lemma mkdir_parents_grows root made todo fs r fs' :
  mkdir_parents root made todo fs = (r, fs') -> fs ⊆ fs'.
Proof.
  revert made fs. induction todo as [|c todo IH]; intros made fs Hrun; cbn [mkdir_parents] in Hrun; unfold FileSystem in *.
  - now injection Hrun as _ <-.
  - destruct (fs !! PyPath.to_str (PyPath.mkPath root (made ++ [c])))
      as [[]|] eqn:Hhere.
    + eauto.
    + now injection Hrun as _ <-.
    + now injection Hrun as _ <-.
    + etrans; [|eapply IH; exact Hrun]. now apply insert_subseteq.
Qed.

(** Directories that are all there make [mkdir] succeed without a change,
    in every larger file system too. *)
Lemma mkdir_parents_settled root made todo fs fs'' :
  mkdir_parents root made todo fs = (Return tt, fs) -> fs ⊆ fs'' ->
  mkdir_parents root made todo fs'' = (Return tt, fs'').
Proof.
  revert made. induction todo as [|c todo IH]; intros made Hrun Hsub; cbn [mkdir_parents] in *; unfold FileSystem in *.
  - reflexivity.
  - destruct (fs !! PyPath.to_str (PyPath.mkPath root (made ++ [c])))
      as [[]|] eqn:Hhere; try discriminate.
    + rewrite (lookup_weaken _ _ _ _ Hhere Hsub). eauto.
    + exfalso. apply mkdir_parents_grows in Hrun.
      assert (Hdir : fs !! PyPath.to_str (PyPath.mkPath root (made ++ [c]))
                     = Some Directory).
      { eapply lookup_weaken; [apply lookup_insert_eq | exact Hrun]. }
      congruence.
Qed.

(** After a successful [mkdir] the directories are all there. *)
Lemma mkdir_parents_done root made todo fs fs' :
  mkdir_parents root made todo fs = (Return tt, fs') ->
  mkdir_parents root made todo fs' = (Return tt, fs').
Proof.
  revert made fs. induction todo as [|c todo IH]; intros made fs Hrun; cbn [mkdir_parents] in *; unfold FileSystem in *.
  - reflexivity.
  - destruct (fs !! PyPath.to_str (PyPath.mkPath root (made ++ [c])))
      as [[]|] eqn:Hhere; try discriminate.
    + pose proof (mkdir_parents_grows _ _ _ _ _ _ Hrun) as Hsub.
      rewrite (lookup_weaken _ _ _ _ Hhere Hsub). eauto.
    + pose proof (mkdir_parents_grows _ _ _ _ _ _ Hrun) as Hsub.
      rewrite (lookup_weaken _ _ (PyPath.to_str (PyPath.mkPath root (made ++ [c])))
                 Directory (lookup_insert_eq _ _ _) Hsub).
      eauto.
Qed.

Lemma make_skeleton_grows base subs fs r fs' :
  make_skeleton base subs fs = (r, fs') -> fs ⊆ fs'.
Proof.
  revert fs. induction subs as [|sub subs IH]; intros fs Hrun; cbn [make_skeleton] in Hrun; unfold FileSystem in *.
  - now injection Hrun as _ <-.
  - destruct (mkdir (under base (lit sub)) fs) as [[[]|e] fs1] eqn:Hmk.
    + etrans; [eapply mkdir_parents_grows; exact Hmk | eauto].
    + injection Hrun as _ <-. eapply mkdir_parents_grows; exact Hmk.
Qed.

Lemma make_skeleton_settled base subs fs fs' fs'' :
  make_skeleton base subs fs = (Return tt, fs') -> fs' ⊆ fs'' ->
  make_skeleton base subs fs'' = (Return tt, fs'').
Proof.
  revert fs. induction subs as [|sub subs IH]; intros fs Hrun Hsub; cbn [make_skeleton] in *; unfold FileSystem in *.
  - reflexivity.
  - destruct (mkdir (under base (lit sub)) fs) as [[[]|e] fs1] eqn:Hmk;
      [|discriminate].
    unfold mkdir in *.
    assert (Hsub1 : fs1 ⊆ fs'') by (etrans; [eapply make_skeleton_grows|]; eauto).
    rewrite (mkdir_parents_settled _ _ _ fs1 fs'');
      eauto using mkdir_parents_done.
Qed.

(** X12.  Creating the directory skeleton loses nothing: every path that
    held something still holds it afterwards, also when the creation
    fails half way.  And it can be repeated: once it has succeeded,
    running it again on the result succeeds and changes nothing. *)
Theorem make_skeleton_keeps_and_repeats
    (base : pystr) (subs : list string) (fs fs' : FileSystem) (r : outcome unit) :
  make_skeleton base subs fs = (r, fs') ->
  (forall path f, fs !! path = Some f -> fs' !! path = Some f)
  /\ (r = Return tt -> make_skeleton base subs fs' = (Return tt, fs')).
Proof.
  intros Hrun. split.
  - intros path f Hf.
    eapply lookup_weaken; [exact Hf | eapply make_skeleton_grows; exact Hrun].
  - intros ->. eapply make_skeleton_settled; [exact Hrun | reflexivity].
Qed.

Lemma make_skeleton_keeps_and_repeats_witness :
  make_skeleton (lit "output/dragons") SKELETON
    (make_skeleton (lit "output/dragons") SKELETON (w_files (fresh_world ""))).2
  = (Return tt,
     (make_skeleton (lit "output/dragons") SKELETON (w_files (fresh_world ""))).2).
Proof.
  refine (proj2 (make_skeleton_keeps_and_repeats (lit "output/dragons") SKELETON
                   (w_files (fresh_world ""))
                   (make_skeleton (lit "output/dragons") SKELETON
                      (w_files (fresh_world ""))).2
                   (Return tt) _) eq_refl).
  assert (Hdone : (make_skeleton (lit "output/dragons") SKELETON
                     (w_files (fresh_world ""))).1 = Return tt)
    by (vm_compute; reflexivity).
  rewrite <- Hdone. apply surjective_pairing.
Defined.

End skeleton.

(** ** What [initialize] leaves *)

Section initialize_more.

Import PyStr Flow.

Implicit Types (fs : FileSystem) (made todo : list pystr).

(** The state and the files after [initialize], given an idea. *)
Lemma initialize_result (out : Outside) (w w' : World) (idea : GameIdeaInput)
    (r : outcome unit) :
  game_idea (w_state w) = Some idea ->
  initialize out w = (r, w') ->
  w_state w'
  = set_output_dir
      (PyPath.to_str
         (PyPath.joinpath (output_root out)
            (slug_of out (theme idea) ++ [UNDERSCORE]
             ++ strftime_compact (calendar out (w_clock w)))))
      (set_game_slug
         (slug_of out (theme idea) ++ [UNDERSCORE]
          ++ strftime_compact (calendar out (w_clock w)))
         (set_started_at (Some (w_clock w)) (w_state w)))
  /\ make_skeleton (output_dir (w_state w')) SKELETON (w_files w) = (r, w_files w').
Proof.
  intros Hidea Hrun. unfold initialize, the_idea in Hrun.
  remember (output_root out) as root eqn:Hroot. clear Hroot.
  flow_unfold_in Hrun. rewrite Hidea in Hrun.
  destruct (make_skeleton _ _ _) as [r0 fs] eqn:Hmk in Hrun.
  injection Hrun as <- <-. cbn [w_state w_files with_state with_files].
  split; [reflexivity|]. exact Hmk.
Qed.

Lemma digit_isalnum ucd0 n : isalnum ucd0 (digit n) = true.
Proof.
  unfold digit.
  assert (Hlt : (n mod 10 < 10)%N) by (apply N.mod_upper_bound; discriminate).
  revert Hlt. generalize (n mod 10)%N. intros x Hlt.
  unfold isalnum, is_ascii, is_digit.
  assert (Hascii : (48 + x <? 128)%N = true) by (apply N.ltb_lt; lia).
  rewrite Hascii.
  assert (H1 : (48 <=? 48 + x)%N = true) by (apply N.leb_le; lia).
  assert (H2 : (48 + x <=? 57)%N = true) by (apply N.leb_le; lia).
  now rewrite H1, H2.
Qed.

Lemma strftime_compact_chars ucd0 d :
  length (strftime_compact d) = 15
  /\ Forall (fun c => isalnum ucd0 c = true \/ c = 95%N) (strftime_compact d).
Proof.
  split; [reflexivity|].
  unfold strftime_compact, pad4, pad2.
  repeat (apply Forall_app; split);
    repeat (apply Forall_cons; split);
    try apply Forall_nil; auto using digit_isalnum.
Qed.

(** X13.  The slug [initialize] gives a job is a short plain name: between
    16 and 56 characters, each one alphanumeric or an underscore; for an
    empty theme it is an underscore followed by the timestamp.  The start
    instant is the clock's. *)
Theorem initialize_names_the_job_plainly
    (out : Outside) (w w' : World) (idea : GameIdeaInput) (r : outcome unit) :
  game_idea (w_state w) = Some idea ->
  initialize out w = (r, w') ->
  16 <= length (game_slug (w_state w')) <= 56
  /\ Forall (fun c => isalnum (ucd out) c = true \/ c = 95%N) (game_slug (w_state w'))
  /\ (theme idea = [] ->
      game_slug (w_state w') = 95%N :: strftime_compact (calendar out (w_clock w)))
  /\ started_at (w_state w') = Some (w_clock w).
Proof.
  intros Hidea Hrun.
  destruct (initialize_result out w w' idea r Hidea Hrun) as [-> _].
  cbn [game_slug started_at set_output_dir set_game_slug set_started_at].
  destruct (strftime_compact_chars (ucd out) (calendar out (w_clock w)))
    as [Hlen Hchars].
  split; [|split; [|split]].
  - assert (Hshort : length (slug_of out (theme idea)) <= 40)
      by (unfold slug_of; rewrite length_take; lia).
    rewrite !length_app, Hlen. cbn [length]. lia.
  - apply Forall_app. split; [apply slug_of_chars|].
    apply Forall_app. split; [|exact Hchars].
    apply Forall_cons. split; [now right | constructor].
  - intros Hempty. rewrite Hempty. reflexivity.
  - reflexivity.
Qed.

Lemma initialize_names_the_job_plainly_witness :
  16 <= length (game_slug (w_state (initialize the_studio (fresh_world "0a1b2c3d")).2))
     <= 56.
Proof.
  refine (proj1 (initialize_names_the_job_plainly the_studio (fresh_world "0a1b2c3d")
                   (initialize the_studio (fresh_world "0a1b2c3d")).2 dragons
                   (initialize the_studio (fresh_world "0a1b2c3d")).1 _ _)).
  - reflexivity.
  - apply surjective_pairing.
Defined.

(** The last directory of a successful [mkdir] is there. *)
Lemma mkdir_parents_made root made todo fs fs' :
  mkdir_parents root made todo fs = (Return tt, fs') -> todo <> [] ->
  fs' !! PyPath.to_str (PyPath.mkPath root (made ++ todo)) = Some Directory.
Proof.
  revert made fs. induction todo as [|c todo IH]; intros made fs Hrun Hne;
    [contradiction|].
  cbn [mkdir_parents] in Hrun; unfold FileSystem in *.
  assert (Hstep : forall fs1,
             fs1 !! PyPath.to_str (PyPath.mkPath root (made ++ [c])) = Some Directory ->
             mkdir_parents root (made ++ [c]) todo fs1 = (Return tt, fs') ->
             fs' !! PyPath.to_str (PyPath.mkPath root (made ++ c :: todo))
             = Some Directory).
  { intros fs1 Hdir Hrest. destruct todo as [|c' todo'].
    - cbn [mkdir_parents] in Hrest. now injection Hrest as <-.
    - replace (made ++ c :: c' :: todo') with ((made ++ [c]) ++ c' :: todo')
        by now rewrite <- app_assoc.
      eapply IH; [exact Hrest | discriminate]. }
  destruct (fs !! PyPath.to_str (PyPath.mkPath root (made ++ [c])))
    as [[]|] eqn:Hhere; try discriminate.
  - eapply Hstep; eauto.
  - eapply Hstep; [|exact Hrun]. apply lookup_insert_eq.
Qed.

Lemma make_skeleton_made base subs fs fs' sub :
  make_skeleton base subs fs = (Return tt, fs') ->
  sub ∈ subs ->
  PyPath.parts (under base (lit sub)) <> [] ->
  fs' !! PyPath.to_str (under base (lit sub)) = Some Directory.
Proof.
  revert fs. induction subs as [|s subs IH]; intros fs Hrun Hin Hne.
  - by apply elem_of_nil in Hin.
  - cbn [make_skeleton] in Hrun; unfold FileSystem in *.
    destruct (mkdir (under base (lit s)) fs) as [[[]|e] fs1] eqn:Hmk; [|discriminate].
    apply elem_of_cons in Hin as [->|Hin]; [|eauto].
    unfold mkdir in Hmk.
    apply mkdir_parents_made in Hmk; [|exact Hne].
    eapply lookup_weaken; [|eapply make_skeleton_grows; exact Hrun].
    destruct (under base (lit s)); exact Hmk.
Qed.

(** Every name of the skeleton adds at least one component to the base. *)
Lemma skeleton_names_are_relative base sub :
  sub ∈ SKELETON -> PyPath.parts (under base (lit sub)) <> [].
Proof.
  intros Hin. unfold SKELETON in Hin.
  assert (Hparts : PyPath.root_of (lit sub) = []
                   /\ PyPath.parts (PyPath.parse (lit sub)) <> []).
  { repeat (apply elem_of_cons in Hin as [->|Hin];
            [split; [reflexivity | vm_compute; discriminate]|]).
    by apply elem_of_nil in Hin. }
  destruct Hparts as [Hroot Hparts].
  unfold under, PyPath.joinpath. rewrite Hroot. cbn [PyPath.parts].
  intros Hnil. apply app_eq_nil in Hnil as [_ Hnil]. contradiction.
Qed.

(** X14.  When [initialize] returns without raising, each of the twelve
    stage directories exists under the job's output directory, and
    whatever the file system held before is still there. *)
Theorem initialize_leaves_the_skeleton
    (out : Outside) (w w' : World) (idea : GameIdeaInput) :
  game_idea (w_state w) = Some idea ->
  initialize out w = (Return tt, w') ->
  (forall sub, sub ∈ SKELETON ->
     w_files w' !! PyPath.to_str (under (output_dir (w_state w')) (lit sub))
     = Some Directory)
  /\ (forall path f, w_files w !! path = Some f -> w_files w' !! path = Some f).
Proof.
  intros Hidea Hrun.
  destruct (initialize_result out w w' idea (Return tt) Hidea Hrun) as [_ Hmk].
  split.
  - intros sub Hin.
    eapply make_skeleton_made; eauto using skeleton_names_are_relative.
  - intros path f Hf. unfold FileSystem in *.
    eapply lookup_weaken; [exact Hf | eapply make_skeleton_grows; exact Hmk].
Qed.

Lemma initialize_leaves_the_skeleton_witness :
  w_files (initialize the_studio (fresh_world "0a1b2c3d")).2
    !! lit "output/dragon_s_gold___ii_20250314_092653/04_art/mood_boards"
  = Some Directory.
Proof.
  destruct (initialize_leaves_the_skeleton the_studio (fresh_world "0a1b2c3d")
              (initialize the_studio (fresh_world "0a1b2c3d")).2 dragons)
    as [Hdirs _].
  - reflexivity.
  - assert (Hdone : (initialize the_studio (fresh_world "0a1b2c3d")).1 = Return tt)
      by (vm_compute; reflexivity).
    rewrite <- Hdone. apply surjective_pairing.
  - replace (lit "output/dragon_s_gold___ii_20250314_092653/04_art/mood_boards")
      with (PyPath.to_str
              (under (output_dir (w_state (initialize the_studio
                                             (fresh_world "0a1b2c3d")).2))
                 (lit "04_art/mood_boards")))
      by (vm_compute; reflexivity).
    apply Hdirs. repeat constructor.
Defined.

End initialize_more.

(** ** Paths and their text *)

Section path_text.

Import PyStr PyPath.

Implicit Types (s w : pystr) (ws : list pystr) (p : Path).

Lemma split_slash_cons_free c s :
  c <> SLASH ->
  split_slash (c :: s)
  = match split_slash s with
    | [] => [[c]]
    | w :: ws => (c :: w) :: ws
    end.
Proof. intros Hc. simpl. now rewrite (proj2 (N.eqb_neq c SLASH) Hc). Qed.

Lemma split_slash_pieces s : Forall (Forall (fun c => c <> SLASH)) (split_slash s).
Proof.
  induction s as [|c s IH]; [repeat constructor|].
  destruct (N.eqb_spec c SLASH) as [->|Hc].
  - simpl. constructor; [constructor | exact IH].
  - rewrite split_slash_cons_free by assumption.
    destruct (split_slash s) as [|w ws]; [repeat constructor; assumption|].
    inversion IH; subst. repeat constructor; assumption.
Qed.

Lemma split_slash_free w : Forall (fun c => c <> SLASH) w -> split_slash w = [w].
Proof.
  induction 1 as [|c w Hc _ IH]; [reflexivity|].
  rewrite split_slash_cons_free by assumption. now rewrite IH.
Qed.

Lemma split_slash_app w s :
  Forall (fun c => c <> SLASH) w -> split_slash (w ++ SLASH :: s) = w :: split_slash s.
Proof.
  induction 1 as [|c w Hc _ IH]; [reflexivity|].
  rewrite <- app_comm_cons, split_slash_cons_free by assumption. now rewrite IH.
Qed.

Lemma split_join_slash ws :
  Forall is_component ws -> ws <> [] -> split_slash (join_slash ws) = ws.
Proof.
  induction 1 as [|w ws (_ & Hfree & _) Hws IH]; intros Hne; [contradiction|].
  destruct ws as [|w' ws'].
  - simpl. now apply split_slash_free.
  - change (join_slash (w :: w' :: ws')) with (w ++ SLASH :: join_slash (w' :: ws')).
    rewrite split_slash_app by assumption. now rewrite IH.
Qed.

Lemma keep_component_spec w : keep_component w = true <-> w <> [] /\ w <> [DOT].
Proof.
  unfold keep_component. rewrite andb_true_iff, !negb_true_iff, !bool_decide_eq_false.
  reflexivity.
Qed.

Lemma filter_components ws :
  Forall is_component ws -> filter (fun w => keep_component w = true) ws = ws.
Proof.
  induction 1 as [|w ws (Hne & _ & Hdot) _ IH]; [reflexivity|].
  rewrite filter_cons_True by (now apply keep_component_spec). now rewrite IH.
Qed.

Lemma root_of_cases s :
  root_of s = [] \/ root_of s = [SLASH] \/ root_of s = [SLASH; SLASH].
Proof.
  destruct s as [|a [|b [|c s]]]; simpl;
    repeat match goal with
           | |- context [(?x =? SLASH)%N] => destruct (x =? SLASH)%N
           end; auto.
Qed.

Lemma root_of_relative c s : c <> SLASH -> root_of (c :: s) = [].
Proof.
  intros Hc. apply N.eqb_neq in Hc.
  destruct s as [|b [|d s]]; simpl; now rewrite Hc.
Qed.

Lemma root_of_one_slash s :
  (forall c s', s = c :: s' -> c <> SLASH) -> root_of (SLASH :: s) = [SLASH].
Proof.
  intros Hfirst. destruct s as [|b s]; [reflexivity|].
  assert (Hb : (b =? SLASH)%N = false) by (apply N.eqb_neq; eauto).
  destruct s as [|d s]; simpl; now rewrite Hb.
Qed.

Lemma root_of_two_slashes s :
  (forall c s', s = c :: s' -> c <> SLASH) ->
  root_of (SLASH :: SLASH :: s) = [SLASH; SLASH].
Proof.
  intros Hfirst. destruct s as [|c s]; [reflexivity|].
  assert (Hc : (c =? SLASH)%N = false) by (apply N.eqb_neq; eauto).
  simpl. now rewrite Hc.
Qed.

(** The text of components joined by slashes begins like a component. *)
Lemma join_slash_first ws c s :
  Forall is_component ws -> join_slash ws = c :: s -> c <> SLASH.
Proof.
  intros Hws Hjoin. destruct Hws as [|w ws (Hne & Hfree & _) _]; [discriminate|].
  destruct w as [|c0 w]; [contradiction|].
  assert (c = c0) as ->.
  { destruct ws; simpl in Hjoin; now injection Hjoin. }
  now inversion Hfree.
Qed.

Lemma parse_normal s : normal (parse s).
Proof.
  split; [apply root_of_cases|].
  unfold parse. cbn [parts].
  apply Forall_forall. intros w Hw.
  apply list_elem_of_filter in Hw as [Hkeep Hw].
  apply keep_component_spec in Hkeep as [Hne Hdot].
  pose proof (split_slash_pieces s) as Hfree.
  rewrite Forall_forall in Hfree. repeat split; auto.
Qed.

Lemma joinpath_normal p s : normal p -> normal (joinpath p s).
Proof.
  intros [Hanchor Hparts]. unfold joinpath.
  destruct (root_of s); [|apply parse_normal].
  split; [exact Hanchor|]. cbn [parts].
  apply Forall_app. split; [exact Hparts | apply parse_normal].
Qed.

(** Reading the text of a path in normal form gives the path back. *)
Lemma parse_to_str p : normal p -> parse (to_str p) = p.
Proof.
  destruct p as [a ws]. intros [Hanchor Hws]. cbn [anchor parts] in *.
  assert (Hparts : forall pre : list pystr,
             filter (fun w => keep_component w = true) pre = [] ->
             match ws with
             | [] => filter (fun w => keep_component w = true) (pre ++ [[]]) = []
             | _ => filter (fun w => keep_component w = true)
                      (pre ++ split_slash (join_slash ws)) = ws
             end).
  { intros pre Hpre. destruct ws as [|w ws'].
    - now rewrite filter_app, Hpre.
    - rewrite filter_app, Hpre, split_join_slash by (assumption || discriminate).
      now apply filter_components. }
  assert (Hfirst : forall c s', join_slash ws = c :: s' -> c <> SLASH)
    by (intros c s'; now apply join_slash_first).
  unfold parse, to_str. cbn [anchor parts].
  destruct Hanchor as [-> | [-> | ->]].
  - destruct ws as [|w ws']; [reflexivity|].
    cbn [app].
    specialize (Hparts ([] : list pystr) eq_refl). cbn [app] in Hparts. rewrite Hparts.
    destruct (join_slash (w :: ws')) as [|c s'] eqn:Hjoin.
    + apply Forall_cons in Hws as [(Hne & _) _].
      destruct w; [contradiction|]. destruct ws'; simpl in Hjoin; discriminate.
    + now rewrite root_of_relative by eauto.
  - cbn [app]. rewrite root_of_one_slash by assumption. f_equal.
    change (split_slash (SLASH :: join_slash ws))
      with ([[]] ++ split_slash (join_slash ws)).
    specialize (Hparts ([[]] : list pystr) eq_refl).
    destruct ws; [reflexivity | exact Hparts].
  - cbn [app]. rewrite root_of_two_slashes by assumption. f_equal.
    change (split_slash (SLASH :: SLASH :: join_slash ws))
      with ([[]; []] ++ split_slash (join_slash ws)).
    specialize (Hparts ([[]; []] : list pystr) eq_refl).
    destruct ws; [reflexivity | exact Hparts].
Qed.

End path_text.

(** X15.  The output directory that [initialize] stores as text is read
    back by the later stages as the very path it was made from: the
    directory named by the slug directly under the output root; so every
    stage path built on the stored text lies under that directory. *)
Theorem stored_output_dir_is_read_back
    (out : Flow.Outside) (w w' : Flow.World) (idea : Flow.GameIdeaInput)
    (r : outcome unit) :
  Flow.game_idea (Flow.w_state w) = Some idea ->
  Flow.initialize out w = (r, w') ->
  PyPath.parse (Flow.output_dir (Flow.w_state w'))
  = PyPath.joinpath (Flow.output_root out) (Flow.game_slug (Flow.w_state w'))
  /\ (forall name,
        Flow.under (Flow.output_dir (Flow.w_state w')) name
        = PyPath.joinpath
            (PyPath.joinpath (Flow.output_root out) (Flow.game_slug (Flow.w_state w')))
            name).
Proof.
  intros Hidea Hrun.
  destruct (initialize_result out w w' idea r Hidea Hrun) as [Hst _].
  assert (Hparse : PyPath.parse (Flow.output_dir (Flow.w_state w'))
                   = PyPath.joinpath (Flow.output_root out)
                       (Flow.game_slug (Flow.w_state w'))).
  { rewrite Hst.
    cbn [Flow.output_dir Flow.game_slug Flow.set_output_dir Flow.set_game_slug].
    apply parse_to_str, joinpath_normal, parse_normal. }
  split; [exact Hparse|].
  intros name. unfold Flow.under. now rewrite Hparse.
Qed.

Lemma stored_output_dir_is_read_back_witness :
  Flow.under
    (Flow.output_dir (Flow.w_state (Flow.initialize the_studio (fresh_world "0a1b2c3d")).2))
    (PyStr.lit "06_pdf")
  = PyPath.mkPath []
      [PyStr.lit "output"; PyStr.lit "dragon_s_gold___ii_20250314_092653";
       PyStr.lit "06_pdf"].
Proof.
  destruct (stored_output_dir_is_read_back the_studio (fresh_world "0a1b2c3d")
              (Flow.initialize the_studio (fresh_world "0a1b2c3d")).2 dragons
              (Flow.initialize the_studio (fresh_world "0a1b2c3d")).1)
    as [_ Hunder].
  - reflexivity.
  - apply surjective_pairing.
  - rewrite Hunder. vm_compute. reflexivity.
Defined.

(** ** The web application *)

Section web_text.

Import PyStr Web.

Implicit Types (s r : pystr) (c : N).

Lemma lstrip_suffix s : exists pre, s = pre ++ lstrip s.
Proof.
  induction s as [|c s [pre IH]]; [by exists []|].
  simpl. destruct (is_space c).
  - exists (c :: pre). simpl. by rewrite <- IH.
  - by exists [].
Qed.

Lemma lstrip_head s c : head (lstrip s) = Some c -> is_space c = false.
Proof.
  induction s as [|d s IH]; [done|].
  simpl. destruct (is_space d) eqn:Hd; [exact IH|].
  simpl. by intros [= <-].
Qed.

Lemma lstrip_clean s :
  (forall c, head s = Some c -> is_space c = false) -> lstrip s = s.
Proof.
  destruct s as [|c s]; [done|]. intros Hc. simpl. by rewrite (Hc c eq_refl).
Qed.

Lemma head_rev s : head (rev s) = last s.
Proof.
  induction s as [|c s IH] using rev_ind; [done|].
  by rewrite rev_app_distr, last_snoc.
Qed.

Lemma last_rev s : last (rev s) = head s.
Proof. by rewrite <- head_rev, rev_involutive. Qed.

Lemma rstrip_prefix s : exists post, s = rstrip s ++ post.
Proof.
  unfold rstrip. destruct (lstrip_suffix (rev s)) as [pre Hpre].
  exists (rev pre).
  by rewrite <- rev_app_distr, <- Hpre, rev_involutive.
Qed.

Lemma trimmed_spec s :
  trimmed s = true
  <-> (forall c, head s = Some c -> is_space c = false)
      /\ (forall c, last s = Some c -> is_space c = false).
Proof.
  unfold trimmed. destruct s as [|c s].
  - simpl. split; [by split | done].
  - destruct (last (c :: s)) as [d|] eqn:Hlast.
    + simpl. rewrite andb_true_iff, !negb_true_iff. split.
      * intros [Hc Hd]. split; intros ? [= <-]; done.
      * intros [Hc Hd]. split; [by apply Hc | by apply Hd].
    + by apply last_None in Hlast.
Qed.

(** [strip] leaves no white space at either end. *)
Lemma strip_trimmed s : trimmed (strip s) = true.
Proof.
  apply trimmed_spec. split; intros c Hc.
  - destruct (rstrip_prefix (lstrip s)) as [post Hpost].
    apply (lstrip_head s). rewrite Hpost. fold (strip s).
    destruct (strip s); [done|]. exact Hc.
  - unfold strip, rstrip in Hc. rewrite last_rev in Hc.
    by apply lstrip_head in Hc.
Qed.

(** [strip] changes nothing in a text without white space at its ends. *)
Lemma strip_of_trimmed s : trimmed s = true -> strip s = s.
Proof.
  intros [Hhead Hlast]%trimmed_spec. unfold strip, rstrip.
  rewrite (lstrip_clean s) by exact Hhead.
  rewrite lstrip_clean; [apply rev_involutive|].
  intros c. rewrite head_rev. apply Hlast.
Qed.

(** What holds of every character of a text holds of those [strip] keeps. *)
Lemma strip_keeps (P : N -> Prop) s : Forall P s -> Forall P (strip s).
Proof.
  intros Hs. unfold strip.
  destruct (lstrip_suffix s) as [pre Hpre].
  destruct (rstrip_prefix (lstrip s)) as [post Hpost].
  rewrite Hpre, Hpost in Hs.
  by apply Forall_app in Hs as [_ [Hs _]%Forall_app].
Qed.

Lemma split_on_cons_other sep c s :
  c <> sep ->
  split_on sep (c :: s)
  = match split_on sep s with
    | [] => [[c]]
    | w :: ws => (c :: w) :: ws
    end.
Proof. intros Hc. simpl. by rewrite (proj2 (N.eqb_neq c sep) Hc). Qed.

Lemma split_on_pieces sep s : Forall (Forall (fun c => c <> sep)) (split_on sep s).
Proof.
  induction s as [|c s IH]; [repeat constructor|].
  destruct (N.eqb_spec c sep) as [->|Hc].
  - simpl. rewrite N.eqb_refl. by constructor.
  - rewrite split_on_cons_other by done.
    destruct (split_on sep s) as [|w ws]; [by repeat constructor|].
    inversion IH; subst. by repeat constructor.
Qed.

Lemma split_on_length sep s :
  length (split_on sep s) = S (count_occ N.eq_dec s sep).
Proof.
  induction s as [|c s IH]; [done|].
  destruct (N.eqb_spec c sep) as [->|Hc].
  - simpl. rewrite N.eqb_refl. simpl. rewrite IH.
    by destruct (N.eq_dec sep sep).
  - rewrite split_on_cons_other by done.
    rewrite count_occ_cons_neq by done.
    destruct (split_on sep s); simpl in *; [done | exact IH].
Qed.

End web_text.

(** X16.  The markets of a new pipeline: the list has one entry more than
    the field has commas, so it is never empty, and a field sent empty
    gives one empty market; no entry holds a comma or begins or ends with
    white space. *)
Theorem target_markets_has_an_entry_per_piece (form : Web.Form) :
  length (Web.target_markets form)
  = S (count_occ N.eq_dec
         (Web.form_get form "target_markets" (PyStr.lit "Georgia, Texas")) Web.COMMA)
  /\ Web.target_markets form <> []
  /\ Forall (fun m => Web.trimmed m = true /\ Forall (fun c => c <> Web.COMMA) m)
       (Web.target_markets form)
  /\ (form !! "target_markets" = None ->
      Web.target_markets form = [PyStr.lit "Georgia"; PyStr.lit "Texas"])
  /\ (forall more, form !! "target_markets" = Some ([] :: more) ->
      Web.target_markets form = [[]]).
Proof.
  unfold Web.target_markets.
  set (field := Web.form_get form "target_markets" (PyStr.lit "Georgia, Texas")).
  assert (Hlen : length (Web.strip <$> Web.split_on Web.COMMA field)
                 = S (count_occ N.eq_dec field Web.COMMA))
    by (by rewrite length_fmap, split_on_length).
  refine (conj Hlen (conj _ (conj _ (conj _ _)))).
  - intros Hnil. by rewrite Hnil in Hlen.
  - apply Forall_fmap. eapply Forall_impl; [apply split_on_pieces|].
    intros w Hw. simpl. split; [apply strip_trimmed | by apply strip_keeps].
  - intros Hnone. subst field. unfold Web.form_get, Web.Form, PyStr.pystr in *. rewrite Hnone.
    vm_compute. reflexivity.
  - intros more Hsome. subst field. unfold Web.form_get, Web.Form, PyStr.pystr in *.
    by rewrite Hsome.
Qed.

(** X17.  The competitor references of a new pipeline never hold an empty
    entry, an entry with a comma, or one that begins or ends with white
    space, whatever the form sends. *)
Theorem competitor_references_are_clean (form : Web.Form) :
  Forall (fun r => r <> [] /\ Web.trimmed r = true /\ Web.strip r = r
                   /\ Forall (fun c => c <> Web.COMMA) r)
    (Web.competitor_references form).
Proof.
  unfold Web.competitor_references.
  apply Forall_fmap, Forall_forall. intros r Hr.
  apply list_elem_of_filter in Hr as [Hkeep Hr]. simpl.
  pose proof (split_on_pieces Web.COMMA
                (Web.form_get form "competitor_references" [])) as Hpieces.
  rewrite Forall_forall in Hpieces.
  refine (conj _ (conj (strip_trimmed r) (conj _ _))).
  - intros Hnil. by rewrite Hnil in Hkeep.
  - apply strip_of_trimmed, strip_trimmed.
  - by apply strip_keeps, Hpieces.
Qed.

Section secret_key.

Import PyStr Web.

Implicit Types (s : pystr) (c b : N).

Lemma is_space_printable c : (32 < c < 133)%N -> is_space c = false.
Proof.
  intros [Hlo Hhi]. unfold is_space.
  replace (c <=? 13)%N with false by (symmetry; apply N.leb_gt; lia).
  replace (c <=? 32)%N with false by (symmetry; apply N.leb_gt; lia).
  replace (8192 <=? c)%N with false by (symmetry; apply N.leb_gt; lia).
  repeat match goal with
         | |- context [(c =? ?k)%N] =>
             replace (c =? k)%N with false by (symmetry; apply N.eqb_neq; lia)
         end.
  by rewrite !andb_false_r.
Qed.

Lemma hex_digit_printable b : (b < 16)%N -> is_space (hex_digit b) = false.
Proof.
  intros Hb. apply is_space_printable. unfold hex_digit.
  destruct (N.ltb_spec b 10); lia.
Qed.

Lemma token_hex_length bytes : length (token_hex bytes) = (2 * length bytes)%nat.
Proof. induction bytes as [|b bytes IH]; simpl in *; lia. Qed.

Lemma token_hex_chars bytes :
  Forall (fun b => (b < 256)%N) bytes ->
  Forall (fun c => is_space c = false) (token_hex bytes).
Proof.
  induction 1 as [|b bytes Hb _ IH]; [constructor|].
  simpl. repeat constructor; [| |exact IH]; apply hex_digit_printable.
  - apply N.Div0.div_lt_upper_bound. lia.
  - apply N.mod_upper_bound. lia.
Qed.

Lemma clear_is_trimmed s : Forall (fun c => is_space c = false) s -> trimmed s = true.
Proof.
  intros Hs. rewrite Forall_forall in Hs.
  apply trimmed_spec. split; intros c Hc; apply Hs.
  - destruct s; [done|]. injection Hc as ->. left.
  - apply last_Some in Hc as [pre ->]. apply elem_of_app. right. left.
Qed.

(** A fresh key is kept by [strip] and long enough to be accepted. *)
Lemma token_hex_accepted bytes :
  length bytes = 32%nat -> Forall (fun b => (b < 256)%N) bytes ->
  strip (token_hex bytes) = token_hex bytes
  /\ trimmed (token_hex bytes) = true
  /\ length (token_hex bytes) = 64%nat.
Proof.
  intros Hlen Hbytes.
  assert (Htrim : trimmed (token_hex bytes) = true)
    by (by apply clear_is_trimmed, token_hex_chars).
  refine (conj (strip_of_trimmed _ Htrim) (conj Htrim _)).
  rewrite token_hex_length. lia.
Qed.

End secret_key.

(** X18.  The secret key survives a restart: when the key file can be
    written, the next start of the process, whatever bytes the system
    hands out then and whether or not the disk can still be written,
    finds the same key and leaves the disk as it is. *)
Theorem secret_key_survives_a_restart
    (environ : gmap string PyStr.pystr) (disk : Web.Disk)
    (random_bytes later_bytes : list N) (writable : bool) :
  length random_bytes = 32%nat ->
  Forall (fun b => (b < 256)%N) random_bytes ->
  Web._get_or_create_secret_key environ
    (Web._get_or_create_secret_key environ disk true random_bytes).2
    writable later_bytes
  = Web._get_or_create_secret_key environ disk true random_bytes.
Proof.
  intros Hlen Hbytes.
  destruct (token_hex_accepted random_bytes Hlen Hbytes) as (Hstrip & _ & Hlong).
  unfold Web._get_or_create_secret_key.
  destruct (Web.py_or _ _) as [[|c k]|]; try reflexivity.
  all: unfold Web.Disk in *;
    set (file := PyPath.to_str (Web.key_file environ));
    destruct (disk !! file) as [[t|]|] eqn:Hfile; cbn [snd];
    try destruct (32 <=? length (Web.strip t))%nat eqn:Hkept; cbn [snd];
    rewrite ?Hfile, ?Hkept, ?lookup_insert_eq, ?Hstrip, ?Hlong; cbn;
    rewrite ?insert_insert_eq; reflexivity.
Qed.

Lemma secret_key_survives_a_restart_witness :
  Web._get_or_create_secret_key ∅
    (Web._get_or_create_secret_key ∅ ∅ true some_bytes).2 false []
  = Web._get_or_create_secret_key ∅ ∅ true some_bytes.
Proof.
  apply (secret_key_survives_a_restart ∅ ∅ some_bytes [] false).
  - reflexivity.
  - vm_compute. repeat constructor.
Defined.

(** X19.  Where the secret key comes from: a non-empty FLASK_SECRET_KEY
    of the environment is the key; failing that a non-empty SECRET_KEY;
    in both cases the disk is neither consulted nor written.  Without
    either, the key has at least 32 characters and no white space at its
    ends, whatever the key file holds: a shorter stored key is never
    used. *)
Theorem secret_key_is_the_given_or_a_long_one
    (environ : gmap string PyStr.pystr) (disk : Web.Disk)
    (writable : bool) (random_bytes : list N) :
  length random_bytes = 32%nat ->
  Forall (fun b => (b < 256)%N) random_bytes ->
  (forall k, environ !! "FLASK_SECRET_KEY" = Some k -> k <> [] ->
     Web._get_or_create_secret_key environ disk writable random_bytes = (k, disk))
  /\ (forall k, PyStr.truthy (environ !! "FLASK_SECRET_KEY") = false ->
        environ !! "SECRET_KEY" = Some k -> k <> [] ->
        Web._get_or_create_secret_key environ disk writable random_bytes = (k, disk))
  /\ (PyStr.truthy (environ !! "FLASK_SECRET_KEY") = false ->
      PyStr.truthy (environ !! "SECRET_KEY") = false ->
      let key := (Web._get_or_create_secret_key environ disk writable random_bytes).1 in
      (32 <= length key)%nat /\ Web.trimmed key = true).
Proof.
  intros Hlen Hbytes.
  destruct (token_hex_accepted random_bytes Hlen Hbytes) as (_ & Htrim & Hlong).
  unfold Web._get_or_create_secret_key, Web.py_or, PyStr.pystr in *.
  refine (conj _ (conj _ _)).
  - intros k -> Hk. destruct k; [done|]. reflexivity.
  - intros k -> -> Hk. destruct k; [done|]. reflexivity.
  - intros Hflask Hsecret. rewrite Hflask.
    destruct (environ !! "SECRET_KEY") as [[|c k]|]; try discriminate.
    all: unfold Web.Disk in *; cbv zeta;
      match goal with
      | |- context [@lookup ?K Web.stored ?M ?I ?file ?d] =>
          destruct (@lookup K Web.stored M I file d) as [[t|]|]
      end;
      try destruct (32 <=? length (Web.strip t))%nat eqn:Hkept; cbn [fst];
      rewrite ?Hlong; try (split; [lia | exact Htrim]).
    all: split; [by apply Nat.leb_le | apply strip_trimmed].
Qed.

Lemma secret_key_is_the_given_or_a_long_one_witness :
  Web._get_or_create_secret_key
    {[ "FLASK_SECRET_KEY" := []; "SECRET_KEY" := PyStr.lit "s3cret" ]}
    {[ PyStr.lit ".flask_secret_key" := Web.Text (PyStr.lit "short") ]}
    true some_bytes
  = (PyStr.lit "s3cret",
     {[ PyStr.lit ".flask_secret_key" := Web.Text (PyStr.lit "short") ]}).
Proof.
  assert (Hlen : length some_bytes = 32%nat) by reflexivity.
  assert (Hbytes : Forall (fun b => (b < 256)%N) some_bytes)
    by (vm_compute; repeat constructor).
  destruct (secret_key_is_the_given_or_a_long_one
              {[ "FLASK_SECRET_KEY" := []; "SECRET_KEY" := PyStr.lit "s3cret" ]}
              {[ PyStr.lit ".flask_secret_key" := Web.Text (PyStr.lit "short") ]}
              true some_bytes Hlen Hbytes) as (_ & Hsecret & _).
  apply Hsecret; [reflexivity | reflexivity | discriminate].
Defined.

Section launching.

Import Web.

Variable h : Host.

Lemma cleanup_finished_lookup (procs : gmap string proc) (id : string) (p : proc) :
  _cleanup_finished h procs !! id = Some p
  <-> procs !! id = Some p /\ poll h p = None.
Proof. unfold _cleanup_finished. by rewrite map_lookup_filter_Some. Qed.

(** The jobs table after the launch of a pipeline under a fresh id. *)
Lemma api_launch_pipeline_jobs job_id uid theme params_json worker_json now s :
  jobs s !! job_id = None ->
  jobs (api_launch_pipeline h job_id uid theme params_json worker_json now s).2
  = <[job_id := JobStore.mkJob uid "slot_pipeline" theme (Some params_json)
                  JobStore.queued (Some "Initializing") None None now None]> (jobs s).
Proof.
  intros Hfresh.
  unfold api_launch_pipeline, JobStore.api_launch_pipeline, JobStore.insert_job.
  rewrite Hfresh. by destruct (_spawn_worker _ _ _ _ _).
Qed.

End launching.

(** X20.  A pipeline launched under a fresh id is in the jobs table at
    once, whether or not its worker could be started: the status route
    answers queued, stage Initializing, no error; the answers for all
    other jobs are as before.  When the system starts the worker, the
    route redirects to the log page of the job and the register holds the
    new process, beside those of the earlier processes that have not
    ended and no others. *)
Theorem launched_job_is_seen_at_once
    (h : Web.Host) (job_id uid theme params_json : string)
    (worker_json : PyStr.pystr) (now : Z) (s : Web.Server) :
  Web.jobs s !! job_id = None ->
  let launched := Web.api_launch_pipeline h job_id uid theme params_json worker_json now s in
  Web.api_job_status job_id (Web.jobs launched.2)
  = Web.JobJson JobStore.queued (Some "Initializing") None
  /\ (forall other, other <> job_id ->
        Web.api_job_status other (Web.jobs launched.2)
        = Web.api_job_status other (Web.jobs s))
  /\ (forall p,
        Web.Popen h
          [PyStr.lit "python3"; PyStr.lit "-u"; Web.worker_path h;
           PyStr.lit "pipeline"; PyStr.lit job_id; worker_json]
          (Web.worker_env h) = Return p ->
        launched.1 = Return (Web.Redirect ("/job/" +:+ job_id +:+ "/logs"))
        /\ Web.running_procs launched.2 !! job_id = Some p
        /\ (forall other q, other <> job_id ->
              Web.running_procs launched.2 !! other = Some q
              <-> Web.running_procs s !! other = Some q /\ Web.poll h q = None)).
Proof.
  intros Hfresh launched.
  pose proof (api_launch_pipeline_jobs h job_id uid theme params_json worker_json
                now s Hfresh) as Hjobs.
  fold launched in Hjobs.
  refine (conj _ (conj _ _)).
  - unfold Web.api_job_status. by rewrite Hjobs, lookup_insert_eq.
  - intros other Hother. unfold Web.api_job_status.
    by rewrite Hjobs, lookup_insert_ne.
  - intros p Hstart. subst launched.
    unfold Web.api_launch_pipeline, JobStore.api_launch_pipeline, JobStore.insert_job.
    rewrite Hfresh. unfold Web._spawn_worker. cbn [app]. rewrite Hstart.
    cbn [fst snd Web.running_procs].
    refine (conj eq_refl (conj _ _)).
    + by rewrite lookup_insert_eq.
    + intros other q Hother. rewrite lookup_insert_ne by done.
      apply cleanup_finished_lookup.
Qed.

Lemma launched_job_is_seen_at_once_witness :
  Web.api_job_status "0a1b2c3d"
    (Web.jobs (Web.api_launch_pipeline a_full_host "0a1b2c3d" "u1" "Dragons" "{}"
                 (PyStr.lit "{}") 1000 (Web.mkServer ∅ ∅)).2)
  = Web.JobJson JobStore.queued (Some "Initializing") None.
Proof.
  apply (launched_job_is_seen_at_once a_full_host "0a1b2c3d" "u1" "Dragons" "{}"
           (PyStr.lit "{}") 1000 (Web.mkServer ∅ ∅)).
  reflexivity.
Defined.

(** X21.  When the system refuses to start the worker, the route fails
    with the system's exception, yet the job it has just committed stays
    in the table as queued, with no process behind it.  The start-up
    sweep ends such a job: a sweep more than 75 minutes after the launch
    marks it failed as timed out, an earlier one leaves it queued. *)
Theorem failed_spawn_leaves_a_queued_job
    (h : Web.Host) (job_id uid theme params_json : string)
    (worker_json : PyStr.pystr) (now : Z) (s : Web.Server) (e : exn) :
  Web.jobs s !! job_id = None ->
  Web.running_procs s !! job_id = None ->
  Web.Popen h
    [PyStr.lit "python3"; PyStr.lit "-u"; Web.worker_path h;
     PyStr.lit "pipeline"; PyStr.lit job_id; worker_json]
    (Web.worker_env h) = Raise e ->
  let launched := Web.api_launch_pipeline h job_id uid theme params_json worker_json now s in
  launched.1 = Raise e
  /\ Web.api_job_status job_id (Web.jobs launched.2)
     = Web.JobJson JobStore.queued (Some "Initializing") None
  /\ Web.running_procs launched.2 !! job_id = None
  /\ (forall later,
        Web.api_job_status job_id
          (JobStore._recover_stale_jobs later (Web.jobs launched.2)).1
        = if bool_decide (now + 75 * 60 < later)%Z
          then Web.JobJson JobStore.failed (Some "Initializing")
                 (Some JobStore.TIMED_OUT_ERROR)
          else Web.JobJson JobStore.queued (Some "Initializing") None).
Proof.
  intros Hfresh Hidle Hstart launched.
  pose proof (api_launch_pipeline_jobs h job_id uid theme params_json worker_json
                now s Hfresh) as Hjobs.
  fold launched in Hjobs.
  refine (conj _ (conj _ (conj _ _))).
  - subst launched.
    unfold Web.api_launch_pipeline, JobStore.api_launch_pipeline, JobStore.insert_job.
    rewrite Hfresh. unfold Web._spawn_worker. cbn [app]. by rewrite Hstart.
  - unfold Web.api_job_status. by rewrite Hjobs, lookup_insert_eq.
  - subst launched.
    unfold Web.api_launch_pipeline, JobStore.api_launch_pipeline, JobStore.insert_job.
    rewrite Hfresh. unfold Web._spawn_worker. cbn [app]. rewrite Hstart.
    cbn [snd Web.running_procs].
    destruct (Web._cleanup_finished h (Web.running_procs s) !! job_id) as [p|] eqn:Hp;
      [|done].
    apply cleanup_finished_lookup in Hp as [Hp _]. congruence.
  - intros later. unfold Web.api_job_status.
    rewrite recover_stale_jobs_lookup, Hjobs, lookup_insert_eq. cbn [fmap option_fmap option_map].
    unfold JobStore.is_stale, JobStore.stale_cutoff, JobStore.STALE_AFTER_SECONDS.
    cbn [JobStore.status JobStore.created_at].
    repeat case_bool_decide; try lia; reflexivity.
Qed.

Lemma failed_spawn_leaves_a_queued_job_witness :
  Web.api_job_status "0a1b2c3d"
    (JobStore._recover_stale_jobs 5501
       (Web.jobs (Web.api_launch_pipeline a_full_host "0a1b2c3d" "u1" "Dragons" "{}"
                    (PyStr.lit "{}") 1000 (Web.mkServer ∅ ∅)).2)).1
  = Web.JobJson JobStore.failed (Some "Initializing") (Some JobStore.TIMED_OUT_ERROR).
Proof.
  destruct (failed_spawn_leaves_a_queued_job a_full_host "0a1b2c3d" "u1" "Dragons" "{}"
              (PyStr.lit "{}") 1000 (Web.mkServer ∅ ∅)
              (Exn "BlockingIOError" "Resource temporarily unavailable"))
    as (_ & _ & _ & Hsweep); [reflexivity | reflexivity | reflexivity |].
  exact (Hsweep 5501%Z).
Defined.

Section browsing.

Import PyStr PyPath.

Lemma parse_component w : is_component w -> parse w = mkPath [] [w].
Proof.
  intros (Hne & Hfree & Hdot). unfold parse.
  rewrite split_slash_free by done.
  rewrite filter_cons_True by (by apply keep_component_spec).
  destruct w as [|c w]; [done|].
  rewrite root_of_relative; [done|]. by inversion Hfree.
Qed.

(** A path with a last component is its parent joined with its name. *)
Lemma parent_joined_with_name p :
  normal p -> parts p <> [] -> joinpath (parent p) (name p) = p /\ is_component (name p).
Proof.
  destruct p as [a ws]. intros [_ Hws] Hne. cbn [parts] in *.
  unfold parent, name. cbn [parts anchor].
  destruct (exists_last Hne) as (ws' & w & ->).
  rewrite List.last_last, removelast_last.
  apply Forall_app in Hws as [_ Hw]. apply Forall_cons in Hw as [Hw _].
  split; [|done].
  unfold joinpath. rewrite parse_component by done. cbn [anchor parts].
  destruct w as [|c w]; [by destruct Hw|].
  rewrite root_of_relative; [done|]. destruct Hw as (_ & Hfree & _). by inversion Hfree.
Qed.

End browsing.

(** X22.  What [browse_files] hands out for a file is the path
    [OUTPUT_DIR / subpath] itself, given as its parent directory and its
    bare name, which holds no slash; the sub-path is taken as it comes: a
    [..] among its components is a component of the path that is served,
    and a sub-path that begins with a slash replaces the output directory
    altogether. *)
Theorem browse_files_sends_the_path_as_asked
    (output_dir subpath : PyStr.pystr) (fs : Web.Files) :
  let target := PyPath.joinpath (PyPath.parse output_dir) subpath in
  Web.path_exists fs target = true ->
  Web.is_file fs target = true ->
  PyPath.parts target <> [] ->
  (exists directory filename,
     Web.browse_files (PyPath.parse output_dir) fs subpath
     = Web.SendFromDirectory directory filename
     /\ PyPath.joinpath directory filename = target
     /\ Forall (fun c => c <> PyPath.SLASH) filename)
  /\ (forall w, w ∈ PyPath.parts (PyPath.parse subpath) -> w ∈ PyPath.parts target)
  /\ (PyPath.root_of subpath <> [] -> target = PyPath.parse subpath).
Proof.
  intros target Hexists Hfile Hparts.
  assert (Hnormal : normal target) by apply joinpath_normal, parse_normal.
  destruct (parent_joined_with_name target Hnormal Hparts) as [Hjoin (_ & Hfree & _)].
  refine (conj _ (conj _ _)).
  - exists (PyPath.parent target), (PyPath.name target).
    unfold Web.browse_files. fold target. by rewrite Hexists, Hfile.
  - intros w Hw. subst target. unfold PyPath.joinpath.
    destruct (PyPath.root_of subpath); [|done].
    cbn [PyPath.parts]. apply elem_of_app. by right.
  - intros Hroot. subst target. unfold PyPath.joinpath.
    by destruct (PyPath.root_of subpath).
Qed.

Lemma browse_files_sends_the_path_as_asked_witness :
  Web.browse_files (PyPath.parse (PyStr.lit "./output"))
    (Web.mkFiles (fun _ => true) (fun _ => true)) (PyStr.lit "../arkainbrain.db")
  = Web.SendFromDirectory
      (PyPath.mkPath [] [PyStr.lit "output"; PyStr.lit ".."])
      (PyStr.lit "arkainbrain.db").
Proof.
  destruct (browse_files_sends_the_path_as_asked (PyStr.lit "./output")
              (PyStr.lit "../arkainbrain.db")
              (Web.mkFiles (fun _ => true) (fun _ => true)))
    as [(directory & filename & Hsent & _) _];
    [reflexivity | reflexivity | vm_compute; discriminate |].
  rewrite Hsent. vm_compute in Hsent. injection Hsent as <- <-.
  vm_compute. reflexivity.
Defined.
